(** * Contract comparison pipeline: data contracts, guardrails, alignment
      self-check and rule-based evaluator

    A shallow embedding of the validation and scoring logic of
    [src/models.py], [src/guardrails.py], [src/agents/extraction_agent.py]
    and [src/evaluator.py], followed by the properties established about it.

    Modelling conventions.
    - A Python [str] is a [string]; its characters stand for the code points
      0..255 (the Latin-1 range), with Python's classification of exactly
      these code points ([str.isspace], [str.isalpha], [str.isalnum],
      [str.lower]).  [len] is [String.length].  The results on trimming
      and de-duplication use no property of these tables.
    - A Python [float] is an exact rational ([Q]): scores, ratios and
      thresholds are computed without rounding.  Decimal literals such as
      [0.7] denote the rational they spell.
    - A Python [int] is a [Z]; list lengths are [nat] and are injected where
      Python mixes them with numbers.
    - A [dict] read with fixed keys and summed over is an insertion-ordered
      association list ([pydict]); the free-form [details] dictionaries are
      [gmap string pyval]; a [set] of strings is a [gset string].
    - An exception is a value of [exn]; code that may raise returns [Res].
    - Calls that leave the program (the file system, the image library, the
      regular-expression engine on the sensitive-data patterns, the
      formatting of floats and of library error objects) are fields of the
      [Host] class; the reading of the clock is an argument of
      [evaluate_output]. *)

From Stdlib Require Import String Ascii List ZArith QArith Qround Lia Lqa Bool.
From stdpp Require Import base gmap strings list pretty.

Local Open Scope Z_scope.

(** ** Exceptions and the result monad *)

(** One entry of a pydantic [ValidationError]: either a declared constraint
    ([min_length]) failed, or a [field_validator] raised [ValueError]. *)
Inductive field_error : Type :=
  | too_short (min_length : nat) (actual : nat)
  | value_error (msg : string).

Inductive exn : Type :=
  | TypeError (msg : string)
  | KeyError (key : string)
  | ZeroDivisionError
  | ValidationError (errors : list (string * field_error))
  | OSError (msg : string).

Inductive Res (A : Type) : Type :=
  | Ok (a : A)
  | Raise (e : exn).
Arguments Ok {A} a.
Arguments Raise {A} e.

(** Sequencing: [x ← m; k] runs [k] on the value of [m] and propagates an
    exception of [m]. *)
#[export] Instance Res_bind : MBind Res := fun A B k m =>
  match m with
  | Ok a => k a
  | Raise e => Raise e
  end.

(** ** Python values stored in [details] dictionaries *)

#[warnings="-register-all"]
Inductive pyval : Type :=
  | PNone
  | PBool (b : bool)
  | PInt (z : Z)
  | PFloat (q : Q)
  | PStr (s : string)
  | PList (l : list pyval)
  | PDict (d : list (string * pyval)).

Module Py.

(** [len(x)]: defined on sized objects only. *)
Definition len (v : pyval) : Res Z :=
  match v with
  | PStr s => Ok (Z.of_nat (String.length s))
  | PList l => Ok (Z.of_nat (length l))
  | PDict d => Ok (Z.of_nat (length d))
  | PNone => Raise (TypeError "object of type 'NoneType' has no len()")
  | PBool _ => Raise (TypeError "object of type 'bool' has no len()")
  | PInt _ => Raise (TypeError "object of type 'int' has no len()")
  | PFloat _ => Raise (TypeError "object of type 'float' has no len()")
  end.

(** The numeric value of an operand of [<] or [>] against a number. *)
Definition num (v : pyval) : Res Q :=
  match v with
  | PBool b => Ok (if b then 1%Q else 0%Q)
  | PInt z => Ok (inject_Z z)
  | PFloat q => Ok q
  | _ => Raise (TypeError "'<' not supported between these operands")
  end.

(** Truth value, as tested by [if x] and [not x]. *)
Definition truth (v : pyval) : bool :=
  match v with
  | PNone => false
  | PBool b => b
  | PInt z => negb (z =? 0)
  | PFloat q => negb (Qeq_bool q 0)
  | PStr s => negb (String.eqb s "")
  | PList l => match l with [] => false | _ => true end
  | PDict d => match d with [] => false | _ => true end
  end.

Definition ltb (a b : Q) : bool := if Qlt_le_dec a b then true else false.
Definition leb (a b : Q) : bool := Qle_bool a b.

(** [min(a, b)] returns [a] unless [b < a]; [max(a, b)] returns [a] unless
    [b > a]. *)
Definition min (a b : Q) : Q := if ltb b a then b else a.
Definition max (a b : Q) : Q := if ltb a b then b else a.

(** True division [a / b] of numbers. *)
Definition truediv (a b : Q) : Res Q :=
  if Qeq_bool b 0 then Raise ZeroDivisionError else Ok (a / b)%Q.

Definition of_nat (n : nat) : Q := inject_Z (Z.of_nat n).

(** [sum(l)] of a list of lengths. *)
Definition sum_nat (l : list nat) : nat := fold_left Nat.add l 0%nat.

(** [d.get(key, default)] on a [details] dictionary. *)
Definition get (d : gmap string pyval) (key : string) (default : pyval) : pyval :=
  match d !! key with
  | Some v => v
  | None => default
  end.

End Py.

(** ** Insertion-ordered dictionaries *)

Definition pydict (V : Type) : Type := list (string * V).

Module Dict.
Section Ops.
Context {V : Type}.

(** [d[k] = v]: overwrite in place, or append a new entry. *)
Fixpoint set (k : string) (v : V) (d : pydict V) : pydict V :=
  match d with
  | [] => [(k, v)]
  | (k', v') :: d' =>
      if String.eqb k k' then (k', v) :: d' else (k', v') :: set k v d'
  end.

Fixpoint get (d : pydict V) (k : string) : option V :=
  match d with
  | [] => None
  | (k', v') :: d' => if String.eqb k k' then Some v' else get d' k
  end.

(** [d[k]] raises [KeyError] on a missing key. *)
Definition getitem (d : pydict V) (k : string) : Res V :=
  match get d k with
  | Some v => Ok v
  | None => Raise (KeyError k)
  end.

Definition values (d : pydict V) : list V := map snd d.
Definition keys (d : pydict V) : list string := map fst d.
End Ops.
End Dict.

(** ** Python string operations *)

Module PyStr.

Definition in_range (lo hi n : nat) : bool := (lo <=? n)%nat && (n <=? hi)%nat.

(** [ch.isspace()] for code points below 256. *)
Definition isspace (c : ascii) : bool :=
  let n := nat_of_ascii c in
  in_range 9 13 n || in_range 28 32 n || (n =? 133)%nat || (n =? 160)%nat.

(** [ch.isalpha()] for code points below 256. *)
Definition isalpha (c : ascii) : bool :=
  let n := nat_of_ascii c in
  in_range 65 90 n || in_range 97 122 n
  || (n =? 170)%nat || (n =? 181)%nat || (n =? 186)%nat
  || in_range 192 214 n || in_range 216 246 n || in_range 248 255 n.

(** [ch.isalnum()] for code points below 256. *)
Definition isalnum (c : ascii) : bool :=
  let n := nat_of_ascii c in
  isalpha c || in_range 48 57 n
  || (n =? 178)%nat || (n =? 179)%nat || (n =? 185)%nat || in_range 188 190 n.

(** The regular-expression class [\w] on [str] patterns. *)
Definition is_word_char (c : ascii) : bool :=
  isalnum c || (nat_of_ascii c =? 95)%nat.

Definition lower_char (c : ascii) : ascii :=
  let n := nat_of_ascii c in
  if in_range 65 90 n || in_range 192 214 n || in_range 216 222 n
  then ascii_of_nat (n + 32)
  else c.

(** [s.lower()] *)
Fixpoint lower (s : string) : string :=
  match s with
  | EmptyString => EmptyString
  | String c s' => String (lower_char c) (lower s')
  end.

(** [s.lstrip()] *)
Fixpoint lstrip (s : string) : string :=
  match s with
  | EmptyString => EmptyString
  | String c s' => if isspace c then lstrip s' else s
  end.

(** [s.rstrip()] *)
Fixpoint rstrip (s : string) : string :=
  match s with
  | EmptyString => EmptyString
  | String c s' =>
      match rstrip s' with
      | EmptyString => if isspace c then EmptyString else String c EmptyString
      | String d r => String c (String d r)
      end
  end.

(** [s.strip()]: leading and trailing whitespace removed. *)
Definition strip (s : string) : string := rstrip (lstrip s).

(** [needle in hay] *)
Fixpoint contains (hay needle : string) : bool :=
  String.prefix needle hay
  || match hay with
     | EmptyString => false
     | String _ hay' => contains hay' needle
     end.

Definition cons_nonempty (w : string) (ws : list string) : list string :=
  match w with
  | EmptyString => ws
  | _ => w :: ws
  end.

(** The word being read at the head of [s], and the words after it. *)
Fixpoint words_from (s : string) : string * list string :=
  match s with
  | EmptyString => (EmptyString, [])
  | String c s' =>
      let '(w, ws) := words_from s' in
      if isspace c then (EmptyString, cons_nonempty w ws)
      else (String c w, ws)
  end.

(** [s.split()]: the maximal runs of non-whitespace characters. *)
Definition split (s : string) : list string :=
  let '(w, ws) := words_from s in cons_nonempty w ws.

(** The piece of [s] up to the next occurrence of [sep] and the pieces
    after it; the first [skip] characters belong to a separator that has
    already been matched. *)
Fixpoint pieces_from (sep s : string) (skip : nat) : string * list string :=
  match s with
  | EmptyString => (EmptyString, [])
  | String c s' =>
      match skip with
      | S k => pieces_from sep s' k
      | O =>
          if String.prefix sep s
          then let '(p, ps) := pieces_from sep s' (String.length sep - 1) in
               (EmptyString, p :: ps)
          else let '(p, ps) := pieces_from sep s' 0 in
               (String c p, ps)
      end
  end.

(** [s.split(sep)] for a non-empty separator (Python raises [ValueError]
    on an empty one; the program only passes [' - ']). *)
Definition split_on (sep s : string) : list string :=
  let '(p, ps) := pieces_from sep s 0 in p :: ps.

Definition is_sentence_end (c : ascii) : bool :=
  let n := nat_of_ascii c in
  (n =? 46)%nat || (n =? 33)%nat || (n =? 63)%nat.

(** The piece of [s] up to the next run of sentence punctuation and the
    pieces after it; [in_run] tells that the previous character was part
    of a run. *)
Fixpoint sentences_from (s : string) (in_run : bool) : string * list string :=
  match s with
  | EmptyString => (EmptyString, [])
  | String c s' =>
      if is_sentence_end c
      then let '(p, ps) := sentences_from s' true in
           if in_run then (p, ps) else (EmptyString, p :: ps)
      else let '(p, ps) := sentences_from s' false in
           (String c p, ps)
  end.

(** [re.split(r'[.!?]+', s)] *)
Definition re_split_sentences (s : string) : list string :=
  let '(p, ps) := sentences_from s false in p :: ps.

(** [re.sub(r'[^\w\s.-]', '', s)]: keep word characters, whitespace,
    [.] and [-]. *)
Fixpoint re_sub_section_key (s : string) : string :=
  match s with
  | EmptyString => EmptyString
  | String c s' =>
      let n := nat_of_ascii c in
      if is_word_char c || isspace c || (n =? 46)%nat || (n =? 45)%nat
      then String c (re_sub_section_key s')
      else re_sub_section_key s'
  end.

(** [sum(c.isalpha() for c in s)] *)
Fixpoint count_alpha (s : string) : nat :=
  match s with
  | EmptyString => O
  | String c s' => ((if isalpha c then 1 else 0) + count_alpha s')%nat
  end.

(** [sep.join(l)] *)
Fixpoint join (sep : string) (l : list string) : string :=
  match l with
  | [] => EmptyString
  | [x] => x
  | x :: l' => x +:+ sep +:+ join sep l'
  end.

End PyStr.

(** ** Data models ([src/models.py]) *)

Module Models.

(** What a [field_validator] does with a value: return the (possibly
    rewritten) value, or [raise ValueError(msg)]. *)
Inductive validated (A : Type) : Type :=
  | Valid (v : A)
  | Invalid (msg : string).
Arguments Valid {A} v.
Arguments Invalid {A} msg.

(** The declared constraint [Field(..., min_length=n)]. *)
Definition min_length {A : Type} (len : A -> nat) (n : nat) (v : A)
    : field_error + A :=
  if (len v <? n)%nat then inl (too_short n (len v)) else inr v.

(** A [field_validator] (mode "after") runs on a value that passed the
    declared constraints of its field. *)
Definition after {A : Type} (validator : A -> validated A)
    (r : field_error + A) : field_error + A :=
  match r with
  | inl e => inl e
  | inr v =>
      match validator v with
      | Valid v' => inr v'
      | Invalid msg => inl (value_error msg)
      end
  end.

Definition errors_of {A : Type} (name : string) (r : field_error + A)
    : list (string * field_error) :=
  match r with
  | inl e => [(name, e)]
  | inr _ => []
  end.

(** *** ParsedContract *)

Record ParsedContract : Type := {
  raw_text : string;
  document_type : string;
  sections_identified : list string
}.

Definition validate_document_type (v : string) : validated string :=
  if bool_decide (PyStr.lower v ∈ ["original"; "amendment"])
  then Valid (PyStr.lower v)
  else Invalid "document_type must be 'original' or 'amendment'".

(** [ParsedContract(raw_text=..., document_type=..., sections_identified=...)]
    and [ParsedContract.model_validate] on the dumped fields. *)
Definition new_ParsedContract (text kind : string) (sections : list string)
    : Res ParsedContract :=
  let f1 := min_length String.length 50 text in
  let f2 := after validate_document_type (inr kind) in
  match f1, f2 with
  | inr t, inr k =>
      Ok {| raw_text := t; document_type := k; sections_identified := sections |}
  | _, _ =>
      Raise (ValidationError
               (errors_of "raw_text" f1 ++ errors_of "document_type" f2))
  end.

(** *** AgentContext *)

Record AgentContext : Type := {
  document_structure : string;
  corresponding_sections : gmap string string;
  identified_change_areas : list string;
  context_summary : string
}.

Definition validate_section_mapping (v : gmap string string)
    : validated (gmap string string) :=
  if bool_decide (size v = 0%nat)
  then Invalid "corresponding_sections cannot be empty"
  else Valid v.

Definition new_AgentContext (structure : string) (mapping : gmap string string)
    (areas : list string) (summary : string) : Res AgentContext :=
  let f1 := min_length String.length 100 structure in
  let f2 := after validate_section_mapping (inr mapping) in
  let f3 := min_length (@length string) 1 areas in
  let f4 := min_length String.length 50 summary in
  match f1, f2, f3, f4 with
  | inr s, inr m, inr a, inr c =>
      Ok {| document_structure := s; corresponding_sections := m;
            identified_change_areas := a; context_summary := c |}
  | _, _, _, _ =>
      Raise (ValidationError
               (errors_of "document_structure" f1
                ++ errors_of "corresponding_sections" f2
                ++ errors_of "identified_change_areas" f3
                ++ errors_of "context_summary" f4))
  end.

(** *** ContractChangeOutput *)

Record ContractChangeOutput : Type := {
  sections_changed : list string;
  topics_touched : list string;
  summary_of_the_change : string
}.

(** [len(s.strip()) > 0] *)
Definition non_blank (s : string) : bool :=
  (0 <? String.length (PyStr.strip s))%nat.

(** One iteration of
    [if x not in seen: seen.add(x); unique.append(x)]. *)
Definition dedup_step (st : gset string * list string) (x : string)
    : gset string * list string :=
  if bool_decide (x ∈ st.1) then st else ({[x]} ∪ st.1, st.2 ++ [x]).

(** The loop shared by [validate_sections] and [validate_topics]:
    [seen = set(); unique = []; for x in v: ...; return unique]. *)
Definition remove_duplicates (v : list string) : list string :=
  (fold_left dedup_step v (∅, [])).2.

Definition validate_sections (v : list string) : validated (list string) :=
  if forallb non_blank v then Valid (remove_duplicates v)
  else Invalid "All section identifiers must be non-empty strings".

Definition validate_topics (v : list string) : validated (list string) :=
  if forallb non_blank v then Valid (remove_duplicates v)
  else Invalid "All topics must be non-empty strings".

Definition validate_summary (v : string) : validated string :=
  if (String.length (PyStr.strip v) <? 100)%nat
  then Invalid "Summary must be at least 100 characters to provide adequate detail"
  else Valid (PyStr.strip v).

(** [ContractChangeOutput(sections_changed=..., topics_touched=...,
    summary_of_the_change=...)]: every field is validated, and all field
    errors are reported together. *)
Definition new_ContractChangeOutput (sections topics : list string)
    (summary : string) : Res ContractChangeOutput :=
  let f1 := after validate_sections (min_length (@length string) 1 sections) in
  let f2 := after validate_topics (min_length (@length string) 1 topics) in
  let f3 := after validate_summary (min_length String.length 100 summary) in
  match f1, f2, f3 with
  | inr s, inr t, inr m =>
      Ok {| sections_changed := s; topics_touched := t;
            summary_of_the_change := m |}
  | _, _, _ =>
      Raise (ValidationError
               (errors_of "sections_changed" f1
                ++ errors_of "topics_touched" f2
                ++ errors_of "summary_of_the_change" f3))
  end.

(** The serialized form [model_dump()] of a change record: its three
    fields by name. *)
Record ChangeOutputDump : Type := {
  dump_sections_changed : list string;
  dump_topics_touched : list string;
  dump_summary_of_the_change : string
}.

Definition model_dump (c : ContractChangeOutput) : ChangeOutputDump :=
  {| dump_sections_changed := sections_changed c;
     dump_topics_touched := topics_touched c;
     dump_summary_of_the_change := summary_of_the_change c |}.

(** Reconstruction of a record from its dumped fields. *)
Definition model_validate (d : ChangeOutputDump) : Res ContractChangeOutput :=
  new_ContractChangeOutput (dump_sections_changed d) (dump_topics_touched d)
    (dump_summary_of_the_change d).

End Models.

(** ** The environment of the program *)

(** Results of the calls that leave the program.  They are parameters of the
    guardrail checks: the properties below hold in every environment, and
    say so where an outcome depends on an answer. *)
Class Host : Type := {
  (** [re.compile(pattern).findall(text)] *)
  re_findall : string -> string -> list string;
  (** [format(x, spec)], the conversion used by [f"{x:spec}"] on a float *)
  format_float : string -> Q -> string;
  (** [str(e)] of a caught exception *)
  str_of_exn : exn -> string;
  (** [str(l)] of a list of strings *)
  str_of_list : list string -> string;
  (** [Path(p).exists()]: the answer, or the [OSError] it lets through (it
      only turns "not found" kinds of errors into [False]) *)
  path_exists : string -> Res bool;
  (** [Path(p).suffix] *)
  path_suffix : string -> string;
  (** [Image.open(p)]: the image's [size] and [mode], or the exception *)
  image_open : string -> Res (pyval * pyval);
  (** [os.path.getsize(p)] *)
  getsize : string -> Res Z
}.

(** ** Guardrails ([src/guardrails.py]) *)

Module Guardrails.
Import Models.

(** The attributes set by [ContractGuardrails.__init__]. *)
Record ContractGuardrails : Type := {
  min_text_length : Z;
  max_text_length : Z;
  max_file_size_mb : Q;
  allowed_extensions : list string;
  sensitive_patterns : pydict string
}.

(** [ContractGuardrails(min_text_length, max_text_length,
    max_file_size_mb, allowed_extensions)]; [None] or an empty list of
    extensions selects the default list. *)
Definition new_ContractGuardrails (min_len max_len : Z) (max_mb : Q)
    (extensions : option (list string)) : ContractGuardrails :=
  {| min_text_length := min_len;
     max_text_length := max_len;
     max_file_size_mb := max_mb;
     allowed_extensions :=
       match extensions with
       | Some (e :: es) => e :: es
       | _ => [".jpg"; ".jpeg"; ".png"; ".pdf"]
       end;
     sensitive_patterns :=
       [("ssn", "\b\d{3}-\d{2}-\d{4}\b");
        ("credit_card", "\b\d{4}[\s-]?\d{4}[\s-]?\d{4}[\s-]?\d{4}\b");
        ("email", "\b[A-Za-z0-9._%+-]+@[A-Za-z0-9.-]+\.[A-Z|a-z]{2,}\b");
        ("phone", "\b(\+\d{1,2}\s?)?(\()?\d{3}(\))?[\s.-]?\d{3}[\s.-]?\d{4}\b")]
  |}.

(** [ContractGuardrails()] *)
Definition default_guardrails : ContractGuardrails :=
  new_ContractGuardrails 50 50000 10 None.

(** The [results] dictionary of [validate_input] and [validate_output];
    [details] is [None] where the dictionary has no such key. *)
Record Results : Type := {
  is_valid : bool;
  checks_passed : Z;
  total_checks : Z;
  warnings : list string;
  errors : list string;
  details : option (gmap string pyval)
}.

(** [results['total_checks'] += 1] *)
Definition count_check (r : Results) : Results :=
  {| is_valid := is_valid r; checks_passed := checks_passed r;
     total_checks := total_checks r + 1; warnings := warnings r;
     errors := errors r; details := details r |}.

(** [results['checks_passed'] += 1] *)
Definition pass_check (r : Results) : Results :=
  {| is_valid := is_valid r; checks_passed := checks_passed r + 1;
     total_checks := total_checks r; warnings := warnings r;
     errors := errors r; details := details r |}.

(** [results['errors'].append(msg)] *)
Definition add_error (msg : string) (r : Results) : Results :=
  {| is_valid := is_valid r; checks_passed := checks_passed r;
     total_checks := total_checks r; warnings := warnings r;
     errors := errors r ++ [msg]; details := details r |}.

(** [results['warnings'].append(msg)] *)
Definition add_warning (msg : string) (r : Results) : Results :=
  {| is_valid := is_valid r; checks_passed := checks_passed r;
     total_checks := total_checks r; warnings := warnings r ++ [msg];
     errors := errors r; details := details r |}.

(** [results['details'][key] = v]; [KeyError] without a [details] entry. *)
Definition set_detail (key : string) (v : pyval) (r : Results) : Res Results :=
  match details r with
  | Some d =>
      Ok {| is_valid := is_valid r; checks_passed := checks_passed r;
            total_checks := total_checks r; warnings := warnings r;
            errors := errors r; details := Some (<[key := v]> d) |}
  | None => Raise (KeyError "details")
  end.

(** [results['is_valid'] = len(results['errors']) == 0] *)
Definition set_is_valid (r : Results) : Results :=
  {| is_valid := (length (errors r) =? 0)%nat; checks_passed := checks_passed r;
     total_checks := total_checks r; warnings := warnings r;
     errors := errors r; details := details r |}.

Section Checks.
Context `{Host}.
Variable self : ContractGuardrails.

Definition _check_text_length (contract : ParsedContract) (results : Results)
    : Res Results :=
  let results := count_check results in
  let text_length := Z.of_nat (String.length (raw_text contract)) in
  results ← set_detail "text_length" (PInt text_length) results;
  if text_length <? min_text_length self then
    Ok (add_error
          ("Text too short (" +:+ pretty text_length +:+ " chars, minimum "
           +:+ pretty (min_text_length self) +:+ ")") results)
  else if text_length >? max_text_length self then
    Ok (add_error
          ("Text too long (" +:+ pretty text_length +:+ " chars, maximum "
           +:+ pretty (max_text_length self) +:+ ")") results)
  else Ok (pass_check results).

Definition _check_text_quality (contract : ParsedContract) (results : Results)
    : Res Results :=
  let results := count_check results in
  let text := raw_text contract in
  let words := PyStr.split text in
  let word_count := Z.of_nat (length words) in
  results ← set_detail "word_count" (PInt word_count) results;
  if word_count <? 20 then
    Ok (add_error
          ("Too few words (" +:+ pretty word_count
           +:+ ", expected at least 20)") results)
  else
    avg_word_length ←
      Py.truediv (Py.of_nat (Py.sum_nat (map String.length words)))
                 (Py.of_nat (length words));
    results ← set_detail "avg_word_length" (PFloat avg_word_length) results;
    let results :=
      if Py.ltb avg_word_length 2 || Py.ltb 20 avg_word_length
      then add_warning
             ("Unusual average word length ("
              +:+ format_float ".1f" avg_word_length
              +:+ "), possible OCR errors") results
      else results in
    let alpha_chars := PyStr.count_alpha text in
    alpha_ratio ←
      (if String.eqb text "" then Ok 0%Q
       else Py.truediv (Py.of_nat alpha_chars)
                       (Py.of_nat (String.length text)));
    results ← set_detail "alpha_ratio" (PFloat alpha_ratio) results;
    let results :=
      if Py.ltb alpha_ratio 0.5
      then add_warning
             ("Low alphabetic character ratio ("
              +:+ format_float ".2%" alpha_ratio
              +:+ "), possible parsing issues") results
      else results in
    Ok (pass_check results).

Definition _check_sections (contract : ParsedContract) (results : Results)
    : Res Results :=
  let results := count_check results in
  let sections := sections_identified contract in
  results ← set_detail "sections_count" (PInt (Z.of_nat (length sections))) results;
  let results :=
    if (length sections =? 0)%nat
    then add_warning
           "No sections identified - contract structure may be unclear" results
    else results in
  let results :=
    if negb (length sections =? size (list_to_set sections : gset string))%nat
    then add_warning "Duplicate sections detected" results
    else results in
  Ok (pass_check results).

(** [contract.model_validate(contract.model_dump())] inside
    [try ... except ValidationError]. *)
Definition _check_pydantic_model (contract : ParsedContract) (results : Results)
    : Res Results :=
  let results := count_check results in
  match new_ParsedContract (raw_text contract) (document_type contract)
          (sections_identified contract) with
  | Ok _ => Ok (pass_check results)
  | Raise (ValidationError es) =>
      Ok (add_error
            ("Pydantic validation failed: " +:+ str_of_exn (ValidationError es))
            results)
  | Raise e => Raise e
  end.

Definition _check_file_integrity (file_path : string) (results : Results)
    : Res Results :=
  let results := count_check results in
  found ← path_exists file_path;
  if negb found then
    Ok (add_error ("File not found: " +:+ file_path) results)
  else
    let extension := PyStr.lower (path_suffix file_path) in
    results ← set_detail "file_extension" (PStr extension) results;
    if negb (bool_decide (extension ∈ allowed_extensions self)) then
      Ok (add_error
            ("Invalid file extension " +:+ extension +:+ ", allowed: "
             +:+ str_of_list (allowed_extensions self)) results)
    else if bool_decide (extension ∈ [".jpg"; ".jpeg"; ".png"]) then
      match image_open file_path with
      | Ok (img_size, img_mode) =>
          results ← set_detail "image_size" img_size results;
          results ← set_detail "image_mode" img_mode results;
          Ok (pass_check results)
      | Raise e =>
          Ok (add_error ("Cannot open image: " +:+ str_of_exn e) results)
      end
    else Ok (pass_check results).

(** The body of the [try] block of [_check_file_size]. *)
Definition file_size_body (file_path : string) (results : Results)
    : Res Results :=
  file_size_bytes ← getsize file_path;
  let file_size_mb := (inject_Z file_size_bytes / inject_Z (1024 * 1024))%Q in
  results ← set_detail "file_size_mb" (PFloat file_size_mb) results;
  if Py.ltb (max_file_size_mb self) file_size_mb then
    Ok (add_error
          ("File too large (" +:+ format_float ".2f" file_size_mb
           +:+ "MB, maximum " +:+ format_float "" (max_file_size_mb self)
           +:+ "MB)") results)
  else Ok (pass_check results).

(** [try: ... except Exception as e: results['warnings'].append(...)];
    an exception leaves [results] as it was when the [try] was entered. *)
Definition _check_file_size (file_path : string) (results : Results)
    : Res Results :=
  let results := count_check results in
  match file_size_body file_path results with
  | Ok results' => Ok results'
  | Raise e =>
      Ok (add_warning ("Could not check file size: " +:+ str_of_exn e) results)
  end.

(** The loop over [self.sensitive_patterns.items()]: the number of
    matches of every pattern that matches at all. *)
Fixpoint scan_patterns (patterns : pydict string) (text : string)
    : pydict Z :=
  match patterns with
  | [] => []
  | (data_type, pattern) :: rest =>
      let matches := re_findall pattern text in
      match matches with
      | [] => scan_patterns rest text
      | _ :: _ =>
          (data_type, Z.of_nat (length matches)) :: scan_patterns rest text
      end
  end.

Definition _check_sensitive_data (contract : ParsedContract) (results : Results)
    : Res Results :=
  let text := raw_text contract in
  let sensitive_found := scan_patterns (sensitive_patterns self) text in
  match sensitive_found with
  | [] => Ok results
  | _ :: _ =>
      results ← set_detail "sensitive_data_detected"
                  (PDict (map (fun kv => (kv.1, PInt kv.2)) sensitive_found))
                  results;
      Ok (add_warning
            ("Sensitive data detected: "
             +:+ PyStr.join ", " (Dict.keys sensitive_found)
             +:+ ". " +:+ "Ensure proper data handling procedures.") results)
  end.

(** [if file_path:] holds for a path that is neither [None] nor empty. *)
Definition path_given (file_path : option string) : option string :=
  match file_path with
  | Some p => if String.eqb p "" then None else Some p
  | None => None
  end.

Definition validate_input (contract : ParsedContract)
    (file_path : option string) : Res Results :=
  let results :=
    {| is_valid := true; checks_passed := 0; total_checks := 0;
       warnings := []; errors := []; details := Some ∅ |} in
  results ← _check_text_length contract results;
  results ← _check_text_quality contract results;
  results ← _check_sections contract results;
  results ← _check_pydantic_model contract results;
  results ←
    match path_given file_path with
    | Some p =>
        results ← _check_file_integrity p results;
        _check_file_size p results
    | None => Ok results
    end;
  results ← _check_sensitive_data contract results;
  Ok (set_is_valid results).

Definition validate_output (output : ContractChangeOutput)
    (original_contract amendment_contract : ParsedContract) : Results :=
  let results :=
    {| is_valid := true; checks_passed := 0; total_checks := 0;
       warnings := []; errors := []; details := None |} in
  let results := count_check results in
  let results :=
    if (length (sections_changed output) =? 0)%nat
    then add_warning "No sections changed identified" results
    else pass_check results in
  let results := count_check results in
  let results :=
    if (length (topics_touched output) =? 0)%nat
    then add_warning "No topics identified" results
    else pass_check results in
  let results := count_check results in
  let results :=
    if (String.length (summary_of_the_change output) <? 100)%nat
    then add_error "Summary too short" results
    else pass_check results in
  let results := count_check results in
  let combined_text :=
    raw_text original_contract +:+ raw_text amendment_contract in
  let topics_found :=
    length
      (List.filter
         (fun topic =>
            PyStr.contains (PyStr.lower combined_text) (PyStr.lower topic))
         (topics_touched output)) in
  let results :=
    if (topics_found =? 0)%nat && (0 <? length (topics_touched output))%nat
    then add_warning
           "Topics do not appear in source documents - possible hallucination"
           results
    else pass_check results in
  set_is_valid results.

End Checks.
End Guardrails.

(** ** Alignment self-check ([src/agents/extraction_agent.py]) *)

Module ExtractionAgent.
Import Models.

(** [area.split(' - ')[0] if ' - ' in area else area]; [split] never
    returns an empty list. *)
Definition section_id (area : string) : string :=
  if PyStr.contains area " - "
  then match PyStr.split_on " - " area with
       | p :: _ => p
       | [] => area
       end
  else area.

(** The set built by [for area in areas: ids.add(<section id of area>)]. *)
Definition section_ids (areas : list string) : gset string :=
  fold_left (fun ids area => {[section_id area]} ∪ ids) areas ∅.

(** [round(x, 2)] on the exact value: nearest multiple of 1/100, ties to
    the even one.  The code rounds the binary64 product, whose last place
    can differ from the exact one, so the two agree up to the rounding of
    that product (they agree at 0 and at 100); the properties below use the
    score at those two values and otherwise only to within a hundredth. *)
Definition round2 (x : Q) : Q :=
  let scaled := (x * 100)%Q in
  let n := Qfloor scaled in
  let frac := (scaled - inject_Z n)%Q in
  let rounded :=
    if Py.ltb frac (1 # 2) then n
    else if Py.ltb (1 # 2) frac then n + 1
    else if Z.even n then n else n + 1 in
  (inject_Z rounded / 100)%Q.

Record Alignment : Type := {
  all_areas_covered : bool;
  no_extra_sections : bool;
  alignment_score : Q;
  covered_sections : list string;
  missed_sections : list string;
  extra_sections : list string
}.

(** [len(covered_sections) / len(agent1_sections) if agent1_sections else 0] *)
Definition coverage_ratio (agent1_sections agent2_sections : gset string)
    : Res Q :=
  let covered_sections := agent1_sections ∩ agent2_sections in
  if (size agent1_sections =? 0)%nat then Ok 0%Q
  else Py.truediv (Py.of_nat (size covered_sections))
                  (Py.of_nat (size agent1_sections)).

(** The lists made from sets come in an unspecified order, here the order
    of [elements]. *)
Definition validate_against_context (changes : ContractChangeOutput)
    (context : AgentContext) : Res Alignment :=
  let agent1_sections := section_ids (identified_change_areas context) in
  let agent2_sections := section_ids (sections_changed changes) in
  let covered_sections := agent1_sections ∩ agent2_sections in
  ratio ← coverage_ratio agent1_sections agent2_sections;
  Ok {| all_areas_covered := Py.leb 0.8 ratio;
        no_extra_sections :=
          bool_decide (agent2_sections ⊆ agent1_sections ∪ {["[NEW]"]});
        alignment_score := round2 (ratio * 100);
        covered_sections := elements covered_sections;
        missed_sections := elements (agent1_sections ∖ agent2_sections);
        extra_sections := elements (agent2_sections ∖ agent1_sections) |}.

End ExtractionAgent.

(** ** Rule-based evaluator ([src/evaluator.py]) *)

Module Evaluator.
Import Models.

(** The [results] dictionary of [evaluate_output]. *)
Record EvalResults : Type := {
  timestamp : string;
  dimension_scores : pydict Q;
  overall_score : Q;
  grade : string;
  recommendations : list string;
  details : gmap string pyval
}.

(** [results['details'][key] = v] *)
Definition set_detail (key : string) (v : pyval) (r : EvalResults) : EvalResults :=
  {| timestamp := timestamp r; dimension_scores := dimension_scores r;
     overall_score := overall_score r; grade := grade r;
     recommendations := recommendations r;
     details := <[key := v]> (details r) |}.

(** [results['dimension_scores'][key] = v] *)
Definition set_score (key : string) (v : Q) (r : EvalResults) : EvalResults :=
  {| timestamp := timestamp r;
     dimension_scores := Dict.set key v (dimension_scores r);
     overall_score := overall_score r; grade := grade r;
     recommendations := recommendations r; details := details r |}.

(** [max(0.0, min(100.0, score))] *)
Definition clamp (score : Q) : Q := Py.max 0 (Py.min 100 score).

(** [sum(l)]: left to right from 0. *)
Definition sum (l : list Q) : Q := fold_left Qplus l 0%Q.

(** [sum(1 for x in l if p(x))] *)
Definition count {A : Type} (p : A -> bool) (l : list A) : Z :=
  Z.of_nat (length (List.filter p l)).

(** [count / len(l) if l else 0] *)
Definition ratio_of {A : Type} (n : Z) (l : list A) : Res Q :=
  match l with
  | [] => Ok 0%Q
  | _ :: _ => Py.truediv (inject_Z n) (Py.of_nat (length l))
  end.

(** The summary-length check of [_evaluate_completeness]:
    [if summary_length < 200: score *= 0.7
     elif summary_length < 100: score *= 0.3]. *)
Definition summary_length_penalty (summary_length : Z) (score : Q) : Q :=
  if summary_length <? 200 then (score * 0.7)%Q
  else if summary_length <? 100 then (score * 0.3)%Q
  else score.

Definition _evaluate_completeness (changes : ContractChangeOutput)
    (context : AgentContext) (results : EvalResults) : Res EvalResults :=
  let score := 100%Q in
  let identified_areas := Z.of_nat (length (identified_change_areas context)) in
  let sections_changed := Z.of_nat (length (sections_changed changes)) in
  let results := set_detail "identified_change_areas" (PInt identified_areas) results in
  let results := set_detail "sections_changed" (PInt sections_changed) results in
  '(score, results) ←
    (if sections_changed <? identified_areas then
       coverage_ratio ←
         Py.truediv (inject_Z sections_changed) (inject_Z identified_areas);
       Ok ((score * coverage_ratio)%Q,
           set_detail "coverage_ratio" (PFloat coverage_ratio) results)
     else Ok (score, set_detail "coverage_ratio" (PFloat 1) results));
  let score := if sections_changed =? 0 then 0%Q else score in
  let score :=
    if (length (topics_touched changes) =? 0)%nat then (score * 0.5)%Q
    else score in
  let summary_length := Z.of_nat (String.length (summary_of_the_change changes)) in
  let score := summary_length_penalty summary_length score in
  Ok (set_score "completeness" (clamp score) results).

(** [any(word in text for word in words if len(word) > 3)] *)
Definition any_long_word_in (words : list string) (text : string) : bool :=
  existsb (fun word => PyStr.contains text word)
    (List.filter (fun word => (3 <? String.length word)%nat) words).

Definition _evaluate_accuracy (changes : ContractChangeOutput)
    (original_contract amendment_contract : ParsedContract)
    (results : EvalResults) : Res EvalResults :=
  let combined_text :=
    PyStr.lower (raw_text original_contract) +:+ " "
    +:+ PyStr.lower (raw_text amendment_contract) in
  let section_found_count :=
    count (fun section =>
             let section_key := PyStr.re_sub_section_key (PyStr.lower section) in
             PyStr.contains combined_text section_key)
          (sections_changed changes) in
  section_accuracy ← ratio_of section_found_count (sections_changed changes);
  let results := set_detail "section_accuracy" (PFloat section_accuracy) results in
  let topic_found_count :=
    count (fun topic =>
             let topic_words := PyStr.split (PyStr.lower topic) in
             any_long_word_in topic_words combined_text)
          (topics_touched changes) in
  topic_relevance ← ratio_of topic_found_count (topics_touched changes);
  let results := set_detail "topic_relevance" (PFloat topic_relevance) results in
  let score := ((section_accuracy * 0.6 + topic_relevance * 0.4) * 100)%Q in
  Ok (set_score "accuracy" (clamp score) results).

Definition structure_indicators : list string :=
  ["first"; "second"; "third"; "finally";
   "additionally"; "furthermore"; "moreover";
   "however"; "therefore"; "consequently"].

(** [[s.strip() for s in re.split(r'[.!?]+', summary) if s.strip()]] *)
Definition split_sentences (summary : string) : list string :=
  map PyStr.strip
    (List.filter (fun s => negb (String.eqb (PyStr.strip s) ""))
       (PyStr.re_split_sentences summary)).

Definition _evaluate_clarity (changes : ContractChangeOutput)
    (results : EvalResults) : Res EvalResults :=
  let score := 100%Q in
  let summary := summary_of_the_change changes in
  let sentences := split_sentences summary in
  let results :=
    set_detail "sentence_count" (PInt (Z.of_nat (length sentences))) results in
  let score := if (length sentences =? 1)%nat then (score * 0.7)%Q else score in
  '(score, results) ←
    match sentences with
    | [] => Ok (score, results)
    | _ :: _ =>
        avg_sentence_length ←
          Py.truediv
            (Py.of_nat (Py.sum_nat
                          (map (fun s => length (PyStr.split s)) sentences)))
            (Py.of_nat (length sentences));
        let results :=
          set_detail "avg_sentence_length" (PFloat avg_sentence_length) results in
        Ok (if Py.ltb avg_sentence_length 10 || Py.ltb 50 avg_sentence_length
            then (score * 0.8)%Q else score,
            results)
    end;
  let has_structure :=
    existsb (fun indicator => PyStr.contains (PyStr.lower summary) indicator)
      structure_indicators in
  let results := set_detail "has_structure_indicators" (PBool has_structure) results in
  let score :=
    if negb has_structure && (2 <? length sentences)%nat then (score * 0.9)%Q
    else score in
  Ok (set_score "clarity" (clamp score) results).

Definition generic_topics : list string :=
  ["general"; "miscellaneous"; "other"; "various";
   "changes"; "updates"; "modifications"].

Definition _evaluate_relevance (changes : ContractChangeOutput)
    (original_contract amendment_contract : ParsedContract)
    (results : EvalResults) : Res EvalResults :=
  let score := 100%Q in
  let generic_count :=
    count (fun topic =>
             existsb (fun gen => PyStr.contains (PyStr.lower topic) gen)
               generic_topics)
          (topics_touched changes) in
  score ←
    (if generic_count >? 0 then
       generic_ratio ←
         Py.truediv (inject_Z generic_count)
                    (Py.of_nat (length (topics_touched changes)));
       Ok (score * (1 - generic_ratio * 0.3))%Q
     else Ok score);
  let results := set_detail "generic_topics_count" (PInt generic_count) results in
  let broad :=
    existsb
      (fun section =>
         bool_decide (PyStr.lower section
                      ∈ ["all sections"; "entire document"; "whole contract"]))
      (sections_changed changes) in
  let score := if broad then (score * 0.5)%Q else score in
  let results := set_detail "overly_broad_sections" (PBool broad) results in
  let n_topics := Z.of_nat (length (topics_touched changes)) in
  let n_sections := Z.of_nat (length (sections_changed changes)) in
  let score :=
    if n_topics >? n_sections * 2 then (score * 0.8)%Q
    else if Py.ltb (inject_Z n_topics) (inject_Z n_sections * 0.5) then (score * 0.9)%Q
    else score in
  Ok (set_score "relevance" (clamp score) results).

(** [sum(1 for item in items
         if any(word.lower() in text for word in item.split() if len(word) > 3))] *)
Definition mentioned_in (items : list string) (text : string) : Z :=
  count (fun item =>
           existsb (fun word => PyStr.contains text (PyStr.lower word))
             (List.filter (fun word => (3 <? String.length word)%nat)
                (PyStr.split item)))
        items.

Definition _evaluate_consistency (changes : ContractChangeOutput)
    (context : AgentContext) (results : EvalResults) : Res EvalResults :=
  let summary_lower := PyStr.lower (summary_of_the_change changes) in
  let sections_in_summary := mentioned_in (sections_changed changes) summary_lower in
  section_summary_consistency ←
    ratio_of sections_in_summary (sections_changed changes);
  let results :=
    set_detail "section_summary_consistency"
      (PFloat section_summary_consistency) results in
  let topics_in_summary := mentioned_in (topics_touched changes) summary_lower in
  topic_summary_consistency ←
    ratio_of topics_in_summary (topics_touched changes);
  let results :=
    set_detail "topic_summary_consistency"
      (PFloat topic_summary_consistency) results in
  let context_lower := PyStr.lower (context_summary context) in
  let changes_align_with_context :=
    mentioned_in (sections_changed changes) context_lower in
  context_consistency ←
    ratio_of changes_align_with_context (sections_changed changes);
  let results :=
    set_detail "context_consistency" (PFloat context_consistency) results in
  let score :=
    ((section_summary_consistency * 0.4
      + topic_summary_consistency * 0.3
      + context_consistency * 0.3) * 100)%Q in
  Ok (set_score "consistency" (clamp score) results).

Definition _assign_grade (score : Q) : string :=
  if Py.leb 90 score then "A"
  else if Py.leb 80 score then "B"
  else if Py.leb 70 score then "C"
  else if Py.leb 60 score then "D"
  else "F".

(** The aggregation steps of [evaluate_output]:
    [results['overall_score'] = sum(dimension_scores.values()) / len(dimension_scores)]
    and [results['grade'] = self._assign_grade(results['overall_score'])].
    The mean is computed on exact rationals; the binary64 sum and quotient
    of the code can differ from it in the last place.  The properties below
    therefore use [overall_score] only through what survives that rounding:
    its range, its distance to the mean, and the grade as a function of the
    stored score. *)
Definition aggregate (results : EvalResults) : Res EvalResults :=
  let dimension_scores := dimension_scores results in
  overall ← Py.truediv (sum (Dict.values dimension_scores))
                       (Py.of_nat (length dimension_scores));
  Ok {| timestamp := timestamp results;
        dimension_scores := dimension_scores;
        overall_score := overall;
        grade := _assign_grade overall;
        recommendations := recommendations results;
        details := details results |}.

(** [if cond: recommendations.append(text)] *)
Definition append_if (cond : bool) (text : string) (recommendations : list string)
    : list string :=
  if cond then recommendations ++ [text] else recommendations.

Definition _generate_recommendations (results : EvalResults) : Res EvalResults :=
  let recommendations : list string := [] in
  let scores := dimension_scores results in
  let details := details results in
  (* Completeness recommendations *)
  completeness ← Dict.getitem scores "completeness";
  recommendations ←
    (if Py.ltb completeness 70 then
       coverage_ratio ← Py.num (Py.get details "coverage_ratio" (PFloat 1));
       let recommendations :=
         append_if (Py.ltb coverage_ratio 1)
           "Ensure all identified change areas are covered in the extraction"
           recommendations in
       n ← Py.len (Py.get details "sections_changed" (PList []));
       Ok (append_if (n =? 0)
             "No sections identified - review the extraction logic"
             recommendations)
     else Ok recommendations);
  (* Accuracy recommendations *)
  accuracy ← Dict.getitem scores "accuracy";
  recommendations ←
    (if Py.ltb accuracy 70 then
       section_accuracy ← Py.num (Py.get details "section_accuracy" (PFloat 1));
       let recommendations :=
         append_if (Py.ltb section_accuracy 0.7)
           "Some sections do not appear in source documents - verify section references"
           recommendations in
       topic_relevance ← Py.num (Py.get details "topic_relevance" (PFloat 1));
       Ok (append_if (Py.ltb topic_relevance 0.7)
             "Topics may not be well-grounded in document content - improve topic extraction"
             recommendations)
     else Ok recommendations);
  (* Clarity recommendations *)
  clarity ← Dict.getitem scores "clarity";
  recommendations ←
    (if Py.ltb clarity 70 then
       let recommendations :=
         append_if
           (negb (Py.truth (Py.get details "has_structure_indicators" (PBool false))))
           "Add structure indicators (First, Second, Additionally) to improve summary clarity"
           recommendations in
       avg_len ← Py.num (Py.get details "avg_sentence_length" (PInt 20));
       Ok (append_if (Py.ltb 50 avg_len)
             "Break long sentences into shorter, clearer statements"
             recommendations)
     else Ok recommendations);
  (* Relevance recommendations *)
  relevance ← Dict.getitem scores "relevance";
  recommendations ←
    (if Py.ltb relevance 70 then
       generic_topics_count ← Py.num (Py.get details "generic_topics_count" (PInt 0));
       let recommendations :=
         append_if (Py.ltb 0 generic_topics_count)
           "Replace generic topics with more specific business/legal concepts"
           recommendations in
       Ok (append_if
             (Py.truth (Py.get details "overly_broad_sections" (PBool false)))
             "Identify specific sections rather than broad references"
             recommendations)
     else Ok recommendations);
  (* Consistency recommendations *)
  consistency ← Dict.getitem scores "consistency";
  recommendations ←
    (if Py.ltb consistency 70 then
       section_summary_consistency ←
         Py.num (Py.get details "section_summary_consistency" (PFloat 1));
       let recommendations :=
         append_if (Py.ltb section_summary_consistency 0.5)
           "Ensure all sections are explicitly mentioned in the summary"
           recommendations in
       topic_summary_consistency ←
         Py.num (Py.get details "topic_summary_consistency" (PFloat 1));
       Ok (append_if (Py.ltb topic_summary_consistency 0.5)
             "Ensure all topics are discussed in the summary"
             recommendations)
     else Ok recommendations);
  Ok {| timestamp := timestamp results;
        dimension_scores := dimension_scores results;
        overall_score := overall_score results;
        grade := grade results;
        recommendations := recommendations;
        details := details |}.

(** The initial [results] of [evaluate_output]; [now] is
    [datetime.now().isoformat()]. *)
Definition new_results (now : string) : EvalResults :=
  {| timestamp := now; dimension_scores := []; overall_score := 0;
     grade := ""; recommendations := []; details := ∅ |}.

(** The five scoring passes of [evaluate_output], in the order of the
    source, on the initial [results]. *)
Definition run_dimensions (now : string) (changes : ContractChangeOutput)
    (original_contract amendment_contract : ParsedContract)
    (context : AgentContext) : Res EvalResults :=
  let results := new_results now in
  results ← _evaluate_completeness changes context results;
  results ← _evaluate_accuracy changes original_contract amendment_contract results;
  results ← _evaluate_clarity changes results;
  results ← _evaluate_relevance changes original_contract amendment_contract results;
  _evaluate_consistency changes context results.

Definition evaluate_output (now : string) (changes : ContractChangeOutput)
    (original_contract amendment_contract : ParsedContract)
    (context : AgentContext) : Res EvalResults :=
  results ← run_dimensions now changes original_contract amendment_contract context;
  results ← aggregate results;
  _generate_recommendations results.

End Evaluator.

(** ** Content safety ([SafetyGuardrails] in [src/guardrails.py]) *)

Module SafetyGuardrails.

(** [re.compile(pattern, re.IGNORECASE).search(text)] for a pattern made of
    lower-case ASCII letters and punctuation only, on a text of Latin-1
    characters: the pattern occurs in the text with letter case ignored.
    On other text the regular expression also takes U+0130, U+0131 and
    U+017F for [i] and [s]; strings here do not hold those characters, so
    the properties of the safety check say which texts are reported, a
    statement that holds for such text as well, and not which are not. *)
Definition search_literal (pattern text : string) : bool :=
  PyStr.contains (PyStr.lower text) pattern.

(** A match of [\s*\(] at the head of [s]. *)
Fixpoint spaces_then_paren (s : string) : bool :=
  match s with
  | EmptyString => false
  | String c s' =>
      if (nat_of_ascii c =? 40)%nat then true
      else if PyStr.isspace c then spaces_then_paren s'
      else false
  end.

(** A match of [eval\s*\(], letter case ignored, at the head of [s]. *)
Definition eval_call_at (s : string) : bool :=
  match s with
  | String a (String b (String c (String d rest))) =>
      String.eqb (PyStr.lower (String a (String b (String c (String d ""))))) "eval"
      && spaces_then_paren rest
  | _ => false
  end.

(** [re.compile(r'eval\s*\(', re.IGNORECASE).search(text)] *)
Fixpoint search_eval_call (s : string) : bool :=
  eval_call_at s
  || match s with
     | EmptyString => false
     | String _ s' => search_eval_call s'
     end.

(** [self.malicious_patterns]: the source text of each compiled pattern
    and its [search]. *)
Definition malicious_patterns : list (string * (string → bool)) :=
  [("<script", search_literal "<script");
   ("javascript:", search_literal "javascript:");
   ("eval\s*\(", search_eval_call)].

Record SafetyResults : Type := {
  is_safe : bool;
  threats_detected : list string;
  warnings : list string
}.

(** One iteration of the loop over the patterns. *)
Definition check_pattern (text : string) (results : SafetyResults)
    (p : string * (string → bool)) : SafetyResults :=
  if p.2 text
  then {| is_safe := false;
          threats_detected :=
            threats_detected results
            ++ ["Potential injection attack detected: " +:+ p.1];
          warnings := warnings results |}
  else results.

Definition check_content_safety (text : string) : SafetyResults :=
  fold_left (check_pattern text) malicious_patterns
    {| is_safe := true; threats_detected := []; warnings := [] |}.

End SafetyGuardrails.

(** ** Section headers of a parsed text ([parse_contract_image] in
       [src/image_parser.py]) *)

Module ImageParser.

(** The line separator ['\n']. *)
Definition newline : string := String (ascii_of_nat 10) EmptyString.

Definition section_prefixes : list string :=
  ["Section"; "SECTION"; "Article"; "ARTICLE";
   "Clause"; "CLAUSE"; "Exhibit"; "EXHIBIT"].

(** [any(line_stripped.startswith(prefix) for prefix in [...])] *)
Definition is_section_header (line_stripped : string) : bool :=
  existsb (fun prefix => String.prefix prefix line_stripped) section_prefixes.

(** One iteration of the loop over the lines. *)
Definition add_section (sections_identified : list string) (line : string)
    : list string :=
  let line_stripped := PyStr.strip line in
  if is_section_header line_stripped
  then sections_identified ++ [line_stripped]
  else sections_identified.

(** The section headers found in the extracted text:
    [for line in extracted_text.split('\n'): ...]. *)
Definition detect_sections (extracted_text : string) : list string :=
  fold_left add_section (PyStr.split_on newline extracted_text) [].

End ImageParser.

(** ** Metrics over several evaluations ([MetricsTracker] in
       [src/evaluator.py]) *)

Module MetricsTracker.
Import Evaluator.

(** [self.evaluations]: the evaluation results added so far, each of the
    shape [evaluate_output] builds. *)
Definition evaluations : Type := list EvalResults.

Definition add_evaluation (self : evaluations) (evaluation : EvalResults)
    : evaluations :=
  self ++ [evaluation].

(** [[e['dimension_scores'][dimension] for e in self.evaluations
      if dimension in e['dimension_scores']]] *)
Definition scores_of (dimension : string) (self : evaluations) : list Q :=
  omap (fun eval_result => Dict.get (dimension_scores eval_result) dimension)
       self.

(** [sum(scores) / len(scores) if scores else 0.0] *)
Definition average (scores : list Q) : Res Q :=
  match scores with
  | [] => Ok 0%Q
  | _ :: _ => Py.truediv (sum scores) (Py.of_nat (length scores))
  end.

(** One iteration of the loop over the dimensions. *)
Definition average_step (self : evaluations) (averages : Res (pydict Q))
    (dimension : string) : Res (pydict Q) :=
  averages ← averages;
  a ← average (scores_of dimension self);
  Ok (Dict.set dimension a averages).

Definition get_average_scores (self : evaluations) : Res (pydict Q) :=
  match self with
  | [] => Ok []
  | first :: _ =>
      let dimensions := Dict.keys (dimension_scores first) in
      averages ← fold_left (average_step self) dimensions (Ok []);
      let overall_scores := map overall_score self in
      overall ← average overall_scores;
      Ok (Dict.set "overall" overall averages)
  end.

End MetricsTracker.

(** ** The workflow ([process_contract_comparison_enhanced] in
       [src/main_enhanced.py]) *)

(** The calls of the workflow that reach a language model or the tracing
    service.  The log lines and the updates of the trace have no effect on
    what the workflow returns or raises and are left out. *)
Class Services : Type := {
  (** [parse_contract_image(image_path, document_type, client)] *)
  parse_contract_image : string -> string -> Res Models.ParsedContract;
  (** [ContextualizationAgent(client).analyze(original, amendment)] *)
  analyze : Models.ParsedContract -> Models.ParsedContract
            -> Res Models.AgentContext;
  (** [ExtractionAgent(client).extract_changes(original, amendment, context)] *)
  extract_changes : Models.ParsedContract -> Models.ParsedContract
                    -> Models.AgentContext -> Res Models.ContractChangeOutput;
  (** [evaluator.evaluate_with_llm(changes, original, amendment)], which
      catches its own exceptions and returns a dictionary *)
  evaluate_with_llm : Models.ContractChangeOutput -> Models.ParsedContract
                      -> Models.ParsedContract -> gmap string pyval;
  (** [langfuse_context.get_current_trace_id()] *)
  get_current_trace_id : option string
}.

Module Pipeline.
Import Models.

(** The outcome of a block of the workflow: it completes with a value, or
    an exception [e] leaves it, of which only [str(e)] is used. *)
Inductive outcome (A : Type) : Type :=
| Returned (a : A)
| Failed (error_msg : string).
Arguments Returned {A} a.
Arguments Failed {A} error_msg.

Definition outcome_bind {A B : Type} (k : A -> outcome B) (m : outcome A)
    : outcome B :=
  match m with
  | Returned a => k a
  | Failed error_msg => Failed error_msg
  end.

#[export] Instance outcome_mbind : MBind outcome := @outcome_bind.

(** [metadata['evaluation_results']] *)
Record EvaluationResults : Type := {
  rule_based : option Evaluator.EvalResults;
  llm_based : option (gmap string pyval)
}.

(** The [metadata] dictionary. *)
Record Metadata : Type := {
  guardrails_enabled : bool;
  evaluation_enabled : bool;
  llm_eval_enabled : bool;
  guardrails_results : pydict Guardrails.Results;
  evaluation_results : EvaluationResults;
  warnings : list string;
  errors : list string
}.

(** [metadata['guardrails_results'][key] = validation] *)
Definition set_guardrails_result (key : string) (validation : Guardrails.Results)
    (m : Metadata) : Metadata :=
  {| guardrails_enabled := guardrails_enabled m;
     evaluation_enabled := evaluation_enabled m;
     llm_eval_enabled := llm_eval_enabled m;
     guardrails_results := Dict.set key validation (guardrails_results m);
     evaluation_results := evaluation_results m;
     warnings := warnings m; errors := errors m |}.

(** [metadata['evaluation_results'] = ...] after one of its keys was set *)
Definition set_evaluation_results (e : EvaluationResults) (m : Metadata)
    : Metadata :=
  {| guardrails_enabled := guardrails_enabled m;
     evaluation_enabled := evaluation_enabled m;
     llm_eval_enabled := llm_eval_enabled m;
     guardrails_results := guardrails_results m;
     evaluation_results := e;
     warnings := warnings m; errors := errors m |}.

(** [metadata['warnings'].append(text)] *)
Definition add_warning (m : Metadata) (text : string) : Metadata :=
  {| guardrails_enabled := guardrails_enabled m;
     evaluation_enabled := evaluation_enabled m;
     llm_eval_enabled := llm_eval_enabled m;
     guardrails_results := guardrails_results m;
     evaluation_results := evaluation_results m;
     warnings := warnings m ++ [text]; errors := errors m |}.

(** [metadata['errors'].append(text)] *)
Definition add_error (m : Metadata) (text : string) : Metadata :=
  {| guardrails_enabled := guardrails_enabled m;
     evaluation_enabled := evaluation_enabled m;
     llm_eval_enabled := llm_eval_enabled m;
     guardrails_results := guardrails_results m;
     evaluation_results := evaluation_results m;
     warnings := warnings m; errors := errors m ++ [text] |}.

(** [for text in texts: metadata['warnings'].append(f"{label}: {text}")] *)
Definition add_warnings (label : string) (texts : list string) (m : Metadata)
    : Metadata :=
  fold_left (fun m text => add_warning m (label +:+ ": " +:+ text)) texts m.

(** [for text in texts: metadata['errors'].append(f"{label}: {text}")] *)
Definition add_errors (label : string) (texts : list string) (m : Metadata)
    : Metadata :=
  fold_left (fun m text => add_error m (label +:+ ": " +:+ text)) texts m.

Section Workflow.
Context `{Host} `{Services}.

(** A call inside a [try] block: an exception [e] is seen by the handler
    through [str(e)]. *)
Definition call {A : Type} (r : Res A) : outcome A :=
  match r with
  | Ok a => Returned a
  | Raise e => Failed (str_of_exn e)
  end.

(** [except Exception as e: raise Exception(f"{prefix}{str(e)}")] *)
Definition reraise {A : Type} (prefix : string) (block : outcome A)
    : outcome A :=
  match block with
  | Returned a => Returned a
  | Failed error_msg => Failed (prefix +:+ error_msg)
  end.

(** The [try] block of STEP 1 and of STEP 2, which differ in the document
    type ([document_type], with [label] its capitalised form) and the image
    path only.  The message appended to [metadata['errors']] before the
    [raise] is not kept: the metadata is local to the workflow and is lost
    when the exception leaves it. *)
Definition parse_and_validate (label document_type image_path : string)
    (enable_guardrails : bool) (metadata : Metadata)
    : outcome (ParsedContract * Metadata) :=
  contract ← call (parse_contract_image image_path document_type);
  if enable_guardrails then
    validation ← call (Guardrails.validate_input Guardrails.default_guardrails
                         contract (Some image_path));
    let metadata := set_guardrails_result document_type validation metadata in
    if negb (Guardrails.is_valid validation) then
      let error_msg :=
        label +:+ " contract failed validation: "
        +:+ str_of_list (Guardrails.errors validation) in
      Failed error_msg
    else
      let metadata := add_warnings label (Guardrails.warnings validation) metadata in
      let safety := SafetyGuardrails.check_content_safety (raw_text contract) in
      if negb (SafetyGuardrails.is_safe safety) then
        Failed ("Safety check failed: "
                +:+ str_of_list (SafetyGuardrails.threats_detected safety))
      else Returned (contract, metadata)
  else Returned (contract, metadata).

(** STEP 5. *)
Definition validate_output_step (changes : ContractChangeOutput)
    (original_contract amendment_contract : ParsedContract)
    (metadata : Metadata) : Metadata :=
  let output_validation :=
    Guardrails.validate_output changes original_contract amendment_contract in
  let metadata := set_guardrails_result "output" output_validation metadata in
  let metadata :=
    if negb (Guardrails.is_valid output_validation)
    then add_errors "Output" (Guardrails.errors output_validation) metadata
    else metadata in
  add_warnings "Output" (Guardrails.warnings output_validation) metadata.

(** The subscripts evaluated by the log lines of STEP 6. *)
Definition logged_scores (evaluation : Evaluator.EvalResults) : Res unit :=
  let scores := Evaluator.dimension_scores evaluation in
  _ ← Dict.getitem scores "completeness";
  _ ← Dict.getitem scores "accuracy";
  _ ← Dict.getitem scores "clarity";
  _ ← Dict.getitem scores "relevance";
  _ ← Dict.getitem scores "consistency";
  Ok tt.

(** STEP 6: an exception inside the [try] block becomes a warning. *)
Definition evaluate_step (now : string) (changes : ContractChangeOutput)
    (original_contract amendment_contract : ParsedContract)
    (context : AgentContext) (enable_llm_eval : bool) (metadata : Metadata)
    : Metadata :=
  match Evaluator.evaluate_output now changes original_contract
          amendment_contract context with
  | Raise e => add_warning metadata ("Evaluation: " +:+ str_of_exn e)
  | Ok evaluation =>
      let metadata :=
        set_evaluation_results
          {| rule_based := Some evaluation;
             llm_based := llm_based (evaluation_results metadata) |}
          metadata in
      match logged_scores evaluation with
      | Raise e => add_warning metadata ("Evaluation: " +:+ str_of_exn e)
      | Ok _ =>
          if enable_llm_eval then
            let llm_eval :=
              evaluate_with_llm changes original_contract amendment_contract in
            set_evaluation_results
              {| rule_based := rule_based (evaluation_results metadata);
                 llm_based := Some llm_eval |}
              metadata
          else metadata
      end
  end.

(** [now] is the time at which [evaluate_output] reads the clock. *)
Definition process_contract_comparison_enhanced (now : string)
    (original_image_path amendment_image_path : string)
    (enable_guardrails enable_evaluation enable_llm_eval : bool)
    : outcome (ContractChangeOutput * option string * Metadata) :=
  let metadata :=
    {| guardrails_enabled := enable_guardrails;
       evaluation_enabled := enable_evaluation;
       llm_eval_enabled := enable_llm_eval;
       guardrails_results := [];
       evaluation_results := {| rule_based := None; llm_based := None |};
       warnings := []; errors := [] |} in
  (* STEP 1 *)
  '(original_contract, metadata) ←
    reraise "Failed to parse original contract: "
      (parse_and_validate "Original" "original" original_image_path
         enable_guardrails metadata);
  (* STEP 2 *)
  '(amendment_contract, metadata) ←
    reraise "Failed to parse amendment contract: "
      (parse_and_validate "Amendment" "amendment" amendment_image_path
         enable_guardrails metadata);
  (* STEP 3 *)
  context ←
    reraise "Agent 1 failed: "
      (call (analyze original_contract amendment_contract));
  (* STEP 4 *)
  changes ←
    reraise "Agent 2 failed: "
      (call (extract_changes original_contract amendment_contract context));
  (* STEP 5 *)
  let metadata :=
    if enable_guardrails
    then validate_output_step changes original_contract amendment_contract
           metadata
    else metadata in
  (* STEP 6 *)
  let metadata :=
    if enable_evaluation
    then evaluate_step now changes original_contract amendment_contract
           context enable_llm_eval metadata
    else metadata in
  Returned (changes, get_current_trace_id, metadata).

End Workflow.
End Pipeline.

(** ** Specification predicates *)

(** [out] lists the distinct values of [v], each once, in the order of their
    first occurrences in [v]: whenever [x] comes before [y] in [out], some
    occurrence of [x] in [v] precedes every occurrence of [y]. *)
Definition first_occurrences_of (v out : list string) : Prop :=
  NoDup out
  ∧ (∀ x, x ∈ out ↔ x ∈ v)
  ∧ (∀ (i j : nat) (x y : string),
        out !! i = Some x → out !! j = Some y → (i < j)%nat →
        ∃ p : nat, v !! p = Some x ∧ ∀ q : nat, v !! q = Some y → (p < q)%nat).

(** [r'] still has its [details] dictionary and its errors are those of [r]
    followed by new ones, if any. *)
Definition grows (r r' : Guardrails.Results) : Prop :=
  is_Some (Guardrails.details r')
  ∧ ∃ extra, Guardrails.errors r' = Guardrails.errors r ++ extra.

(** The check [f] returns normally on every [results] that has a [details]
    dictionary, keeping that dictionary and the errors recorded so far. *)
Definition total_check (f : Guardrails.Results → Res Guardrails.Results) : Prop :=
  ∀ r, is_Some (Guardrails.details r) → ∃ r', f r = Ok r' ∧ grows r r'.

(** The exception that the existence test of [_check_file_integrity] lets
    through on the path given to [validate_input], if there is one. *)
Definition path_probe `{Host} (file_path : option string) : option exn :=
  match Guardrails.path_given file_path with
  | Some p =>
      match path_exists p with
      | Ok _ => None
      | Raise e => Some e
      end
  | None => None
  end.

(** [id] is the part of [s] before its first occurrence of [" - "], or all
    of [s] when [" - "] does not occur in it. *)
Definition is_section_id (s id : string) : Prop :=
  (∃ rest, s = id +:+ " - " +:+ rest
           ∧ ∀ p q, s = p +:+ " - " +:+ q →
                    (String.length id <= String.length p)%nat)
  ∨ ((∀ p q, s ≠ p +:+ " - " +:+ q) ∧ id = s).

(** A number or a truth value: what the evaluator stores in [details]. *)
Definition scalar (v : pyval) : Prop :=
  match v with
  | PBool _ | PInt _ | PFloat _ => True
  | _ => False
  end.

(** From [r] to [r'] the score of [key] was set, the stored [details]
    stayed scalars, and the entry ["sections_changed"] was not touched. *)
Definition scored (key : string) (r r' : Evaluator.EvalResults) : Prop :=
  (∃ score,
     Evaluator.dimension_scores r'
     = Dict.set key score (Evaluator.dimension_scores r))
  ∧ (map_Forall (fun _ v => scalar v) (Evaluator.details r) →
     map_Forall (fun _ v => scalar v) (Evaluator.details r'))
  ∧ (∀ v, Evaluator.details r !! "sections_changed" = Some v →
          Evaluator.details r' !! "sections_changed" = Some v).

(** [s] begins with a character that is not whitespace, or is empty. *)
Definition starts_clean (s : string) : Prop :=
  match s with
  | EmptyString => True
  | String c _ => PyStr.isspace c = false
  end.

(** Every character of [s] satisfies [p]. *)
Fixpoint all_chars (p : ascii → bool) (s : string) : bool :=
  match s with
  | EmptyString => true
  | String c s' => p c && all_chars p s'
  end.

(** ** Example inputs *)

Module Examples.
Import Models.

(** The summary used throughout [tests/test_validation.py] (110 characters). *)
Definition summary_110 : string :=
  "This is a summary with more than one hundred characters to meet the minimum length requirement for validation.".

(** A summary of exactly 100 characters, none of them whitespace. *)
Definition summary_100 : string :=
  "0123456789012345678901234567890123456789012345678901234567890123456789012345678901234567890123456789".

(** A summary of 99 characters. *)
Definition summary_99 : string :=
  "This summary has ninety-nine characters, which is one character short of the minimum that is set...".

(** The sections of [test_sections_with_whitespace_stripped]. *)
Definition padded_sections : list string := ["  Section 1.0  "; "Section 2.0"].

(** Two parsed documents: an agreement and its amendment. *)
Definition original_text : string :=
  "Section 2.1 - Payment Terms. The customer shall pay every invoice within 30 days of the invoice date. Section 4.3 - Confidentiality. Each party shall keep the confidential information of the other party secret for 2 years after termination.".

Definition amendment_text : string :=
  "Section 2.1 - Payment Terms. The customer shall pay every invoice within 45 days of the invoice date. Section 4.3 - Confidentiality. Each party shall keep the confidential information of the other party secret for 5 years after termination.".

Definition original_doc : ParsedContract :=
  {| raw_text := original_text; document_type := "original";
     sections_identified := ["Section 2.1"; "Section 4.3"] |}.

Definition amendment_doc : ParsedContract :=
  {| raw_text := amendment_text; document_type := "amendment";
     sections_identified := ["Section 2.1"; "Section 4.3"] |}.

(** A document whose text has 30 characters, as a caller can build it with
    [model_construct] or by assigning to [raw_text]. *)
Definition short_doc : ParsedContract :=
  {| raw_text := "Short contract text, too brief"; document_type := "original";
     sections_identified := [] |}.

(** The agreement, parsed without any section header. *)
Definition unsectioned_doc : ParsedContract :=
  {| raw_text := original_text; document_type := "original";
     sections_identified := [] |}.

(** An environment in which no sensitive-data pattern matches and no file
    can be reached. *)
Definition quiet_host : Host :=
  {| re_findall := fun _ _ => [];
     format_float := fun _ _ => "";
     str_of_exn := fun _ => "";
     str_of_list := fun _ => "";
     path_exists := fun _ => Ok false;
     path_suffix := fun _ => "";
     image_open := fun _ => Raise (OSError "cannot identify image file");
     getsize := fun _ => Raise (OSError "No such file or directory") |}.

(** A summary of 90 characters, below what construction accepts. *)
Definition summary_90 : string :=
  "The amendment extends the payment period in Section 2.1 from 30 days to 45 days of invoice".

(** The summary of [test_valid_output] (219 characters). *)
Definition summary_219 : string :=
  "This amendment introduces two significant changes. First, Section 2.1 modifies payment terms by extending the payment period from 30 to 45 days. Second, Section 4.3 extends confidentiality obligations from 2 to 5 years.".

Definition structure_text : string :=
  "Standard contract structure with hierarchical sections and subsections organized into multiple parts with exhibits.".

Definition context_text : string :=
  "Payment and confidentiality changes including extended payment period and confidentiality duration.".

(** A context with one change area. *)
Definition one_area_context : AgentContext :=
  {| document_structure := structure_text;
     corresponding_sections := {["Section 2.1" := "Section 2.1"]};
     identified_change_areas := ["Section 2.1 - Payment Terms"];
     context_summary := context_text |}.

(** A context with two change areas. *)
Definition two_area_context : AgentContext :=
  {| document_structure := structure_text;
     corresponding_sections :=
       {["Section 2.1" := "Section 2.1"; "Section 4.3" := "Section 4.3"]};
     identified_change_areas :=
       ["Section 2.1 - Payment Terms"; "Section 4.3 - Confidentiality"];
     context_summary := context_text |}.

(** The context of the alignment example of the specification. *)
Definition alignment_context : AgentContext :=
  {| document_structure := structure_text;
     corresponding_sections := {["Section 2.0" := "Section 2.0"]};
     identified_change_areas := ["Section 2.0 - X"; "Section 4.0 - Y"];
     context_summary := context_text |}.

Definition alignment_changes : ContractChangeOutput :=
  {| sections_changed := ["Section 2.0 - X"; "Section 4.0 - Y"];
     topics_touched := ["Payment"; "Confidentiality"];
     summary_of_the_change := summary_110 |}.

(** A change record with a 90-character summary; it cannot come out of the
    validating constructor, only out of [model_construct] or an assignment
    to the field. *)
Definition short_summary_changes : ContractChangeOutput :=
  {| sections_changed := ["Section 2.1 - Payment Terms"];
     topics_touched := ["Payment"];
     summary_of_the_change := summary_90 |}.

(** A change record that covers one of the two change areas. *)
Definition partial_changes : ContractChangeOutput :=
  {| sections_changed := ["Section 2.1 - Payment Terms"];
     topics_touched := ["Payment"; "Confidentiality"];
     summary_of_the_change := summary_219 |}.

(** A change record that covers both change areas. *)
Definition full_changes : ContractChangeOutput :=
  {| sections_changed :=
       ["Section 2.1 - Payment Terms"; "Section 4.3 - Confidentiality"];
     topics_touched := ["Payment"; "Confidentiality"];
     summary_of_the_change := summary_219 |}.

Definition timestamp_text : string := "2024-01-01T00:00:00".

(** [results] holding the score [q] in every dimension. *)
Definition uniform_results (q : Q) : Evaluator.EvalResults :=
  {| Evaluator.timestamp := timestamp_text;
     Evaluator.dimension_scores :=
       [("completeness", q); ("accuracy", q); ("clarity", q);
        ("relevance", q); ("consistency", q)];
     Evaluator.overall_score := 0;
     Evaluator.grade := "";
     Evaluator.recommendations := [];
     Evaluator.details := ∅ |}.

End Examples.

(** ** Predicates on guardrail results *)

(** The environment [h] with another answer of the regular-expression
    engine. *)
Definition with_findall (f : string → string → list string) (h : Host) : Host :=
  {| re_findall := f;
     format_float := @format_float h;
     str_of_exn := @str_of_exn h;
     str_of_list := @str_of_list h;
     path_exists := @path_exists h;
     path_suffix := @path_suffix h;
     image_open := @image_open h;
     getsize := @getsize h |}.

(** One check ran from [r] to [r']: it was counted, it kept the warnings
    recorded so far, and either it passed (when [ok] holds) or it recorded
    exactly one error. *)
Definition check_outcome (ok : Prop) (r r' : Guardrails.Results) : Prop :=
  is_Some (Guardrails.details r')
  ∧ Guardrails.total_checks r' = Guardrails.total_checks r + 1
  ∧ (∃ new_warnings,
       Guardrails.warnings r' = Guardrails.warnings r ++ new_warnings)
  ∧ ((ok ∧ Guardrails.errors r' = Guardrails.errors r
      ∧ Guardrails.checks_passed r' = Guardrails.checks_passed r + 1)
     ∨ (¬ ok ∧ (∃ msg, Guardrails.errors r' = Guardrails.errors r ++ [msg])
        ∧ Guardrails.checks_passed r' = Guardrails.checks_passed r)).

(** The exception that [os.path.getsize] raises on the path given to
    [validate_input], if there is one; [_check_file_size] turns it into a
    warning. *)
Definition size_probe `{Host} (file_path : option string) : option exn :=
  match Guardrails.path_given file_path with
  | Some p =>
      match getsize p with
      | Ok _ => None
      | Raise e => Some e
      end
  | None => None
  end.

(** The counters of [r] account for every counted check but [unread] of
    them: each of the others either passed or recorded exactly one error. *)
Definition counters_consistent (unread : Z) (r : Guardrails.Results) : Prop :=
  0 <= Guardrails.checks_passed r
  ∧ Guardrails.checks_passed r + Z.of_nat (length (Guardrails.errors r))
    + unread
    = Guardrails.total_checks r.

(** The re-validation of [contract] against its own schema succeeds. *)
Definition schema_ok (contract : Models.ParsedContract) : Prop :=
  (50 <= String.length (Models.raw_text contract))%nat
  ∧ PyStr.lower (Models.document_type contract) ∈ ["original"; "amendment"].

(** One check ran from [r] to [r']: it was counted once, it kept the
    warnings recorded so far, and either it passed and added no error, or
    it did not pass and added exactly one error. *)
Definition counted (r r' : Guardrails.Results) : Prop :=
  is_Some (Guardrails.details r')
  ∧ Guardrails.total_checks r' = Guardrails.total_checks r + 1
  ∧ ∃ new_errors new_warnings,
      Guardrails.errors r' = Guardrails.errors r ++ new_errors
      ∧ Guardrails.warnings r' = Guardrails.warnings r ++ new_warnings
      ∧ ((Guardrails.checks_passed r' = Guardrails.checks_passed r + 1
          ∧ new_errors = [])
         ∨ (Guardrails.checks_passed r' = Guardrails.checks_passed r
            ∧ length new_errors = 1%nat)).

(** ** Predicates on evaluation results *)

(** A score between 0 and 100. *)
Definition in_score_range (q : Q) : Prop := (0 <= q)%Q ∧ (q <= 100)%Q.

(** From [r] to [r'] the score of [key] was set to a clamped value. *)
Definition clamped_score (key : string) (r r' : Evaluator.EvalResults) : Prop :=
  ∃ raw, Evaluator.dimension_scores r'
         = Dict.set key (Evaluator.clamp raw) (Evaluator.dimension_scores r).

(** The completeness score before clamping, from the numbers of changed
    sections [n], of change areas [m] and of topics [t] and the length
    [len] of the summary. *)
Definition completeness_raw (n m t len : Z) : Q :=
  let score := if n <? m then (100 * (inject_Z n / inject_Z m))%Q else 100%Q in
  let score := if n =? 0 then 0%Q else score in
  let score := if t =? 0 then (score * 0.5)%Q else score in
  Evaluator.summary_length_penalty len score.

(** The advisory texts of the dimensions other than completeness. *)
Definition other_advisories : list string :=
  ["Some sections do not appear in source documents - verify section references";
   "Topics may not be well-grounded in document content - improve topic extraction";
   "Add structure indicators (First, Second, Additionally) to improve summary clarity";
   "Break long sentences into shorter, clearer statements";
   "Replace generic topics with more specific business/legal concepts";
   "Identify specific sections rather than broad references";
   "Ensure all sections are explicitly mentioned in the summary";
   "Ensure all topics are discussed in the summary"].

(** The condition on the inputs under which the completeness score reaches
    70: some section and some topic are reported, and either every change
    area is matched by a reported section, or the summary has at least 200
    characters and at least seven tenths of the areas are matched. *)
Definition completeness_reaches_70 (changes : Models.ContractChangeOutput)
    (context : Models.AgentContext) : bool :=
  let n := Z.of_nat (length (Models.sections_changed changes)) in
  let m := Z.of_nat (length (Models.identified_change_areas context)) in
  let t := Z.of_nat (length (Models.topics_touched changes)) in
  let len := Z.of_nat (String.length (Models.summary_of_the_change changes)) in
  negb (n =? 0) && negb (t =? 0)
  && ((m <=? n) || ((200 <=? len) && (7 * m <=? 10 * n))).

(** The two advisory texts of the completeness dimension. *)
Definition completeness_advisories : list string :=
  ["Ensure all identified change areas are covered in the extraction";
   "No sections identified - review the extraction logic"].

(** ** Predicates on the workflow *)

(** What a caller sees of a run of the workflow apart from the metadata:
    the changes and the trace id, or the message of the exception. *)
Definition without_metadata {A B M : Type} (o : Pipeline.outcome (A * B * M))
    : Pipeline.outcome (A * B) :=
  match o with
  | Pipeline.Returned (a, b, _) => Pipeline.Returned (a, b)
  | Pipeline.Failed error_msg => Pipeline.Failed error_msg
  end.

(** The [metadata] dictionary as the workflow creates it. *)
Definition initial_metadata (enable_guardrails enable_evaluation
    enable_llm_eval : bool) : Pipeline.Metadata :=
  {| Pipeline.guardrails_enabled := enable_guardrails;
     Pipeline.evaluation_enabled := enable_evaluation;
     Pipeline.llm_eval_enabled := enable_llm_eval;
     Pipeline.guardrails_results := [];
     Pipeline.evaluation_results :=
       {| Pipeline.rule_based := None; Pipeline.llm_based := None |};
     Pipeline.warnings := []; Pipeline.errors := [] |}.

(** A document that the input guardrail and the safety check let through
    when it is read from [image_path]. *)
Definition passes_input_checks `{Host} (image_path : string)
    (contract : Models.ParsedContract) : Prop :=
  (∃ validation,
     Guardrails.validate_input Guardrails.default_guardrails contract
       (Some image_path) = Ok validation
     ∧ Guardrails.is_valid validation = true)
  ∧ SafetyGuardrails.is_safe
      (SafetyGuardrails.check_content_safety (Models.raw_text contract)) = true.

Module WorkflowExamples.

(** An environment in which every path is a readable PNG file of 2048 bytes
    and no sensitive-data pattern matches. *)
Definition file_host : Host :=
  {| re_findall := fun _ _ => [];
     format_float := fun _ _ => "";
     str_of_exn := fun e =>
       match e with
       | TypeError msg => msg
       | KeyError key => key
       | ZeroDivisionError => "division by zero"
       | ValidationError _ => "validation error"
       | OSError msg => msg
       end;
     str_of_list := fun l => "[" +:+ PyStr.join ", " l +:+ "]";
     path_exists := fun _ => Ok true;
     path_suffix := fun _ => ".png";
     image_open := fun _ => Ok (PList [PInt 800; PInt 600], PStr "RGB");
     getsize := fun _ => Ok 2048 |}.

(** Services that read the two example documents and report the changes
    [changes] for them. *)
Definition scripted_services (changes : Models.ContractChangeOutput) : Services :=
  {| parse_contract_image := fun _ document_type =>
       if String.eqb document_type "original"
       then Ok Examples.original_doc else Ok Examples.amendment_doc;
     analyze := fun _ _ => Ok Examples.two_area_context;
     extract_changes := fun _ _ _ => Ok changes;
     evaluate_with_llm := fun _ _ _ => ∅;
     get_current_trace_id := None |}.

End WorkflowExamples.

(** * Properties *)

(** ** Whitespace stripping *)

Lemma lstrip_length (s : string) :
  (String.length (PyStr.lstrip s) <= String.length s)%nat.
Proof.
  induction s as [|c s IH]; simpl; [lia|].
  destruct (PyStr.isspace c); simpl; lia.
Qed.

Lemma rstrip_length (s : string) :
  (String.length (PyStr.rstrip s) <= String.length s)%nat.
Proof.
  induction s as [|c s IH]; simpl; [lia|].
  destruct (PyStr.rstrip s) as [|d r]; simpl in *.
  - destruct (PyStr.isspace c); simpl; lia.
  - lia.
Qed.

Lemma strip_length (s : string) :
  (String.length (PyStr.strip s) <= String.length s)%nat.
Proof.
  unfold PyStr.strip.
  pose proof (rstrip_length (PyStr.lstrip s)).
  pose proof (lstrip_length s). lia.
Qed.

Lemma lstrip_starts_clean (s : string) : starts_clean (PyStr.lstrip s).
Proof.
  induction s as [|c s IH]; simpl; [exact I|].
  destruct (PyStr.isspace c) eqn:E; [exact IH | exact E].
Qed.

Lemma lstrip_clean (s : string) : starts_clean s → PyStr.lstrip s = s.
Proof.
  destruct s as [|c s]; simpl; [reflexivity|].
  intros ->. reflexivity.
Qed.

Lemma rstrip_starts_clean (s : string) :
  starts_clean s → starts_clean (PyStr.rstrip s).
Proof.
  destruct s as [|c s]; simpl; [exact (fun x => x)|].
  intros E. destruct (PyStr.rstrip s); [rewrite E|]; exact E.
Qed.

Lemma rstrip_idempotent (s : string) :
  PyStr.rstrip (PyStr.rstrip s) = PyStr.rstrip s.
Proof.
  induction s as [|c s IH]; simpl; [reflexivity|].
  destruct (PyStr.rstrip s) as [|d r] eqn:E.
  - destruct (PyStr.isspace c) eqn:Ec; simpl; [reflexivity|].
    rewrite Ec. reflexivity.
  - change (PyStr.rstrip (String c (String d r))) with
      (match PyStr.rstrip (String d r) with
       | EmptyString =>
           if PyStr.isspace c then EmptyString else String c EmptyString
       | String d' r' => String c (String d' r')
       end).
    rewrite IH. reflexivity.
Qed.

Lemma strip_idempotent (s : string) :
  PyStr.strip (PyStr.strip s) = PyStr.strip s.
Proof.
  unfold PyStr.strip.
  rewrite (lstrip_clean (PyStr.rstrip (PyStr.lstrip s))).
  - apply rstrip_idempotent.
  - apply rstrip_starts_clean, lstrip_starts_clean.
Qed.

(** ** De-duplication loop *)

Section Dedup.
Import Models.

Lemma dedup_snoc (v : list string) (a : string) (st : gset string * list string) :
  fold_left dedup_step (v ++ [a]) st = dedup_step (fold_left dedup_step v st) a.
Proof. rewrite fold_left_app. reflexivity. Qed.

(** After the loop has read [v], [seen] and [unique] both hold exactly the
    values of [v]. *)
Lemma dedup_state (v : list string) :
  let st := fold_left dedup_step v (∅, []) in
  (∀ x, x ∈ st.1 ↔ x ∈ v) ∧ (∀ x, x ∈ st.2 ↔ x ∈ v).
Proof.
  induction v as [|a v IH] using rev_ind; simpl.
  - split; intros x; split; intros Hx; inversion Hx.
  - rewrite dedup_snoc. destruct IH as [IH1 IH2].
    unfold dedup_step. case_bool_decide as Hin; simpl.
    + apply IH1 in Hin.
      split; intros x; rewrite elem_of_app, list_elem_of_singleton, ?IH1, ?IH2;
        (split; [tauto | intros [Hx | ->]; assumption]).
    + split; intros x.
      * rewrite elem_of_union, elem_of_singleton, IH1,
          elem_of_app, list_elem_of_singleton. tauto.
      * rewrite !elem_of_app, IH2. tauto.
Qed.

Lemma remove_duplicates_snoc (v : list string) (a : string) :
  remove_duplicates (v ++ [a]) =
  if bool_decide (a ∈ v) then remove_duplicates v else remove_duplicates v ++ [a].
Proof.
  unfold remove_duplicates. rewrite dedup_snoc.
  destruct (dedup_state v) as [H1 _]. unfold dedup_step.
  rewrite (bool_decide_ext _ _ (H1 a)).
  case_bool_decide; reflexivity.
Qed.

Lemma remove_duplicates_elem (v : list string) (x : string) :
  x ∈ remove_duplicates v ↔ x ∈ v.
Proof. apply (dedup_state v). Qed.

Lemma remove_duplicates_NoDup (v : list string) : NoDup (remove_duplicates v).
Proof.
  induction v as [|a v IH] using rev_ind; [constructor|].
  rewrite remove_duplicates_snoc. case_bool_decide as Hin; [exact IH|].
  apply NoDup_app. split_and!; [exact IH| |apply NoDup_singleton].
  intros x Hx Hx'. apply list_elem_of_singleton in Hx'. subst x.
  apply Hin, remove_duplicates_elem, Hx.
Qed.

Lemma remove_duplicates_order (v : list string) (i j : nat) (x y : string) :
  remove_duplicates v !! i = Some x → remove_duplicates v !! j = Some y →
  (i < j)%nat →
  ∃ p : nat, v !! p = Some x ∧ ∀ q : nat, v !! q = Some y → (p < q)%nat.
Proof.
  revert i j x y. induction v as [|a v IH] using rev_ind; intros i j x y.
  - intros Hi. discriminate Hi.
  - rewrite remove_duplicates_snoc. case_bool_decide as Hin.
    + intros Hi Hj Hlt. destruct (IH _ _ _ _ Hi Hj Hlt) as (p & Hp & Hq).
      exists p. split; [apply lookup_app_l_Some, Hp|].
      intros q Hy. apply lookup_lt_Some in Hp as Hplen.
      destruct (decide (q < length v)%nat) as [Hlt'|Hge].
      * rewrite lookup_app_l in Hy by exact Hlt'. apply Hq, Hy.
      * lia.
    + intros Hi Hj Hlt.
      destruct (decide (j < length (remove_duplicates v))%nat) as [Hj'|Hj'].
      * rewrite lookup_app_l in Hj by exact Hj'.
        rewrite lookup_app_l in Hi by lia.
        destruct (IH _ _ _ _ Hi Hj Hlt) as (p & Hp & Hq).
        exists p. split; [apply lookup_app_l_Some, Hp|].
        intros q Hy. apply lookup_lt_Some in Hp as Hplen.
        destruct (decide (q < length v)%nat) as [Hlt'|Hge].
        -- rewrite lookup_app_l in Hy by exact Hlt'. apply Hq, Hy.
        -- lia.
      * apply lookup_lt_Some in Hj as Hjlen. rewrite length_app in Hjlen.
        simpl in Hjlen.
        assert (j = length (remove_duplicates v)) as -> by lia.
        rewrite lookup_app_l in Hi by lia.
        rewrite list_lookup_middle in Hj by reflexivity.
        injection Hj as <-.
        assert (x ∈ v) as Hxv.
        { apply remove_duplicates_elem. eapply list_elem_of_lookup_2, Hi. }
        apply list_elem_of_lookup_1 in Hxv as [p Hp].
        exists p. split; [apply lookup_app_l_Some, Hp|].
        intros q Hy. apply lookup_lt_Some in Hp as Hplen.
        destruct (decide (q < length v)%nat) as [Hlt'|Hge]; [|lia].
        rewrite lookup_app_l in Hy by exact Hlt'.
        exfalso. apply Hin. eapply list_elem_of_lookup_2, Hy.
Qed.

Lemma remove_duplicates_spec (v : list string) :
  first_occurrences_of v (remove_duplicates v).
Proof.
  split_and!.
  - apply remove_duplicates_NoDup.
  - apply remove_duplicates_elem.
  - apply remove_duplicates_order.
Qed.

(** A list without duplicates goes through the loop unchanged. *)
Lemma remove_duplicates_NoDup_id (v : list string) :
  NoDup v → remove_duplicates v = v.
Proof.
  induction v as [|a v IH] using rev_ind; [reflexivity|].
  intros Hnd. apply NoDup_app in Hnd as (Hv & Hdisj & _).
  rewrite remove_duplicates_snoc, (IH Hv).
  case_bool_decide as Hin; [|reflexivity].
  exfalso. apply (Hdisj a Hin). apply list_elem_of_singleton. reflexivity.
Qed.

Lemma remove_duplicates_nonempty (v : list string) :
  v ≠ [] → remove_duplicates v ≠ [].
Proof.
  destruct v as [|a v]; [congruence|]. intros _ Hnil.
  assert (a ∈ remove_duplicates (a :: v)) as Ha
    by (apply remove_duplicates_elem; left).
  rewrite Hnil in Ha. inversion Ha.
Qed.

Lemma remove_duplicates_forallb (p : string → bool) (v : list string) :
  forallb p v = true → forallb p (remove_duplicates v) = true.
Proof.
  rewrite !forallb_forall. intros Hall x Hx. apply Hall.
  apply list_elem_of_In, remove_duplicates_elem, list_elem_of_In, Hx.
Qed.

End Dedup.

(** ** Construction of a change record *)

Section Construction.
Import Models.

Lemma non_blank_nonempty (s : string) : non_blank s = true → s ≠ "".
Proof. intros H ->. discriminate H. Qed.

Lemma strip_no_space (s : string) :
  all_chars (fun c => negb (PyStr.isspace c)) s = true → PyStr.strip s = s.
Proof.
  intros Hall. unfold PyStr.strip.
  assert (PyStr.lstrip s = s) as ->.
  { destruct s as [|c s]; [reflexivity|]. simpl in *.
    apply andb_true_iff in Hall as [Hc _].
    apply negb_true_iff in Hc. rewrite Hc. reflexivity. }
  induction s as [|c s IH]; [reflexivity|]. simpl in *.
  apply andb_true_iff in Hall as [Hc Hs]. apply negb_true_iff in Hc.
  rewrite (IH Hs), Hc. destruct s; reflexivity.
Qed.

(** What a successful construction has checked and what it stores. *)
Lemma new_ContractChangeOutput_Ok (sections topics : list string)
    (summary : string) (c : ContractChangeOutput) :
  new_ContractChangeOutput sections topics summary = Ok c ↔
  sections ≠ [] ∧ forallb non_blank sections = true
  ∧ topics ≠ [] ∧ forallb non_blank topics = true
  ∧ (100 <= String.length (PyStr.strip summary))%nat
  ∧ c = {| sections_changed := remove_duplicates sections;
           topics_touched := remove_duplicates topics;
           summary_of_the_change := PyStr.strip summary |}.
Proof.
  unfold new_ContractChangeOutput, after, min_length,
    validate_sections, validate_topics, validate_summary.
  pose proof (strip_length summary) as Hle.
  destruct sections as [|s ss], topics as [|t ts]; simpl length;
    repeat match goal with
           | |- context [(?a <? ?b)%nat] =>
               let Hcmp := fresh "Hcmp" in destruct (Nat.ltb_spec a b) as [Hcmp|Hcmp]
           | |- context [forallb ?p ?l] => destruct (forallb p l)
           end; simpl;
    (split;
     [ intros Heq; first [discriminate Heq | injection Heq as <-]
     | intros (Hs & Hsb & Ht & Htb & Hlen & ->) ]);
    try reflexivity; try congruence; try lia.
  all: split_and!; (reflexivity || congruence || lia).
Qed.

Lemma sections_field_ok (sections : list string) :
  sections ≠ [] → forallb non_blank sections = true →
  after validate_sections (min_length (@length string) 1 sections)
  = inr (remove_duplicates sections).
Proof.
  intros Hne Hall. unfold after, min_length, validate_sections.
  destruct (Nat.ltb_spec (length sections) 1) as [Hlt|Hge].
  - destruct sections; [congruence | simpl in Hlt; lia].
  - rewrite Hall. reflexivity.
Qed.

Lemma topics_field_ok (topics : list string) :
  topics ≠ [] → forallb non_blank topics = true →
  after validate_topics (min_length (@length string) 1 topics)
  = inr (remove_duplicates topics).
Proof.
  intros Hne Hall. unfold after, min_length, validate_topics.
  destruct (Nat.ltb_spec (length topics) 1) as [Hlt|Hge].
  - destruct topics; [congruence | simpl in Hlt; lia].
  - rewrite Hall. reflexivity.
Qed.

End Construction.

Section ChangeRecord.
Import Models.

(** C3, as amended.  Every element of [sections_changed] and
    [topics_touched] of a constructed change record is one of the strings
    given to the constructor, stored as given (not trimmed), and contains a
    non-whitespace character: it is not empty and its trimmed form is not
    empty.  Duplicates are removed at construction: neither list holds a
    value twice. *)
Theorem constructed_elements_non_blank (sections topics : list string)
    (summary : string) (c : ContractChangeOutput) :
  new_ContractChangeOutput sections topics summary = Ok c →
  (∀ e, e ∈ sections_changed c →
        e ∈ sections ∧ e ≠ "" ∧ PyStr.strip e ≠ "")
  ∧ (∀ e, e ∈ topics_touched c →
          e ∈ topics ∧ e ≠ "" ∧ PyStr.strip e ≠ "")
  ∧ NoDup (sections_changed c) ∧ NoDup (topics_touched c).
Proof.
  intros Hc. apply new_ContractChangeOutput_Ok in Hc
    as (_ & Hs & _ & Ht & _ & ->). simpl.
  assert (∀ v e, forallb non_blank v = true → e ∈ remove_duplicates v →
                 e ∈ v ∧ e ≠ "" ∧ PyStr.strip e ≠ "") as Helem.
  { intros v e Hall He. apply (proj1 (remove_duplicates_elem _ _)) in He.
    rewrite forallb_forall in Hall.
    pose proof (Hall e (proj1 (list_elem_of_In _ _) He)) as Hnb.
    split_and!; [exact He | exact (non_blank_nonempty _ Hnb) |].
    unfold non_blank in Hnb. intros Hempty. rewrite Hempty in Hnb.
    discriminate Hnb. }
  split_and!; eauto using remove_duplicates_NoDup.
Qed.

Lemma constructed_elements_non_blank_witness :
  ∃ c, new_ContractChangeOutput Examples.padded_sections ["Terms"]
         Examples.summary_110 = Ok c
       ∧ NoDup (sections_changed c)
       ∧ ∀ e, e ∈ sections_changed c → PyStr.strip e ≠ "".
Proof.
  assert (new_ContractChangeOutput Examples.padded_sections ["Terms"]
            Examples.summary_110
          = Ok {| sections_changed := Examples.padded_sections;
                  topics_touched := ["Terms"];
                  summary_of_the_change := Examples.summary_110 |}) as Hc
    by (vm_compute; reflexivity).
  eexists. split; [exact Hc|].
  destruct (constructed_elements_non_blank _ _ _ _ Hc) as (Hs & _ & Hnd & _).
  split; [exact Hnd|]. intros e He. apply (Hs e He).
Defined.

(** Counterexample to C3 as stated: on the input of the repository's test
    [test_sections_with_whitespace_stripped] construction succeeds and
    stores ["  Section 1.0  "] with its surrounding blanks, a string that
    differs from its trimmed form. *)
Lemma stored_section_not_trimmed :
  ∃ c, new_ContractChangeOutput Examples.padded_sections ["Terms"]
         Examples.summary_110 = Ok c
       ∧ "  Section 1.0  " ∈ sections_changed c
       ∧ PyStr.strip "  Section 1.0  " ≠ "  Section 1.0  ".
Proof.
  eexists. split_and!.
  - vm_compute. reflexivity.
  - simpl. left.
  - vm_compute. discriminate.
Qed.

(** C4.  The lists stored by a successful construction are the distinct
    values of the input lists, each once, in first-occurrence order; the
    input [["A"; "B"; "A"; "C"]] is stored as [["A"; "B"; "C"]]. *)
Theorem constructed_lists_deduplicated (sections topics : list string)
    (summary : string) (c : ContractChangeOutput) :
  new_ContractChangeOutput sections topics summary = Ok c →
  first_occurrences_of sections (sections_changed c)
  ∧ first_occurrences_of topics (topics_touched c)
  ∧ (sections = ["A"; "B"; "A"; "C"] → sections_changed c = ["A"; "B"; "C"])
  ∧ (topics = ["A"; "B"; "A"; "C"] → topics_touched c = ["A"; "B"; "C"]).
Proof.
  intros Hc. apply new_ContractChangeOutput_Ok in Hc
    as (_ & _ & _ & _ & _ & ->). simpl.
  split_and!; try apply remove_duplicates_spec; intros ->; reflexivity.
Qed.

Lemma constructed_lists_deduplicated_witness :
  ∃ c, new_ContractChangeOutput ["A"; "B"; "A"; "C"] ["A"; "B"; "A"; "C"]
         Examples.summary_110 = Ok c
       ∧ sections_changed c = ["A"; "B"; "C"]
       ∧ topics_touched c = ["A"; "B"; "C"].
Proof.
  assert (new_ContractChangeOutput ["A"; "B"; "A"; "C"] ["A"; "B"; "A"; "C"]
            Examples.summary_110
          = Ok {| sections_changed := ["A"; "B"; "C"];
                  topics_touched := ["A"; "B"; "C"];
                  summary_of_the_change := Examples.summary_110 |}) as Hc
    by (vm_compute; reflexivity).
  eexists. split; [exact Hc|].
  destruct (constructed_lists_deduplicated _ _ _ _ Hc) as (_ & _ & Hs & Ht).
  split; [exact (Hs eq_refl) | exact (Ht eq_refl)].
Defined.

(** C5.  With section and topic lists that pass their own validation,
    construction succeeds exactly when the summary, trimmed of whitespace,
    has at least 100 characters; otherwise it raises a validation error on
    the summary field alone.  A summary of 99 characters is rejected, and
    one of exactly 100 non-whitespace characters is accepted and stored
    unchanged. *)
Theorem summary_length_decides_construction (sections topics : list string)
    (summary : string) :
  sections ≠ [] → forallb non_blank sections = true →
  topics ≠ [] → forallb non_blank topics = true →
  ((∃ c, new_ContractChangeOutput sections topics summary = Ok c)
   ↔ (100 <= String.length (PyStr.strip summary))%nat)
  ∧ ((String.length (PyStr.strip summary) < 100)%nat →
     ∃ err, new_ContractChangeOutput sections topics summary
            = Raise (ValidationError [("summary_of_the_change", err)]))
  ∧ (String.length summary = 99%nat →
     new_ContractChangeOutput sections topics summary
     = Raise (ValidationError [("summary_of_the_change", too_short 100 99)]))
  ∧ (String.length summary = 100%nat →
     all_chars (fun ch => negb (PyStr.isspace ch)) summary = true →
     ∃ c, new_ContractChangeOutput sections topics summary = Ok c
          ∧ summary_of_the_change c = summary).
Proof.
  intros Hs Hsb Ht Htb. split_and!.
  - split.
    + intros [c Hc]. apply new_ContractChangeOutput_Ok in Hc. tauto.
    + intros Hlen. eexists. apply new_ContractChangeOutput_Ok.
      split_and!; (assumption || reflexivity).
  - intros Hlen. unfold new_ContractChangeOutput.
    rewrite (sections_field_ok _ Hs Hsb), (topics_field_ok _ Ht Htb).
    unfold after, min_length, validate_summary.
    destruct (Nat.ltb_spec (String.length summary) 100) as [Hraw|Hraw];
      simpl; [eexists; reflexivity|].
    destruct (Nat.ltb_spec (String.length (PyStr.strip summary)) 100)
      as [Hstrip|Hstrip]; [|lia].
    simpl. eexists; reflexivity.
  - intros Hlen. unfold new_ContractChangeOutput.
    rewrite (sections_field_ok _ Hs Hsb), (topics_field_ok _ Ht Htb).
    unfold after, min_length. rewrite Hlen. reflexivity.
  - intros Hlen Hclean. eexists. split.
    + apply new_ContractChangeOutput_Ok.
      rewrite (strip_no_space _ Hclean).
      split_and!; (assumption || reflexivity || lia).
    + reflexivity.
Qed.

Lemma summary_length_decides_construction_witness :
  new_ContractChangeOutput ["Section 1.0"] ["Payment Terms"] Examples.summary_99
  = Raise (ValidationError [("summary_of_the_change", too_short 100 99)])
  ∧ ∃ c, new_ContractChangeOutput ["Section 1.0"] ["Payment Terms"]
           Examples.summary_100 = Ok c
         ∧ summary_of_the_change c = Examples.summary_100.
Proof.
  split.
  - apply (summary_length_decides_construction
             ["Section 1.0"] ["Payment Terms"] Examples.summary_99);
      (discriminate || reflexivity).
  - apply (summary_length_decides_construction
             ["Section 1.0"] ["Payment Terms"] Examples.summary_100);
      (discriminate || reflexivity).
Defined.

(** C9.  Dumping a constructed change record and constructing a record
    again from the dumped fields succeeds and gives back the same record:
    the validators leave validated data unchanged. *)
Theorem dump_then_validate_roundtrip (sections topics : list string)
    (summary : string) (c : ContractChangeOutput) :
  new_ContractChangeOutput sections topics summary = Ok c →
  model_validate (model_dump c) = Ok c.
Proof.
  intros Hc. apply new_ContractChangeOutput_Ok in Hc
    as (Hs & Hsb & Ht & Htb & Hlen & ->).
  unfold model_validate, model_dump. simpl.
  apply new_ContractChangeOutput_Ok.
  rewrite strip_idempotent.
  rewrite !(remove_duplicates_NoDup_id (remove_duplicates _))
    by apply remove_duplicates_NoDup.
  split_and!; auto using remove_duplicates_nonempty, remove_duplicates_forallb.
Qed.

Lemma dump_then_validate_roundtrip_witness :
  ∃ c, new_ContractChangeOutput Examples.padded_sections ["Terms"; "Terms"]
         ("  " +:+ Examples.summary_110 +:+ " ") = Ok c
       ∧ model_validate (model_dump c) = Ok c.
Proof.
  assert (new_ContractChangeOutput Examples.padded_sections ["Terms"; "Terms"]
            ("  " +:+ Examples.summary_110 +:+ " ")
          = Ok {| sections_changed := Examples.padded_sections;
                  topics_touched := ["Terms"];
                  summary_of_the_change := Examples.summary_110 |}) as Hc
    by (vm_compute; reflexivity).
  eexists. split; [exact Hc|].
  exact (dump_then_validate_roundtrip _ _ _ _ Hc).
Defined.

End ChangeRecord.

(** ** Output guardrail *)

Section OutputGuardrail.
Import Models Guardrails.

(** On a record with non-empty lists and a summary of 100 characters or
    more, [validate_output] records no error, and its only possible warning
    is the one about topics missing from the source texts. *)
Lemma validate_output_well_formed (output : ContractChangeOutput)
    (original amendment : ParsedContract) :
  sections_changed output ≠ [] → topics_touched output ≠ [] →
  (100 <= String.length (summary_of_the_change output))%nat →
  let r := validate_output output original amendment in
  errors r = [] ∧ is_valid r = true ∧ total_checks r = 4
  ∧ (warnings r = [] ∧ checks_passed r = 4
     ∨ warnings r =
         ["Topics do not appear in source documents - possible hallucination"]
       ∧ checks_passed r = 3).
Proof.
  intros Hs Ht Hlen. unfold validate_output.
  destruct (sections_changed output) as [|s ss]; [congruence|].
  destruct (topics_touched output) as [|t ts]; [congruence|].
  destruct (Nat.ltb_spec (String.length (summary_of_the_change output)) 100)
    as [Hlt|_]; [lia|].
  simpl length. simpl Nat.eqb. cbv iota.
  match goal with
  | |- context [if ?b then add_warning _ _ else _] => destruct b
  end; cbn; split_and!; try reflexivity; [right | left]; split; reflexivity.
Qed.

(** C10.  For a constructed change record and any pair of parsed documents,
    [validate_output] returns no error and [is_valid = True]; the
    "Summary too short" error and the two empty-list warnings do not
    occur. *)
Theorem validate_output_accepts_constructed (sections topics : list string)
    (summary : string) (c : ContractChangeOutput)
    (original amendment : ParsedContract) :
  new_ContractChangeOutput sections topics summary = Ok c →
  let r := validate_output c original amendment in
  errors r = [] ∧ is_valid r = true
  ∧ ("Summary too short" ∉ errors r)
  ∧ ("No sections changed identified" ∉ warnings r)
  ∧ ("No topics identified" ∉ warnings r).
Proof.
  intros Hc r. subst r. apply new_ContractChangeOutput_Ok in Hc
    as (Hs & _ & Ht & _ & Hlen & ->).
  pose proof (validate_output_well_formed
                {| sections_changed := remove_duplicates sections;
                   topics_touched := remove_duplicates topics;
                   summary_of_the_change := PyStr.strip summary |}
                original amendment
                (remove_duplicates_nonempty _ Hs)
                (remove_duplicates_nonempty _ Ht) Hlen) as (He & Hv & _ & Hw).
  cbv zeta in He, Hv, Hw. rewrite He, Hv.
  split_and!; try reflexivity; try apply not_elem_of_nil.
  all: destruct Hw as [[-> _] | [-> _]]; try apply not_elem_of_nil.
  all: rewrite list_elem_of_singleton; discriminate.
Qed.

Lemma validate_output_accepts_constructed_witness :
  ∃ c, new_ContractChangeOutput
         ["Section 2.1 - Payment Terms"; "Section 4.3 - Confidentiality"]
         ["Payment"; "Confidentiality"] Examples.summary_110 = Ok c
       ∧ errors (validate_output c Examples.original_doc Examples.amendment_doc) = []
       ∧ is_valid (validate_output c Examples.original_doc Examples.amendment_doc)
         = true.
Proof.
  assert (new_ContractChangeOutput
            ["Section 2.1 - Payment Terms"; "Section 4.3 - Confidentiality"]
            ["Payment"; "Confidentiality"] Examples.summary_110
          = Ok {| sections_changed :=
                    ["Section 2.1 - Payment Terms"; "Section 4.3 - Confidentiality"];
                  topics_touched := ["Payment"; "Confidentiality"];
                  summary_of_the_change := Examples.summary_110 |}) as Hc
    by (vm_compute; reflexivity).
  eexists. split; [exact Hc|].
  destruct (validate_output_accepts_constructed _ _ _ _
              Examples.original_doc Examples.amendment_doc Hc)
    as (He & Hv & _).
  split; [exact He | exact Hv].
Defined.

End OutputGuardrail.

(** ** Input guardrail *)

Section InputGuardrail.
Import Models Guardrails.
Context `{Host}.
Variable self : ContractGuardrails.

Lemma grows_refl (r : Results) : is_Some (details r) → grows r r.
Proof. intros Hd. split; [exact Hd|]. exists []. symmetry. apply app_nil_r. Qed.

Lemma grows_trans (r1 r2 r3 : Results) : grows r1 r2 → grows r2 r3 → grows r1 r3.
Proof.
  intros [_ [e1 H1]] [Hd [e2 H2]]. split; [exact Hd|].
  exists (e1 ++ e2). rewrite H2, H1. symmetry. apply app_assoc.
Qed.

Lemma total_check_bind (f g : Results → Res Results) :
  total_check f → total_check g → total_check (fun r => r' ← f r; g r').
Proof.
  intros Hf Hg r Hd. destruct (Hf r Hd) as (r1 & E1 & G1).
  destruct (Hg r1 (proj1 G1)) as (r2 & E2 & G2).
  exists r2. split; [|exact (grows_trans _ _ _ G1 G2)].
  rewrite E1. exact E2.
Qed.

(** Closes a goal [∃ r', Ok x = Ok r' ∧ grows r r'] on explicit records. *)
Ltac finish_check :=
  eexists; split; [reflexivity|];
  split; [simpl; eauto | simpl; eexists; try reflexivity;
          first [ symmetry; apply app_nil_r | reflexivity ]].

Lemma _check_text_length_total (contract : ParsedContract) :
  total_check (_check_text_length self contract).
Proof.
  intros [iv cp tc w e [d|]] Hd; [clear Hd | destruct Hd as [? [=]]].
  unfold _check_text_length, set_detail, count_check. simpl.
  repeat match goal with |- context [if ?b then _ else _] => destruct b end;
    finish_check.
Qed.

Lemma truediv_of_nat (a : Q) (n : nat) :
  (0 < n)%nat → Py.truediv a (Py.of_nat n) = Ok (a / Py.of_nat n)%Q.
Proof.
  intros Hn. unfold Py.truediv, Py.of_nat, Qeq_bool, inject_Z. simpl.
  destruct n as [|n]; [lia|]. reflexivity.
Qed.

Lemma truediv_inject_Z (a : Q) (z : Z) :
  z ≠ 0 → Py.truediv a (inject_Z z) = Ok (a / inject_Z z)%Q.
Proof.
  intros Hz. unfold Py.truediv, Qeq_bool, inject_Z. simpl.
  destruct z; [congruence | reflexivity | reflexivity].
Qed.

Lemma _check_text_quality_total (contract : ParsedContract) :
  total_check (_check_text_quality contract).
Proof.
  intros [iv cp tc w e [d|]] Hd; [clear Hd | destruct Hd as [? [=]]].
  unfold _check_text_quality, set_detail, count_check.
  cbn [mbind Res_bind details].
  destruct (Z.ltb_spec (Z.of_nat (length (PyStr.split (raw_text contract)))) 20)
    as [Hfew|Hmany]; [finish_check|].
  rewrite (truediv_of_nat _ (length (PyStr.split (raw_text contract)))) by lia.
  cbn [mbind Res_bind details].
  destruct (String.eqb_spec (raw_text contract) "") as [Hempty|Hfull].
  - rewrite Hempty in Hmany. simpl in Hmany. lia.
  - rewrite (truediv_of_nat _ (String.length (raw_text contract)))
      by (destruct (raw_text contract); [congruence | simpl; lia]).
    cbn [mbind Res_bind details].
    repeat match goal with |- context [if ?b then _ else _] => destruct b end;
      finish_check.
Qed.

Lemma _check_sections_total (contract : ParsedContract) :
  total_check (_check_sections contract).
Proof.
  intros [iv cp tc w e [d|]] Hd; [clear Hd | destruct Hd as [? [=]]].
  unfold _check_sections, set_detail, count_check. simpl.
  repeat match goal with |- context [if ?b then _ else _] => destruct b end;
    finish_check.
Qed.

Lemma new_ParsedContract_outcome (text kind : string) (sections : list string) :
  (∃ c, new_ParsedContract text kind sections = Ok c)
  ∨ (∃ es, new_ParsedContract text kind sections = Raise (ValidationError es)).
Proof.
  unfold new_ParsedContract.
  destruct (min_length String.length 50 text),
    (after validate_document_type (inr kind)); eauto.
Qed.

Lemma _check_pydantic_model_total (contract : ParsedContract) :
  total_check (_check_pydantic_model contract).
Proof.
  intros r Hd. unfold _check_pydantic_model.
  destruct (new_ParsedContract_outcome (raw_text contract)
              (document_type contract) (sections_identified contract))
    as [[c ->] | [es ->]]; finish_check.
Qed.

(** The integrity check returns unless the existence test raises; then the
    exception leaves the check. *)
Lemma _check_file_integrity_run (file_path : string) (r : Results) :
  is_Some (details r) →
  match path_exists file_path with
  | Ok _ => ∃ r', _check_file_integrity self file_path r = Ok r' ∧ grows r r'
  | Raise e => _check_file_integrity self file_path r = Raise e
  end.
Proof.
  destruct r as [iv cp tc w e [d|]]; intros Hd; [clear Hd | destruct Hd as [? [=]]].
  unfold _check_file_integrity, set_detail, count_check.
  destruct (path_exists file_path) as [found|err];
    cbn [mbind Res_bind]; [|reflexivity].
  destruct found; simpl; [|finish_check].
  repeat match goal with
         | |- context [if ?b then _ else _] => destruct b; simpl
         | |- context [match image_open ?p with _ => _ end] =>
             destruct (image_open p) as [[? ?]|?]; simpl
         end; finish_check.
Qed.

Lemma _check_file_size_total (file_path : string) :
  total_check (_check_file_size self file_path).
Proof.
  intros [iv cp tc w e [d|]] Hd; [clear Hd | destruct Hd as [? [=]]].
  unfold _check_file_size, file_size_body, set_detail, count_check. simpl.
  destruct (getsize file_path) as [size|err]; simpl; [|finish_check].
  match goal with |- context [if ?b then _ else _] => destruct b end;
    finish_check.
Qed.

Lemma _check_sensitive_data_total (contract : ParsedContract) :
  total_check (_check_sensitive_data self contract).
Proof.
  intros [iv cp tc w e [d|]] Hd; [clear Hd | destruct Hd as [? [=]]].
  unfold _check_sensitive_data, set_detail.
  destruct (scan_patterns _ _); simpl; finish_check.
Qed.

(** [validate_input] returns unless the existence test of the file raises:
    the length check runs on the initial [results], the later checks only
    add to what it recorded, and [is_valid] is set last.  An exception of
    the existence test leaves [validate_input]. *)
Lemma validate_input_run (contract : ParsedContract) (file_path : option string) :
  ∃ r1,
    _check_text_length self contract
      {| is_valid := true; checks_passed := 0; total_checks := 0;
         warnings := []; errors := []; details := Some ∅ |} = Ok r1
    ∧ match path_probe file_path with
      | None =>
          ∃ r, grows r1 r
               ∧ validate_input self contract file_path = Ok (set_is_valid r)
      | Some e => validate_input self contract file_path = Raise e
      end.
Proof.
  unfold validate_input.
  match goal with
  | |- context [_check_text_length self contract ?r] => set (r0 := r)
  end.
  assert (is_Some (details r0)) as Hd0 by (simpl; eauto).
  destruct (_check_text_length_total contract r0 Hd0) as (r1 & E1 & G1).
  destruct (_check_text_quality_total contract r1 (proj1 G1)) as (r2 & E2 & G2).
  destruct (_check_sections_total contract r2 (proj1 G2)) as (r3 & E3 & G3).
  destruct (_check_pydantic_model_total contract r3 (proj1 G3)) as (r4 & E4 & G4).
  exists r1. split; [exact E1|].
  rewrite E1. cbn [mbind Res_bind]. rewrite E2. cbn [mbind Res_bind].
  rewrite E3. cbn [mbind Res_bind]. rewrite E4. cbn [mbind Res_bind].
  assert (∀ r5, grows r4 r5 →
            ∃ r, grows r1 r
                 ∧ (results ← _check_sensitive_data self contract r5;
                    Ok (set_is_valid results)) = Ok (set_is_valid r)) as Hscan.
  { intros r5 G5.
    destruct (_check_sensitive_data_total contract r5 (proj1 G5))
      as (r6 & E6 & G6).
    exists r6. split; [eauto using grows_trans|]. rewrite E6. reflexivity. }
  unfold path_probe. destruct (path_given file_path) as [p|].
  - pose proof (_check_file_integrity_run p r4 (proj1 G4)) as Hrun.
    destruct (path_exists p) as [found|err].
    + destruct Hrun as (ra & Ea & Ga). rewrite Ea. cbn [mbind Res_bind].
      destruct (_check_file_size_total p ra (proj1 Ga)) as (rb & Eb & Gb).
      rewrite Eb. cbn [mbind Res_bind].
      apply Hscan. eauto using grows_trans.
    + rewrite Hrun. reflexivity.
  - cbn [mbind Res_bind]. apply Hscan. apply grows_refl, G4.
Qed.

(** C7.  [validate_input] returns a result unless a file path is given and
    the existence test of that path raises, in which case the exception
    leaves [validate_input]; without a file path it always returns.  The
    result it returns has [is_valid] true exactly when its [errors] list is
    empty, whatever its warnings.  On a document whose text has 30
    characters, with the default minimum of 50, the result is invalid and
    its errors contain ["Text too short (30 chars, minimum 50)"]. *)
Theorem validate_input_valid_iff_no_errors (contract : ParsedContract)
    (file_path : option string) :
  match path_probe file_path with
  | Some e => validate_input self contract file_path = Raise e
  | None =>
      ∃ r, validate_input self contract file_path = Ok r
           ∧ (is_valid r = true ↔ errors r = [])
           ∧ (String.length (raw_text contract) = 30%nat →
              min_text_length self = 50 →
              is_valid r = false
              ∧ "Text too short (30 chars, minimum 50)" ∈ errors r)
  end.
Proof.
  destruct (validate_input_run contract file_path) as (r1 & E1 & Hrun).
  destruct (path_probe file_path) as [e|]; [exact Hrun|].
  destruct Hrun as (r & G & E).
  exists (set_is_valid r). split; [exact E|]. simpl. split.
  - rewrite Nat.eqb_eq. apply length_zero_iff_nil.
  - intros Hlen Hmin.
    unfold _check_text_length, set_detail, count_check in E1.
    cbn [mbind Res_bind details] in E1. rewrite Hlen, Hmin in E1.
    injection E1 as <-. destruct G as [_ [extra Herr]]. simpl in Herr.
    rewrite Herr. split; [reflexivity | left].
Qed.

End InputGuardrail.

Lemma validate_input_valid_iff_no_errors_witness :
  ∃ r, Guardrails.validate_input (H := Examples.quiet_host)
         Guardrails.default_guardrails Examples.short_doc None = Ok r
       ∧ Guardrails.is_valid r = false
       ∧ "Text too short (30 chars, minimum 50)" ∈ Guardrails.errors r.
Proof.
  pose proof (validate_input_valid_iff_no_errors (H := Examples.quiet_host)
                Guardrails.default_guardrails Examples.short_doc None) as Hrun.
  cbn [path_probe Guardrails.path_given] in Hrun.
  destruct Hrun as (r & E & _ & Hshort).
  exists r. split; [exact E|]. apply Hshort; reflexivity.
Defined.

(** A document that draws a warning and no error is valid. *)
Example warnings_do_not_block :
  ∃ r, Guardrails.validate_input (H := Examples.quiet_host)
         Guardrails.default_guardrails Examples.unsectioned_doc None = Ok r
       ∧ Guardrails.warnings r
         = ["No sections identified - contract structure may be unclear"]
       ∧ Guardrails.errors r = []
       ∧ Guardrails.is_valid r = true.
Proof. eexists. split_and!; vm_compute; reflexivity. Qed.

(** ** Substrings and separators *)

Lemma append_cons (c : ascii) (a q : string) :
  String c a +:+ q = String c (a +:+ q).
Proof. reflexivity. Qed.

Lemma append_nil (q : string) : "" +:+ q = q.
Proof. reflexivity. Qed.

Lemma prefix_app (a s : string) :
  String.prefix a s = true ↔ ∃ q, s = a +:+ q.
Proof.
  revert a. induction s as [|d s IH]; intros [|c a]; simpl.
  - split; [intros _; exists ""; reflexivity | reflexivity].
  - split; [discriminate | intros [q Hq]; discriminate Hq].
  - split; [intros _; exists (String d s); reflexivity | reflexivity].
  - destruct (ascii_dec c d) as [->|Hne].
    + rewrite IH. split; intros [q Hq]; exists q;
        rewrite append_cons in *; congruence.
    + split; [discriminate|].
      intros [q Hq]. rewrite append_cons in Hq. congruence.
Qed.

Lemma contains_app (s needle : string) :
  PyStr.contains s needle = true ↔ ∃ p q, s = p +:+ needle +:+ q.
Proof.
  induction s as [|c s IH]; cbn [PyStr.contains].
  - rewrite orb_false_r, prefix_app. split.
    + intros [q Hq]. exists "", q. exact Hq.
    + intros (p & q & Hpq). destruct p as [|d p]; [|discriminate Hpq].
      exists q. exact Hpq.
  - rewrite orb_true_iff, prefix_app, IH. split.
    + intros [[q Hq] | (p & q & Hpq)].
      * exists "", q. exact Hq.
      * exists (String c p), q. rewrite append_cons. congruence.
    + intros (p & q & Hpq). destruct p as [|d p].
      * left. exists q. exact Hpq.
      * right. exists p, q. rewrite append_cons in Hpq. congruence.
Qed.

Lemma contains_false (s needle : string) :
  PyStr.contains s needle = false ↔ ∀ p q, s ≠ p +:+ needle +:+ q.
Proof.
  rewrite <- not_true_iff_false, contains_app. split.
  - intros Hno p q Heq. apply Hno. eauto.
  - intros Hno (p & q & Heq). exact (Hno p q Heq).
Qed.

(** The first piece of [s.split(sep)] ends where [sep] first occurs. *)
Lemma first_piece_spec (sep s : string) :
  let piece := (PyStr.pieces_from sep s 0).1 in
  if PyStr.contains s sep
  then ∃ rest, s = piece +:+ sep +:+ rest
               ∧ ∀ p q, s = p +:+ sep +:+ q →
                        (String.length piece <= String.length p)%nat
  else piece = s.
Proof.
  induction s as [|c s IH].
  - cbn [PyStr.pieces_from PyStr.contains fst]. rewrite orb_false_r.
    destruct (String.prefix sep "") eqn:Hpre; [|reflexivity].
    apply prefix_app in Hpre as [q Hq]. exists q. split; [exact Hq|].
    intros p q' _. simpl. lia.
  - cbn [PyStr.pieces_from PyStr.contains].
    destruct (String.prefix sep (String c s)) eqn:Hpre.
    + destruct (PyStr.pieces_from sep s (String.length sep - 1)) as [p0 ps0].
      simpl. apply prefix_app in Hpre as [q Hq]. exists q.
      split; [exact Hq|]. intros; simpl; lia.
    + simpl in IH. destruct (PyStr.pieces_from sep s 0) as [p0 ps0].
      simpl in IH |- *.
      destruct (PyStr.contains s sep) eqn:Hc; [|congruence].
      destruct IH as (rest & Hs & Hmin). exists rest. split.
      * rewrite append_cons. congruence.
      * intros p q Hpq. destruct p as [|e p].
        -- exfalso. apply not_true_iff_false in Hpre. apply Hpre.
           apply prefix_app. exists q. exact Hpq.
        -- rewrite append_cons in Hpq. injection Hpq as _ Hpq.
           specialize (Hmin p q Hpq). simpl. lia.
Qed.

(** ** Alignment self-check *)

Section Alignment.
Import Models ExtractionAgent.

Lemma section_id_spec (s : string) : is_section_id s (section_id s).
Proof.
  unfold section_id, PyStr.split_on.
  pose proof (first_piece_spec " - " s) as Hfirst. cbv zeta in Hfirst.
  destruct (PyStr.contains s " - ") eqn:Hc.
  - destruct (PyStr.pieces_from " - " s 0) as [p ps]. left. exact Hfirst.
  - right. split; [apply contains_false, Hc | reflexivity].
Qed.

Lemma elem_of_section_ids (areas : list string) (x : string) :
  x ∈ section_ids areas ↔ ∃ area, area ∈ areas ∧ x = section_id area.
Proof.
  unfold section_ids.
  assert (∀ acc : gset string,
            x ∈ fold_left (fun ids area => {[section_id area]} ∪ ids) areas acc
            ↔ x ∈ acc ∨ ∃ area, area ∈ areas ∧ x = section_id area) as Hgen.
  { induction areas as [|a areas IH]; intros acc; simpl.
    - split; [auto|]. intros [Hx | (area & Hin & _)]; [exact Hx | inversion Hin].
    - rewrite IH, elem_of_union, elem_of_singleton. split.
      + intros [[-> | Hx] | (area & Hin & ->)].
        * right. exists a. split; [left | reflexivity].
        * left. exact Hx.
        * right. exists area. split; [right; exact Hin | reflexivity].
      + intros [Hx | (area & Hin & ->)]; [tauto|].
        apply elem_of_cons in Hin as [-> | Hin]; [tauto|].
        right. exists area. tauto. }
  rewrite Hgen. split; [intros [Hx | Hx]; [inversion Hx | exact Hx] | auto].
Qed.

(** Rounding to two decimals moves a value by at most half a hundredth. *)
Lemma round2_close (x : Q) :
  (x - (1 # 200) <= round2 x)%Q ∧ (round2 x <= x + (1 # 200))%Q.
Proof.
  unfold round2. cbv zeta.
  pose proof (Qfloor_le (x * 100)) as Hlo.
  pose proof (Qlt_floor (x * 100)) as Hhi.
  rewrite inject_Z_plus in Hhi. change (inject_Z 1) with 1%Q in Hhi.
  set (n := Qfloor (x * 100)) in *.
  assert (∀ k : Z, (x * 100 - (1 # 2) <= inject_Z k)%Q →
                   (inject_Z k <= x * 100 + (1 # 2))%Q →
                   (x - (1 # 200) <= inject_Z k / 100)%Q
                   ∧ (inject_Z k / 100 <= x + (1 # 200))%Q) as Hdiv.
  { intros k Hk1 Hk2. split.
    - apply Qle_shift_div_l; lra.
    - apply Qle_shift_div_r; lra. }
  unfold Py.ltb.
  destruct (Qlt_le_dec (x * 100 - inject_Z n) (1 # 2)) as [Hlow|Hge].
  - apply Hdiv; lra.
  - destruct (Qlt_le_dec (1 # 2) (x * 100 - inject_Z n)) as [Hhigh|Hle].
    + apply Hdiv; rewrite inject_Z_plus; change (inject_Z 1) with 1%Q; lra.
    + destruct (Z.even n); apply Hdiv;
        rewrite ?inject_Z_plus; change (inject_Z 1) with 1%Q; lra.
Qed.

(** C6.  [validate_against_context] returns normally.  Its coverage ratio is
    the number of section identifiers common to both agents divided by the
    number of identifiers of agent 1, and 0 when agent 1 has none; a section
    identifier is the part of an entry before its first [" - "], or the whole
    entry without one.  [alignment_score] lies within one hundredth of that
    ratio as a percentage, and [all_areas_covered] tells whether the ratio
    is at least 0.8.  With ["Section 2.0 - X"] and ["Section 4.0 - Y"] as
    both the change areas and the changed sections, the score is 100 and all
    areas are covered. *)
Theorem validate_against_context_coverage (changes : ContractChangeOutput)
    (context : AgentContext) :
  let agent1 := section_ids (identified_change_areas context) in
  let agent2 := section_ids (sections_changed changes) in
  let ratio :=
    if (size agent1 =? 0)%nat then 0%Q
    else (Py.of_nat (size (agent1 ∩ agent2)) / Py.of_nat (size agent1))%Q in
  (∀ s, is_section_id s (section_id s))
  ∧ (∀ x, x ∈ agent1 ↔
          ∃ area, area ∈ identified_change_areas context ∧ x = section_id area)
  ∧ (∀ x, x ∈ agent2 ↔
          ∃ section, section ∈ sections_changed changes ∧ x = section_id section)
  ∧ coverage_ratio agent1 agent2 = Ok ratio
  ∧ ∃ r, validate_against_context changes context = Ok r
         ∧ (ratio * 100 - (1 # 100) <= alignment_score r)%Q
         ∧ (alignment_score r <= ratio * 100 + (1 # 100))%Q
         ∧ (all_areas_covered r = true ↔ (0.8 <= ratio)%Q)
         ∧ (identified_change_areas context = ["Section 2.0 - X"; "Section 4.0 - Y"] →
            sections_changed changes = ["Section 2.0 - X"; "Section 4.0 - Y"] →
            (alignment_score r == 100)%Q ∧ all_areas_covered r = true).
Proof.
  intros agent1 agent2 ratio.
  assert (coverage_ratio agent1 agent2 = Ok ratio) as Hratio.
  { unfold coverage_ratio, ratio.
    destruct (Nat.eqb_spec (size agent1) 0) as [Hz|Hnz]; [reflexivity|].
    apply truediv_of_nat. lia. }
  split_and!; [apply section_id_spec | apply elem_of_section_ids
               | apply elem_of_section_ids | exact Hratio |].
  unfold validate_against_context. fold agent1 agent2. rewrite Hratio.
  cbn [mbind Res_bind]. eexists. split; [reflexivity|].
  cbn [alignment_score all_areas_covered].
  destruct (round2_close (ratio * 100)) as [Hlo Hhi].
  split_and!; [lra | lra | apply Qle_bool_iff |].
  intros Hareas Hsections. subst ratio agent1 agent2.
  rewrite Hareas, Hsections. split; vm_compute; reflexivity.
Qed.

Lemma validate_against_context_coverage_witness :
  ∃ r, validate_against_context Examples.alignment_changes
         Examples.alignment_context = Ok r
       ∧ (alignment_score r == 100)%Q ∧ all_areas_covered r = true.
Proof.
  destruct (validate_against_context_coverage Examples.alignment_changes
              Examples.alignment_context)
    as (_ & _ & _ & _ & r & E & _ & _ & _ & Hex).
  exists r. split; [exact E|]. apply Hex; reflexivity.
Defined.

End Alignment.

(** ** Evaluator: the five scoring passes return normally *)

Section Scoring.
Import Models Evaluator.

Lemma ratio_of_total {A : Type} (n : Z) (l : list A) :
  ∃ q, ratio_of n l = Ok q.
Proof.
  destruct l as [|x l]; [exists 0%Q; reflexivity|].
  unfold ratio_of. rewrite truediv_of_nat by (simpl; lia). eauto.
Qed.

Lemma set_detail_scalar (key : string) (v : pyval) (r : EvalResults) :
  scalar v →
  map_Forall (fun _ v => scalar v) (details r) →
  map_Forall (fun _ v => scalar v) (details (set_detail key v r)).
Proof. intros Hv Hall. apply map_Forall_insert_2; assumption. Qed.

Lemma set_detail_other (key : string) (v w : pyval) (r : EvalResults) :
  key ≠ "sections_changed" →
  details r !! "sections_changed" = Some w →
  details (set_detail key v r) !! "sections_changed" = Some w.
Proof. intros Hne Hw. simpl. rewrite lookup_insert_ne by exact Hne. exact Hw. Qed.

(** Closes [scored key r (set_score key _ (set_detail _ _ (... r)))]. *)
Ltac scored_tac :=
  split_and!;
  [ eexists; reflexivity
  | intros Hall; cbn [details set_score];
    repeat (apply set_detail_scalar; [exact I|]); exact Hall
  | intros v0 Hv0; cbn [details set_score];
    repeat (apply set_detail_other; [discriminate|]); exact Hv0 ].

Lemma _evaluate_completeness_total (changes : ContractChangeOutput)
    (context : AgentContext) (r : EvalResults) :
  ∃ r', _evaluate_completeness changes context r = Ok r'
        ∧ (∃ score,
             dimension_scores r' = Dict.set "completeness" score (dimension_scores r))
        ∧ (map_Forall (fun _ v => scalar v) (details r) →
           map_Forall (fun _ v => scalar v) (details r'))
        ∧ details r' !! "sections_changed"
          = Some (PInt (Z.of_nat (length (sections_changed changes)))).
Proof.
  unfold _evaluate_completeness.
  destruct (Z.ltb_spec (Z.of_nat (length (sections_changed changes)))
              (Z.of_nat (length (identified_change_areas context))))
    as [Hlt|Hge].
  - rewrite truediv_inject_Z by lia. cbn [mbind Res_bind].
    eexists. split; [reflexivity|]. split_and!.
    + eexists; reflexivity.
    + intros Hall; cbn [details set_score].
      repeat (apply set_detail_scalar; [exact I|]); exact Hall.
    + cbn [details set_score set_detail].
      rewrite lookup_insert_ne by discriminate. apply lookup_insert_eq.
  - cbn [mbind Res_bind].
    eexists. split; [reflexivity|]. split_and!.
    + eexists; reflexivity.
    + intros Hall; cbn [details set_score].
      repeat (apply set_detail_scalar; [exact I|]); exact Hall.
    + cbn [details set_score set_detail].
      rewrite lookup_insert_ne by discriminate. apply lookup_insert_eq.
Qed.

Lemma _evaluate_accuracy_total (changes : ContractChangeOutput)
    (original amendment : ParsedContract) (r : EvalResults) :
  ∃ r', _evaluate_accuracy changes original amendment r = Ok r'
        ∧ scored "accuracy" r r'.
Proof.
  unfold _evaluate_accuracy.
  repeat match goal with
         | |- context [ratio_of ?n ?l] =>
             let q := fresh "q" in let E := fresh "E" in
             destruct (ratio_of_total n l) as [q E]; rewrite E;
             cbn [mbind Res_bind]
         end.
  eexists. split; [reflexivity|]. scored_tac.
Qed.

Lemma _evaluate_clarity_total (changes : ContractChangeOutput) (r : EvalResults) :
  ∃ r', _evaluate_clarity changes r = Ok r' ∧ scored "clarity" r r'.
Proof.
  unfold _evaluate_clarity.
  destruct (split_sentences (summary_of_the_change changes)) as [|s ss] eqn:Hs.
  - cbn [mbind Res_bind]. eexists. split; [reflexivity|]. scored_tac.
  - rewrite truediv_of_nat by (simpl; lia). cbn [mbind Res_bind].
    eexists. split; [reflexivity|]. scored_tac.
Qed.

Lemma count_positive {A : Type} (p : A → bool) (l : list A) :
  0 < count p l → (0 < length l)%nat.
Proof. unfold count. destruct l; simpl; lia. Qed.

Lemma _evaluate_relevance_total (changes : ContractChangeOutput)
    (original amendment : ParsedContract) (r : EvalResults) :
  ∃ r', _evaluate_relevance changes original amendment r = Ok r'
        ∧ scored "relevance" r r'.
Proof.
  unfold _evaluate_relevance.
  match goal with
  | |- context [count ?p ?l >? 0] =>
      destruct (Z.gtb_spec (count p l) 0) as [Hpos|Hzero]
  end.
  - rewrite (truediv_of_nat _ (length (topics_touched changes)))
      by exact (count_positive _ _ Hpos).
    cbn [mbind Res_bind]. eexists. split; [reflexivity|]. scored_tac.
  - cbn [mbind Res_bind]. eexists. split; [reflexivity|]. scored_tac.
Qed.

Lemma _evaluate_consistency_total (changes : ContractChangeOutput)
    (context : AgentContext) (r : EvalResults) :
  ∃ r', _evaluate_consistency changes context r = Ok r'
        ∧ scored "consistency" r r'.
Proof.
  unfold _evaluate_consistency.
  repeat match goal with
         | |- context [ratio_of ?n ?l] =>
             let q := fresh "q" in let E := fresh "E" in
             destruct (ratio_of_total n l) as [q E]; rewrite E;
             cbn [mbind Res_bind]
         end.
  eexists. split; [reflexivity|]. scored_tac.
Qed.

(** The scoring passes return normally and leave the five scores, in the
    order in which they were computed; every entry of [details] is a scalar
    and ["sections_changed"] holds an integer, the number of changed
    sections. *)
Lemma run_dimensions_total (now : string) (changes : ContractChangeOutput)
    (original amendment : ParsedContract) (context : AgentContext) :
  ∃ r completeness accuracy clarity relevance consistency,
    run_dimensions now changes original amendment context = Ok r
    ∧ dimension_scores r =
        [("completeness", completeness); ("accuracy", accuracy);
         ("clarity", clarity); ("relevance", relevance);
         ("consistency", consistency)]
    ∧ map_Forall (fun _ v => scalar v) (details r)
    ∧ details r !! "sections_changed"
      = Some (PInt (Z.of_nat (length (sections_changed changes)))).
Proof.
  unfold run_dimensions.
  destruct (_evaluate_completeness_total changes context (new_results now))
    as (r1 & E1 & [c D1] & S1 & L1).
  destruct (_evaluate_accuracy_total changes original amendment r1)
    as (r2 & E2 & [a D2] & S2 & L2).
  destruct (_evaluate_clarity_total changes r2) as (r3 & E3 & [cl D3] & S3 & L3).
  destruct (_evaluate_relevance_total changes original amendment r3)
    as (r4 & E4 & [re D4] & S4 & L4).
  destruct (_evaluate_consistency_total changes context r4)
    as (r5 & E5 & [co D5] & S5 & L5).
  exists r5, c, a, cl, re, co.
  rewrite E1. cbn [mbind Res_bind]. rewrite E2. cbn [mbind Res_bind].
  rewrite E3. cbn [mbind Res_bind]. rewrite E4. cbn [mbind Res_bind].
  split_and!.
  - exact E5.
  - rewrite D5, D4, D3, D2, D1. reflexivity.
  - apply S5, S4, S3, S2, S1. apply map_Forall_empty.
  - apply L5, L4, L3, L2, L1.
Qed.

(** ** Evaluator: aggregation and recommendations *)

Lemma num_get_total (d : gmap string pyval) (key : string) (default : pyval) :
  map_Forall (fun _ v => scalar v) d → scalar default →
  ∃ q, Py.num (Py.get d key default) = Ok q.
Proof.
  intros Hall Hdef. unfold Py.get.
  destruct (d !! key) as [v|] eqn:Hv.
  - apply Hall in Hv. destruct v; simpl in Hv; try contradiction; simpl; eauto.
  - destruct default; simpl in Hdef; try contradiction; simpl; eauto.
Qed.

Lemma aggregate_five (r : EvalResults) (c a cl re co : Q) :
  dimension_scores r =
    [("completeness", c); ("accuracy", a); ("clarity", cl);
     ("relevance", re); ("consistency", co)] →
  aggregate r =
    Ok {| timestamp := timestamp r;
          dimension_scores := dimension_scores r;
          overall_score := ((0 + c + a + cl + re + co) / 5)%Q;
          grade := _assign_grade ((0 + c + a + cl + re + co) / 5)%Q;
          recommendations := recommendations r;
          details := details r |}.
Proof.
  intros Hds. unfold aggregate. rewrite Hds.
  rewrite (truediv_of_nat _ 5) by lia. reflexivity.
Qed.

(** [_generate_recommendations] on the outcome of the scoring passes: with a
    completeness score below 70 it calls [len] on the integer stored under
    ["sections_changed"] and raises; otherwise it returns [results] with the
    recommendations filled in. *)
Lemma _generate_recommendations_outcome (r : EvalResults) (c a cl re co : Q)
    (n : Z) :
  dimension_scores r =
    [("completeness", c); ("accuracy", a); ("clarity", cl);
     ("relevance", re); ("consistency", co)] →
  map_Forall (fun _ v => scalar v) (details r) →
  details r !! "sections_changed" = Some (PInt n) →
  if Py.ltb c 70
  then _generate_recommendations r
       = Raise (TypeError "object of type 'int' has no len()")
  else ∃ recs,
         _generate_recommendations r
         = Ok {| timestamp := timestamp r;
                 dimension_scores := dimension_scores r;
                 overall_score := overall_score r;
                 grade := grade r;
                 recommendations := recs;
                 details := details r |}.
Proof.
  intros Hds Hall Hn. unfold _generate_recommendations. cbv zeta. rewrite Hds.
  change (Dict.getitem _ "completeness") with (Ok c).
  change (Dict.getitem _ "accuracy") with (Ok a).
  change (Dict.getitem _ "clarity") with (Ok cl).
  change (Dict.getitem _ "relevance") with (Ok re).
  change (Dict.getitem _ "consistency") with (Ok co).
  cbn [mbind Res_bind].
  destruct (Py.ltb c 70).
  - destruct (num_get_total (details r) "coverage_ratio" (PFloat 1) Hall I)
      as [q E]. rewrite E. cbn [mbind Res_bind].
    change (Py.get (details r) "sections_changed" (PList []))
      with (match details r !! "sections_changed" with
            | Some v => v
            | None => PList []
            end).
    rewrite Hn. reflexivity.
  - cbn [mbind Res_bind].
    repeat match goal with
           | |- context [Py.num (Py.get ?d ?k ?v)] =>
               let q := fresh "q" in
               let E := fresh "E" in
               destruct (num_get_total d k v Hall I) as [q E]; rewrite E
           end.
    destruct (Py.ltb a 70), (Py.ltb cl 70), (Py.ltb re 70), (Py.ltb co 70);
      cbn [mbind Res_bind]; eexists; reflexivity.
Qed.

Lemma summary_length_penalty_cases (summary_length : Z) (score : Q) :
  summary_length_penalty summary_length score
  = if summary_length <? 200 then (score * 0.7)%Q else score.
Proof.
  unfold summary_length_penalty.
  destruct (Z.ltb_spec summary_length 200) as [Hlt|Hge]; [reflexivity|].
  destruct (Z.ltb_spec summary_length 100) as [Hlt'|_]; [lia | reflexivity].
Qed.


Lemma ltb_spec (a b : Q) : BoolSpec (a < b)%Q (b <= a)%Q (Py.ltb a b).
Proof. unfold Py.ltb. destruct (Qlt_le_dec a b); constructor; assumption. Qed.


(** ** Evaluator: outcome of [evaluate_output] *)

Lemma evaluate_output_outcome (now : string) (changes : ContractChangeOutput)
    (original amendment : ParsedContract) (context : AgentContext) :
  ∃ r c a cl re co,
    run_dimensions now changes original amendment context = Ok r
    ∧ dimension_scores r =
        [("completeness", c); ("accuracy", a); ("clarity", cl);
         ("relevance", re); ("consistency", co)]
    ∧ if Py.ltb c 70
      then evaluate_output now changes original amendment context
           = Raise (TypeError "object of type 'int' has no len()")
      else ∃ recs,
             evaluate_output now changes original amendment context
             = Ok {| timestamp := timestamp r;
                     dimension_scores := dimension_scores r;
                     overall_score := ((0 + c + a + cl + re + co) / 5)%Q;
                     grade := _assign_grade ((0 + c + a + cl + re + co) / 5)%Q;
                     recommendations := recs;
                     details := details r |}.
Proof.
  destruct (run_dimensions_total now changes original amendment context)
    as (r & c & a & cl & re & co & Hrun & Hds & Hall & Hn).
  exists r, c, a, cl, re, co. split; [exact Hrun|]. split; [exact Hds|].
  unfold evaluate_output. rewrite Hrun. cbn [mbind Res_bind].
  rewrite (aggregate_five r c a cl re co Hds). cbn [mbind Res_bind].
  match goal with
  | |- context [_generate_recommendations ?agg] =>
      pose proof (_generate_recommendations_outcome agg c a cl re co _
                    Hds Hall Hn) as Hrec
  end.
  destruct (Py.ltb c 70); exact Hrec.
Qed.

(** Every run with a completeness score below 70 raises [TypeError]; every
    other run returns a result. *)
Lemma evaluate_output_raises_below_70 (now : string)
    (changes : ContractChangeOutput) (original amendment : ParsedContract)
    (context : AgentContext) :
  ∃ r c,
    run_dimensions now changes original amendment context = Ok r
    ∧ Dict.get (dimension_scores r) "completeness" = Some c
    ∧ ((c < 70)%Q →
       evaluate_output now changes original amendment context
       = Raise (TypeError "object of type 'int' has no len()"))
    ∧ ((70 <= c)%Q →
       ∃ r', evaluate_output now changes original amendment context = Ok r').
Proof.
  destruct (evaluate_output_outcome now changes original amendment context)
    as (r & c & a & cl & re & co & Hrun & Hds & Hout).
  exists r, c. split; [exact Hrun|]. split; [rewrite Hds; reflexivity|].
  destruct (ltb_spec c 70) as [Hlt|Hge].
  - split; [intros _; exact Hout | intros Hge; lra].
  - split; [intros Hlt; lra | intros _]. destruct Hout as [recs Hout]. eauto.
Qed.

End Scoring.

Section EvaluatorClaims.
Import Models Evaluator.

(** C1.  The code at a change record whose summary has 90 characters (and
    which names as many sections as the context has change areas, with a
    topic): the [< 200] test comes first and succeeds, so the score is
    multiplied by 0.7 and completeness is 70; the [elif < 100] branch with
    the 0.3 multiplier is not taken, and completeness is not 30.  The same
    holds at 80 characters. *)
Theorem short_summary_is_multiplied_by_0_7 :
  String.length (summary_of_the_change Examples.short_summary_changes) = 90%nat
  ∧ (summary_length_penalty 90 100 == 100 * 0.7)%Q
  ∧ (summary_length_penalty 80 100 == 100 * 0.7)%Q
  ∧ ¬ (summary_length_penalty 90 100 == 100 * 0.3)%Q
  ∧ ∃ r completeness,
      _evaluate_completeness Examples.short_summary_changes
        Examples.one_area_context (new_results Examples.timestamp_text) = Ok r
      ∧ Dict.get (dimension_scores r) "completeness" = Some completeness
      ∧ (completeness == 70)%Q
      ∧ ¬ (completeness == 30)%Q.
Proof.
  split_and!; try (vm_compute; congruence).
  eexists _, _. split_and!; try (vm_compute; reflexivity).
  vm_compute. discriminate.
Qed.

(** C2.  The code at a validated change record that covers one of the two
    change areas of a validated context: the scoring passes give a
    completeness of 50, and [evaluate_output] does not return: generating
    the recommendations raises [TypeError], because ["sections_changed"] in
    [details] holds the number of sections and [len] is applied to it. *)
Theorem evaluate_output_raises_on_partial_coverage :
  new_ContractChangeOutput ["Section 2.1 - Payment Terms"]
    ["Payment"; "Confidentiality"] Examples.summary_219
  = Ok Examples.partial_changes
  ∧ new_AgentContext Examples.structure_text
      {["Section 2.1" := "Section 2.1"; "Section 4.3" := "Section 4.3"]}
      ["Section 2.1 - Payment Terms"; "Section 4.3 - Confidentiality"]
      Examples.context_text
    = Ok Examples.two_area_context
  ∧ (∃ r completeness,
       run_dimensions Examples.timestamp_text Examples.partial_changes
         Examples.original_doc Examples.amendment_doc Examples.two_area_context
       = Ok r
       ∧ Dict.get (dimension_scores r) "completeness" = Some completeness
       ∧ (completeness == 50)%Q
       ∧ details r !! "sections_changed" = Some (PInt 1))
  ∧ evaluate_output Examples.timestamp_text Examples.partial_changes
      Examples.original_doc Examples.amendment_doc Examples.two_area_context
    = Raise (TypeError "object of type 'int' has no len()").
Proof.
  split_and!; try (vm_compute; reflexivity).
  eexists _, _. split_and!; vm_compute; reflexivity.
Qed.



End EvaluatorClaims.

(** * Further properties of the data models *)

Section ModelConstruction.
Import Models.

(** When the constructor of a parsed document returns, and what. *)
Lemma new_ParsedContract_inv (text kind : string) (sections : list string)
    (c : ParsedContract) :
  new_ParsedContract text kind sections = Ok c ↔
  (50 <= String.length text)%nat
  ∧ PyStr.lower kind ∈ ["original"; "amendment"]
  ∧ c = {| raw_text := text; document_type := PyStr.lower kind;
           sections_identified := sections |}.
Proof.
  unfold new_ParsedContract, min_length, after, validate_document_type.
  destruct (Nat.ltb_spec (String.length text) 50) as [Hshort|Hlong];
    case_bool_decide as Hkind; simpl; split;
    try (intros Heq; discriminate Heq);
    try (intros (Hlen & Hk & _); first [lia | contradiction]).
  - intros [= <-]. auto.
  - intros (_ & _ & ->). reflexivity.
Qed.

(** X1.  A parsed document is constructed exactly when its text has at
    least 50 characters and its kind, in lower case, is ["original"] or
    ["amendment"]; the record keeps the text and the sections as given and
    stores the kind in lower case.  In every other case the constructor
    raises a [ValidationError] that names at least one field, and nothing
    else. *)
Theorem new_ParsedContract_Ok (text kind : string) (sections : list string) :
  (∀ c, new_ParsedContract text kind sections = Ok c ↔
        (50 <= String.length text)%nat
        ∧ PyStr.lower kind ∈ ["original"; "amendment"]
        ∧ c = {| raw_text := text; document_type := PyStr.lower kind;
                 sections_identified := sections |})
  ∧ ((∃ c, new_ParsedContract text kind sections = Ok c)
     ∨ ∃ errors, errors ≠ []
                 ∧ (∀ name e, (name, e) ∈ errors →
                              name = "raw_text" ∨ name = "document_type")
                 ∧ new_ParsedContract text kind sections
                   = Raise (ValidationError errors)).
Proof.
  split; [intros c; apply new_ParsedContract_inv|].
  unfold new_ParsedContract, min_length, after, validate_document_type.
  destruct (Nat.ltb_spec (String.length text) 50) as [Hshort|Hlong];
    case_bool_decide as Hkind; cbn [errors_of app];
    first [left; eexists; reflexivity
          | right; eexists; (split; [|split; [|reflexivity]]);
            [discriminate|]];
    intros name e Hin;
    repeat (apply elem_of_cons in Hin as [Hin|Hin];
            [injection Hin as -> _; auto|]);
    inversion Hin.
Qed.

(** X2.  A constructed parsed document validates again to itself, so the
    self-check of the input guardrail passes on it. *)
Theorem ParsedContract_revalidates `{Host} (text kind : string)
    (sections : list string) (c : ParsedContract) (r : Guardrails.Results) :
  new_ParsedContract text kind sections = Ok c →
  new_ParsedContract (raw_text c) (document_type c) (sections_identified c) = Ok c
  ∧ Guardrails._check_pydantic_model c r
    = Ok (Guardrails.pass_check (Guardrails.count_check r)).
Proof.
  intros Hc. apply new_ParsedContract_inv in Hc as (Hlen & Hkind & ->).
  assert (new_ParsedContract text (PyStr.lower kind) sections
          = Ok {| raw_text := text; document_type := PyStr.lower kind;
                  sections_identified := sections |}) as Hagain.
  { apply new_ParsedContract_inv.
    assert (PyStr.lower (PyStr.lower kind) = PyStr.lower kind) as ->.
    { apply elem_of_cons in Hkind as [-> | Hkind]; [reflexivity|].
      apply list_elem_of_singleton in Hkind as ->. reflexivity. }
    auto. }
  split; [exact Hagain|].
  unfold Guardrails._check_pydantic_model. simpl. rewrite Hagain. reflexivity.
Qed.

Lemma ParsedContract_revalidates_witness :
  new_ParsedContract Examples.original_text "ORIGINAL" ["Section 2.1"]
  = Ok {| raw_text := Examples.original_text; document_type := "original";
          sections_identified := ["Section 2.1"] |}
  ∧ new_ParsedContract Examples.original_text "original" ["Section 2.1"]
    = Ok {| raw_text := Examples.original_text; document_type := "original";
            sections_identified := ["Section 2.1"] |}.
Proof.
  assert (new_ParsedContract Examples.original_text "ORIGINAL" ["Section 2.1"]
          = Ok {| raw_text := Examples.original_text; document_type := "original";
                  sections_identified := ["Section 2.1"] |}) as Hc
    by (vm_compute; reflexivity).
  split; [exact Hc|].
  exact (proj1 (ParsedContract_revalidates (H := Examples.quiet_host) _ _ _ _
                  (Guardrails.set_is_valid
                     {| Guardrails.is_valid := true; Guardrails.checks_passed := 0;
                        Guardrails.total_checks := 0; Guardrails.warnings := [];
                        Guardrails.errors := []; Guardrails.details := None |})
                  Hc)).
Defined.

(** X3.  A context is constructed exactly when its structure description
    has at least 100 characters, its section mapping is not empty, it names
    at least one change area and its summary has at least 50 characters;
    the record holds the four values unchanged. *)
Theorem new_AgentContext_Ok (structure : string) (mapping : gmap string string)
    (areas : list string) (summary : string) (ctx : AgentContext) :
  new_AgentContext structure mapping areas summary = Ok ctx ↔
  (100 <= String.length structure)%nat
  ∧ mapping ≠ ∅
  ∧ areas ≠ []
  ∧ (50 <= String.length summary)%nat
  ∧ ctx = {| document_structure := structure;
             corresponding_sections := mapping;
             identified_change_areas := areas;
             context_summary := summary |}.
Proof.
  unfold new_AgentContext, min_length, after, validate_section_mapping.
  rewrite <- (map_size_empty_iff mapping).
  destruct (Nat.ltb_spec (String.length structure) 100) as [H1|H1];
    case_bool_decide as H2;
    destruct (Nat.ltb_spec (length areas) 1) as [H3|H3];
    destruct (Nat.ltb_spec (String.length summary) 50) as [H4|H4];
    simpl; split;
    try (intros Heq; discriminate Heq);
    try (intros (? & ? & Ha & ? & _);
         first [lia | contradiction
               | destruct areas; [congruence | simpl in *; lia]]).
  - intros [= <-]. split_and!; auto. intros ->. simpl in H3. lia.
  - intros (_ & _ & _ & _ & ->). reflexivity.
Qed.

End ModelConstruction.

(** * Further properties of the guardrails *)

Section InputChecks.
Import Models Guardrails.
Context `{Host}.
Variable self : ContractGuardrails.

(** Closes [∃ new, w' = w ++ new] on explicit lists. *)
Ltac added_at_end :=
  simpl;
  first [ exists []; symmetry; apply app_nil_r
        | eexists; reflexivity
        | eexists; rewrite <- app_assoc; reflexivity ].

Ltac outcome_tac :=
  eexists; split; [reflexivity|];
  split; [simpl; eauto|]; split; [reflexivity|]; split; [added_at_end|].

Lemma _check_text_length_outcome (contract : ParsedContract) (r : Results) :
  is_Some (details r) →
  ∃ r', _check_text_length self contract r = Ok r'
        ∧ check_outcome
            (min_text_length self <= Z.of_nat (String.length (raw_text contract))
             <= max_text_length self) r r'.
Proof.
  destruct r as [iv cp tc w e [d|]]; intros Hd; [clear Hd | destruct Hd as [? [=]]].
  unfold _check_text_length, set_detail, count_check.
  cbn [mbind Res_bind details].
  destruct (Z.ltb_spec (Z.of_nat (String.length (raw_text contract)))
              (min_text_length self)) as [Hlt|Hge].
  - outcome_tac. right. split; [lia|]. split; [eexists|]; reflexivity.
  - destruct (Z.gtb_spec (Z.of_nat (String.length (raw_text contract)))
                (max_text_length self)) as [Hgt|Hle].
    + outcome_tac. right. split; [lia|]. split; [eexists|]; reflexivity.
    + outcome_tac. left. split; [lia|]. split; reflexivity.
Qed.

Lemma _check_text_quality_outcome (contract : ParsedContract) (r : Results) :
  is_Some (details r) →
  ∃ r', _check_text_quality contract r = Ok r'
        ∧ check_outcome
            (20 <= length (PyStr.split (raw_text contract)))%nat r r'.
Proof.
  destruct r as [iv cp tc w e [d|]]; intros Hd; [clear Hd | destruct Hd as [? [=]]].
  unfold _check_text_quality, set_detail, count_check.
  cbn [mbind Res_bind details].
  destruct (Z.ltb_spec (Z.of_nat (length (PyStr.split (raw_text contract)))) 20)
    as [Hfew|Hmany].
  - outcome_tac. right. split; [lia|]. split; [eexists|]; reflexivity.
  - rewrite (truediv_of_nat _ (length (PyStr.split (raw_text contract)))) by lia.
    cbn [mbind Res_bind details].
    destruct (String.eqb_spec (raw_text contract) "") as [Hempty|Hfull].
    + rewrite Hempty in Hmany. simpl in Hmany. lia.
    + rewrite (truediv_of_nat _ (String.length (raw_text contract)))
        by (destruct (raw_text contract); [congruence | simpl; lia]).
      cbn [mbind Res_bind details].
      repeat match goal with |- context [if ?b then _ else _] => destruct b end;
        outcome_tac; left; (split; [lia|]); split; reflexivity.
Qed.

Lemma _check_sections_outcome (contract : ParsedContract) (r : Results) :
  is_Some (details r) →
  ∃ r', _check_sections contract r = Ok r' ∧ check_outcome True r r'.
Proof.
  destruct r as [iv cp tc w e [d|]]; intros Hd; [clear Hd | destruct Hd as [? [=]]].
  unfold _check_sections, set_detail, count_check.
  cbn [mbind Res_bind details].
  repeat match goal with |- context [if ?b then _ else _] => destruct b end;
    outcome_tac; left; (split; [exact I|]); split; reflexivity.
Qed.

Lemma _check_pydantic_model_outcome (contract : ParsedContract) (r : Results) :
  is_Some (details r) →
  ∃ r', _check_pydantic_model contract r = Ok r'
        ∧ check_outcome (schema_ok contract) r r'.
Proof.
  intros Hd. unfold _check_pydantic_model.
  destruct (new_ParsedContract (raw_text contract) (document_type contract)
              (sections_identified contract)) as [c|e] eqn:E.
  - apply new_ParsedContract_inv in E as (Hlen & Hkind & _).
    outcome_tac. left. split; [split; assumption|]. split; reflexivity.
  - assert (¬ schema_ok contract) as Hno.
    { intros [Hlen Hkind].
      assert (new_ParsedContract (raw_text contract) (document_type contract)
                (sections_identified contract)
              = Ok {| raw_text := raw_text contract;
                      document_type := PyStr.lower (document_type contract);
                      sections_identified := sections_identified contract |})
        as Hok by (apply new_ParsedContract_inv; auto).
      congruence. }
    destruct (new_ParsedContract_outcome (raw_text contract)
                (document_type contract) (sections_identified contract))
      as [[c Hc] | [es Hes]]; [congruence|].
    rewrite E in Hes. injection Hes as ->.
    outcome_tac. right. split; [exact Hno|]. split; [eexists|]; reflexivity.
Qed.

Lemma check_outcome_counted (ok : Prop) (r r' : Results) :
  check_outcome ok r r' → counted r r'.
Proof.
  intros (Hd & Ht & [nw Hw] & [(_ & He & Hp) | (_ & [msg He] & Hp)]);
    (split; [exact Hd|]; split; [exact Ht|]).
  - exists [], nw. rewrite app_nil_r. split_and!; [exact He | exact Hw |].
    left. split; [exact Hp | reflexivity].
  - exists [msg], nw. split_and!; [exact He | exact Hw |].
    right. split; [exact Hp | reflexivity].
Qed.

Lemma counted_consistent (unread : Z) (r r' : Results) :
  counters_consistent unread r → counted r r' → counters_consistent unread r'.
Proof.
  intros (Hp & Hsum) (_ & Ht & ne & nw & He & Hw & Hcase).
  unfold counters_consistent. rewrite He, Ht, !length_app.
  destruct Hcase as [[Hpass ->] | (Hsame & Hone)]; simpl; lia.
Qed.

(** Closes [counted r r'] on explicit records. *)
Ltac counted_tac :=
  split; [simpl; eauto|]; split; [reflexivity|];
  first [ exists [], []; simpl; rewrite !app_nil_r;
          split_and!; [reflexivity | reflexivity |];
          left; split; [reflexivity | reflexivity]
        | eexists [_], []; simpl; rewrite ?app_nil_r;
          split_and!; [reflexivity | reflexivity |];
          right; split; [reflexivity | reflexivity] ].

(** The integrity check, when the existence test answers, is counted once;
    an exception of the existence test leaves the check. *)
Lemma _check_file_integrity_counted (file_path : string) (r : Results) :
  is_Some (details r) →
  match path_exists file_path with
  | Ok _ => ∃ r', _check_file_integrity self file_path r = Ok r' ∧ counted r r'
  | Raise e => _check_file_integrity self file_path r = Raise e
  end.
Proof.
  destruct r as [iv cp tc w e [d|]]; intros Hd; [clear Hd | destruct Hd as [? [=]]].
  unfold _check_file_integrity, set_detail, count_check.
  destruct (path_exists file_path) as [found|err];
    cbn [mbind Res_bind details]; [|reflexivity].
  destruct found; cbn [negb mbind Res_bind details].
  - repeat match goal with
           | |- context [if ?b then _ else _] =>
               destruct b; cbn [negb mbind Res_bind details]
           | |- context [match image_open ?p with _ => _ end] =>
               destruct (image_open p) as [[? ?]|?]; cbn [mbind Res_bind details]
           end;
      (eexists; split; [reflexivity|]); counted_tac.
  - eexists; split; [reflexivity|]. counted_tac.
Qed.

(** The size check is counted once when the size can be read; when it
    cannot, the check is counted, does not pass, and leaves the exception
    as a warning and no error. *)
Lemma _check_file_size_counted (file_path : string) (r : Results) :
  is_Some (details r) →
  match getsize file_path with
  | Ok _ => ∃ r', _check_file_size self file_path r = Ok r' ∧ counted r r'
  | Raise e =>
      _check_file_size self file_path r
      = Ok (add_warning ("Could not check file size: " +:+ str_of_exn e)
              (count_check r))
  end.
Proof.
  destruct r as [iv cp tc w e [d|]]; intros Hd; [clear Hd | destruct Hd as [? [=]]].
  unfold _check_file_size, file_size_body, set_detail, count_check.
  destruct (getsize file_path) as [size|err];
    cbn [mbind Res_bind details]; [|reflexivity].
  match goal with |- context [if ?b then _ else _] => destruct b end;
    (eexists; split; [reflexivity|]); counted_tac.
Qed.

(** The sensitive-data scan changes neither the errors nor the counters; it
    adds at most one warning, and what it stores are numbers of matches. *)
Lemma _check_sensitive_data_outcome (contract : ParsedContract) (r : Results) :
  is_Some (details r) →
  ∃ r', _check_sensitive_data self contract r = Ok r'
        ∧ is_Some (details r')
        ∧ errors r' = errors r
        ∧ checks_passed r' = checks_passed r
        ∧ total_checks r' = total_checks r
        ∧ (∃ extra, warnings r' = warnings r ++ extra ∧ (length extra <= 1)%nat).
Proof.
  destruct r as [iv cp tc w e [d|]]; intros Hd; [clear Hd | destruct Hd as [? [=]]].
  unfold _check_sensitive_data, set_detail.
  destruct (scan_patterns _ _); cbn [mbind Res_bind details];
    (eexists; split; [reflexivity|]; split_and!; try (simpl; eauto; fail));
    first [ exists []; rewrite app_nil_r; split; [reflexivity | simpl; lia]
          | eexists [_]; split; [reflexivity | simpl; lia] ].
Qed.

Lemma check_outcome_lengths (ok : Prop) (r r' : Results) :
  check_outcome ok r r' →
  (ok ∧ length (errors r') = length (errors r)
   ∧ checks_passed r' = checks_passed r + 1)
  ∨ (¬ ok ∧ length (errors r') = S (length (errors r))
     ∧ checks_passed r' = checks_passed r).
Proof.
  intros (_ & _ & _ & [(Hok & He & Hp) | (Hno & [msg He] & Hp)]).
  - left. rewrite He. auto.
  - right. rewrite He, length_app. simpl. split_and!; [exact Hno | lia | exact Hp].
Qed.

(** X4.  Without a file reference [validate_input] runs four checks, and
    the document is valid exactly when its text length lies within the
    configured bounds, its text has at least 20 words, and the document
    satisfies its own schema (text of 50 characters or more, kind
    ["original"] or ["amendment"] up to case); this is also exactly when
    all four checks are counted as passed. *)
Theorem validate_input_without_file (contract : ParsedContract) :
  ∃ r, validate_input self contract None = Ok r
       ∧ total_checks r = 4
       ∧ (is_valid r = true ↔
          (min_text_length self <= Z.of_nat (String.length (raw_text contract))
           <= max_text_length self)
          ∧ (20 <= length (PyStr.split (raw_text contract)))%nat
          ∧ schema_ok contract)
       ∧ (is_valid r = true ↔ checks_passed r = 4).
Proof.
  unfold validate_input. cbn [path_given].
  match goal with
  | |- context [_check_text_length self contract ?r] => set (r0 := r)
  end.
  assert (is_Some (details r0)) as Hd0 by (simpl; eauto).
  destruct (_check_text_length_outcome contract r0 Hd0) as (r1 & E1 & O1).
  destruct (_check_text_quality_outcome contract r1 (proj1 O1)) as (r2 & E2 & O2).
  destruct (_check_sections_outcome contract r2 (proj1 O2)) as (r3 & E3 & O3).
  destruct (_check_pydantic_model_outcome contract r3 (proj1 O3)) as (r4 & E4 & O4).
  destruct (_check_sensitive_data_outcome contract r4 (proj1 O4))
    as (r5 & E5 & _ & He5 & Hp5 & Ht5 & _).
  rewrite E1. cbn [mbind Res_bind]. rewrite E2. cbn [mbind Res_bind].
  rewrite E3. cbn [mbind Res_bind]. rewrite E4. cbn [mbind Res_bind].
  rewrite E5. cbn [mbind Res_bind].
  eexists. split; [reflexivity|].
  cbn [set_is_valid is_valid total_checks checks_passed errors].
  rewrite He5, Hp5, Ht5, Nat.eqb_eq.
  pose proof (proj1 (proj2 O1)) as T1. pose proof (proj1 (proj2 O2)) as T2.
  pose proof (proj1 (proj2 O3)) as T3. pose proof (proj1 (proj2 O4)) as T4.
  apply check_outcome_lengths in O1, O2, O3, O4.
  change (length (errors r0)) with 0%nat in O1.
  change (checks_passed r0) with 0 in O1.
  change (total_checks r0) with 0 in T1.
  split; [lia|]. split.
  - destruct O1 as [(? & ? & ?) | (? & ? & ?)],
      O2 as [(? & ? & ?) | (? & ? & ?)],
      O3 as [(? & ? & ?) | (? & ? & ?)],
      O4 as [(? & ? & ?) | (? & ? & ?)];
      split; intros; try lia; tauto.
  - destruct O1 as [(? & ? & ?) | (? & ? & ?)],
      O2 as [(? & ? & ?) | (? & ? & ?)],
      O3 as [(? & ? & ?) | (? & ? & ?)],
      O4 as [(? & ? & ?) | (? & ? & ?)];
      split; intros; lia.
Qed.

(** X5.  [validate_input] returns unless a file path is given and the
    existence test of that path raises; then the exception leaves it.  The
    result it returns counts four checks without a file path and six with
    one, and its counters account for every one of them: each check either
    passed or recorded exactly one error, except the size check when the
    size of the file cannot be read, which does not pass and leaves the
    exception as a warning.  So the result is valid exactly when every
    check passed, the unreadable size apart. *)
Theorem validate_input_counters (contract : ParsedContract)
    (file_path : option string) :
  match path_probe file_path with
  | Some e => validate_input self contract file_path = Raise e
  | None =>
      ∃ r, validate_input self contract file_path = Ok r
           ∧ total_checks r
             = match path_given file_path with Some _ => 6 | None => 4 end
           ∧ match size_probe file_path with
             | None =>
                 counters_consistent 0 r
                 ∧ (is_valid r = true ↔ checks_passed r = total_checks r)
             | Some e =>
                 counters_consistent 1 r
                 ∧ (is_valid r = true ↔ checks_passed r + 1 = total_checks r)
                 ∧ ("Could not check file size: " +:+ str_of_exn e)
                   ∈ warnings r
             end
  end.
Proof.
  unfold validate_input.
  match goal with
  | |- context [_check_text_length self contract ?r] => set (r0 := r)
  end.
  assert (is_Some (details r0)) as Hd0 by (simpl; eauto).
  assert (counters_consistent 0 r0) as C0
    by (unfold counters_consistent; simpl; lia).
  destruct (_check_text_length_outcome contract r0 Hd0) as (r1 & E1 & O1).
  apply check_outcome_counted in O1.
  destruct (_check_text_quality_outcome contract r1 (proj1 O1)) as (r2 & E2 & O2).
  apply check_outcome_counted in O2.
  destruct (_check_sections_outcome contract r2 (proj1 O2)) as (r3 & E3 & O3).
  apply check_outcome_counted in O3.
  destruct (_check_pydantic_model_outcome contract r3 (proj1 O3)) as (r4 & E4 & O4).
  apply check_outcome_counted in O4.
  pose proof (counted_consistent _ _ _ C0 O1) as C1.
  pose proof (counted_consistent _ _ _ C1 O2) as C2.
  pose proof (counted_consistent _ _ _ C2 O3) as C3.
  pose proof (counted_consistent _ _ _ C3 O4) as C4.
  assert (total_checks r4 = 4) as T4.
  { destruct O1 as (_ & T1 & _), O2 as (_ & T2 & _), O3 as (_ & T3 & _),
      O4 as (_ & T4 & _). change (total_checks r0) with 0 in T1. lia. }
  rewrite E1. cbn [mbind Res_bind]. rewrite E2. cbn [mbind Res_bind].
  rewrite E3. cbn [mbind Res_bind]. rewrite E4. cbn [mbind Res_bind].
  assert (∀ r5 n unread, is_Some (details r5) →
            counters_consistent unread r5 → total_checks r5 = n →
            ∃ r, (results ← _check_sensitive_data self contract r5;
                  Ok (set_is_valid results)) = Ok r
                 ∧ total_checks r = n
                 ∧ counters_consistent unread r
                 ∧ (is_valid r = true ↔ checks_passed r + unread = total_checks r)
                 ∧ ∀ w, w ∈ warnings r5 → w ∈ warnings r)
    as Hscan.
  { intros r5 n unread Hd5 (Hp5 & Hsum5) T5.
    destruct (_check_sensitive_data_outcome contract r5 Hd5)
      as (r6 & E6 & _ & He6 & Hp6 & Ht6 & extra & Hw6 & _).
    rewrite E6. cbn [mbind Res_bind]. eexists. split; [reflexivity|].
    unfold counters_consistent.
    cbn [set_is_valid is_valid total_checks checks_passed errors warnings].
    rewrite He6, Hp6, Ht6, Hw6, Nat.eqb_eq.
    split_and!; [exact T5 | exact Hp5 | exact Hsum5 | lia |].
    intros w Hw. apply elem_of_app. left. exact Hw. }
  unfold path_probe, size_probe. destruct (path_given file_path) as [p|].
  - pose proof (_check_file_integrity_counted p r4 (proj1 O4)) as Hrun.
    destruct (path_exists p) as [found|err]; [|rewrite Hrun; reflexivity].
    destruct Hrun as (ra & Ea & Oa). rewrite Ea. cbn [mbind Res_bind].
    pose proof (counted_consistent _ _ _ C4 Oa) as Ca.
    assert (total_checks ra = 5) as Ta by (destruct Oa as (_ & Ta & _); lia).
    pose proof (_check_file_size_counted p ra (proj1 Oa)) as Hsize.
    destruct (getsize p) as [size|err].
    + destruct Hsize as (rb & Eb & Ob). rewrite Eb. cbn [mbind Res_bind].
      destruct (Hscan rb 6 0 (proj1 Ob) (counted_consistent _ _ _ Ca Ob)
                  ltac:(destruct Ob as (_ & Tb & _); lia))
        as (r & Er & Tr & Cr & Hv & _).
      exists r. split; [exact Er|]. split; [exact Tr|]. split; [exact Cr|].
      rewrite Hv. split; intros; lia.
    + rewrite Hsize. cbn [mbind Res_bind].
      match goal with
      | |- context [_check_sensitive_data self contract ?rb] =>
          destruct (Hscan rb 6 1) as (r & Er & Tr & Cr & Hv & Hw)
      end.
      * destruct ra as [iv cp tc w e [d|]]; [simpl; eauto|].
        destruct (proj1 Oa) as [? [=]].
      * destruct Ca as [Hpa Hsa]. unfold counters_consistent.
        cbn [add_warning count_check checks_passed errors total_checks]. lia.
      * cbn [add_warning count_check total_checks]. lia.
      * exists r. split; [exact Er|]. split; [exact Tr|]. split; [exact Cr|].
        split; [exact Hv|]. apply Hw.
        cbn [add_warning count_check warnings]. apply elem_of_app. right. left.
  - cbn [mbind Res_bind].
    destruct (Hscan r4 4 0 (proj1 O4) C4 T4) as (r & Er & Tr & Cr & Hv & _).
    exists r. split; [exact Er|]. split; [exact Tr|]. split; [exact Cr|].
    rewrite Hv. split; intros; lia.
Qed.

End InputChecks.

Lemma validate_input_counters_witness :
  ∃ r, Guardrails.validate_input (H := Examples.quiet_host)
         Guardrails.default_guardrails Examples.original_doc
         (Some "missing.png") = Ok r
       ∧ Guardrails.total_checks r = 6
       ∧ Guardrails.checks_passed r
         + Z.of_nat (length (Guardrails.errors r)) + 1 = 6
       ∧ "Could not check file size: " ∈ Guardrails.warnings r.
Proof.
  pose proof (validate_input_counters (H := Examples.quiet_host)
                Guardrails.default_guardrails Examples.original_doc
                (Some "missing.png")) as Hrun.
  cbn in Hrun. destruct Hrun as (r & E & T & [_ C] & _ & W).
  exists r. split; [exact E|]. split; [exact T|]. split; [|exact W].
  rewrite C, T. reflexivity.
Defined.

Section ScanIndependence.
Import Models Guardrails.
Context (H : Host).
Variable self : ContractGuardrails.



(** What the scan reports: one entry per pattern that matches, in the order
    of the patterns, holding the number of matches, never the matches. *)
Lemma scan_patterns_counts (patterns : pydict string) (text : string) :
  Forall (fun kv : string * Z =>
            0 < kv.2
            ∧ ∃ pattern, (kv.1, pattern) ∈ patterns
                         ∧ kv.2 = Z.of_nat (length (re_findall pattern text)))
    (scan_patterns patterns text).
Proof.
  induction patterns as [|[data_type pattern] rest IH]; simpl; [constructor|].
  assert (Forall (fun kv : string * Z =>
                    0 < kv.2
                    ∧ ∃ pattern0, (kv.1, pattern0) ∈ (data_type, pattern) :: rest
                                  ∧ kv.2 = Z.of_nat (length (re_findall pattern0 text)))
            (scan_patterns rest text)) as IH'.
  { eapply Forall_impl; [exact IH|]. intros kv (Hpos & p & Hin & Hn).
    split; [exact Hpos|]. exists p. split; [right; exact Hin | exact Hn]. }
  destruct (re_findall pattern text) as [|m ms] eqn:Hm; [exact IH'|].
  constructor; [|exact IH']. simpl. split; [lia|].
  exists pattern. split; [left|]. rewrite Hm. reflexivity.
Qed.

(** X7.  [_check_sensitive_data] leaves [results] untouched when no pattern
    matches; otherwise it stores the numbers of matches under
    ["sensitive_data_detected"] and appends one warning.  Each stored
    number is positive and is the number of matches of one of the
    configured patterns. *)
Theorem sensitive_data_reported_as_counts (contract : ParsedContract)
    (r : Results) :
  is_Some (details r) →
  let found := scan_patterns self.(sensitive_patterns) (raw_text contract) in
  ∃ r', _check_sensitive_data self contract r = Ok r'
        ∧ (found = [] → r' = r)
        ∧ (found ≠ [] →
           (∃ d', details r' = Some d'
                  ∧ d' !! "sensitive_data_detected"
                    = Some (PDict (map (fun kv => (kv.1, PInt kv.2)) found)))
           ∧ (∃ msg, warnings r' = warnings r ++ [msg])
           ∧ errors r' = errors r)
        ∧ Forall (fun kv : string * Z =>
                    0 < kv.2
                    ∧ ∃ pattern, (kv.1, pattern) ∈ self.(sensitive_patterns)
                                 ∧ kv.2 = Z.of_nat (length (re_findall pattern
                                                              (raw_text contract))))
            found.
Proof.
  destruct r as [iv cp tc w e [d|]]; intros Hd; [clear Hd | destruct Hd as [? [=]]].
  intros found. unfold _check_sensitive_data, set_detail. fold found.
  pose proof (scan_patterns_counts self.(sensitive_patterns) (raw_text contract))
    as Hcounts. fold found in Hcounts.
  destruct found as [|kv rest]; cbn [mbind Res_bind details].
  - eexists. split; [reflexivity|]. split_and!; [reflexivity | congruence | exact Hcounts].
  - eexists. split; [reflexivity|]. split_and!; [discriminate | | exact Hcounts].
    intros _. split_and!.
    + eexists. split; [reflexivity|]. apply lookup_insert_eq.
    + eexists. reflexivity.
    + reflexivity.
Qed.

End ScanIndependence.

Lemma sensitive_data_reported_as_counts_witness :
  ∃ r', Guardrails._check_sensitive_data
          (H := with_findall
                  (fun pattern _ =>
                     if String.eqb pattern "\b\d{3}-\d{2}-\d{4}\b"
                     then ["123-45-6789"] else [])
                  Examples.quiet_host)
          Guardrails.default_guardrails
          {| Models.raw_text := "The SSN of the signatory is 123-45-6789.";
             Models.document_type := "original";
             Models.sections_identified := [] |}
          {| Guardrails.is_valid := true; Guardrails.checks_passed := 4;
             Guardrails.total_checks := 4; Guardrails.warnings := [];
             Guardrails.errors := []; Guardrails.details := Some ∅ |} = Ok r'
        ∧ (∃ d', Guardrails.details r' = Some d'
                 ∧ d' !! "sensitive_data_detected" = Some (PDict [("ssn", PInt 1)]))
        ∧ Guardrails.errors r' = [].
Proof.
  destruct (sensitive_data_reported_as_counts
              (with_findall
                 (fun pattern _ =>
                    if String.eqb pattern "\b\d{3}-\d{2}-\d{4}\b"
                    then ["123-45-6789"] else [])
                 Examples.quiet_host)
              Guardrails.default_guardrails
              {| Models.raw_text := "The SSN of the signatory is 123-45-6789.";
                 Models.document_type := "original";
                 Models.sections_identified := [] |}
              {| Guardrails.is_valid := true; Guardrails.checks_passed := 4;
                 Guardrails.total_checks := 4; Guardrails.warnings := [];
                 Guardrails.errors := []; Guardrails.details := Some ∅ |})
    as (r' & E & _ & Hfound & _); [simpl; eauto|].
  exists r'. split; [exact E|].
  destruct Hfound as (Hd & _ & He); [vm_compute; discriminate|].
  split; [exact Hd | exact He].
Defined.

Section OutputChecks.
Import Models Guardrails.

Lemma filter_length_zero {A : Type} (f : A → bool) (l : list A) :
  length (List.filter f l) = 0%nat ↔ ∀ x, x ∈ l → f x = false.
Proof.
  induction l as [|a l IH]; simpl.
  - split; [intros _ x Hx; inversion Hx | reflexivity].
  - destruct (f a) eqn:Ha; simpl.
    + split; [discriminate|]. intros Hall.
      rewrite (Hall a) in Ha by left. discriminate Ha.
    + rewrite IH. split.
      * intros Hall x Hx. apply elem_of_cons in Hx as [-> | Hx]; auto.
      * intros Hall x Hx. apply Hall. right. exact Hx.
Qed.

(** X8.  On any change record, validated or not, [validate_output] counts
    four checks, and each of them either passes or leaves exactly one
    warning or error.  The only possible error is ["Summary too short"],
    and the record is valid exactly when its summary has at least 100
    characters; empty lists and ungrounded topics only warn. *)
Theorem validate_output_accounting (output : ContractChangeOutput)
    (original amendment : ParsedContract) :
  let r := validate_output output original amendment in
  total_checks r = 4
  ∧ checks_passed r + Z.of_nat (length (warnings r)) + Z.of_nat (length (errors r))
    = 4
  ∧ (is_valid r = true ↔ (100 <= String.length (summary_of_the_change output))%nat)
  ∧ (errors r = [] ∨ errors r = ["Summary too short"])
  ∧ (("No sections changed identified" ∈ warnings r) ↔ sections_changed output = [])
  ∧ (("No topics identified" ∈ warnings r) ↔ topics_touched output = []).
Proof.
  unfold validate_output.
  destruct (sections_changed output) as [|s ss], (topics_touched output) as [|t ts];
    destruct (Nat.ltb_spec (String.length (summary_of_the_change output)) 100);
    simpl length; simpl Nat.eqb; simpl Nat.ltb; cbv iota;
    rewrite ?andb_false_r, ?andb_true_r;
    repeat match goal with
           | |- context [if (?a =? ?b)%nat then add_warning _ _ else _] =>
               destruct (a =? b)%nat
           end;
    cbn; rewrite ?elem_of_cons; split_and!;
    first [ reflexivity | left; reflexivity | right; reflexivity
          | split; intros; first [lia | discriminate | reflexivity]
          | split; [intros _; reflexivity | intros _; tauto]
          | split; [intros ?; exfalso | intros ?; discriminate] | idtac ].
  all: repeat match goal with
              | Hor : _ ∨ _ |- _ => destruct Hor as [Hor | Hor]
              | Heq : _ = _ |- _ => discriminate Heq
              | Hin : _ ∈ [] |- _ => inversion Hin
              end.
Qed.

(** X9.  [validate_output] warns of a possible hallucination exactly when
    there are topics and none of them occurs, letter case ignored, as a
    substring of the two source texts put end to end. *)
Theorem hallucination_warning_iff (output : ContractChangeOutput)
    (original amendment : ParsedContract) :
  let r := validate_output output original amendment in
  let combined := PyStr.lower (raw_text original +:+ raw_text amendment) in
  ("Topics do not appear in source documents - possible hallucination"
   ∈ warnings r)
  ↔ topics_touched output ≠ []
    ∧ ∀ topic, topic ∈ topics_touched output →
               ∀ p q, combined ≠ p +:+ PyStr.lower topic +:+ q.
Proof.
  intros r combined. subst r. unfold validate_output. fold combined.
  match goal with
  | |- context [List.filter ?f ?l] =>
      pose proof (filter_length_zero f l) as Hzero;
      destruct (Nat.eqb_spec (length (List.filter f l)) 0) as [Hnone|Hsome]
  end.
  - assert (∀ topic, topic ∈ topics_touched output →
                     ∀ p q, combined ≠ p +:+ PyStr.lower topic +:+ q) as Hall.
    { intros topic Hin. apply contains_false. apply (proj1 Hzero Hnone), Hin. }
    destruct (sections_changed output) as [|s ss],
      (topics_touched output) as [|t ts];
      destruct (String.length (summary_of_the_change output) <? 100)%nat;
      cbn; rewrite ?elem_of_cons; split;
      try (intros [Hne _]; congruence);
      try (intros _; split; [discriminate | exact Hall]);
      try (intros _; tauto);
      intros Hin;
      repeat match goal with
             | Hor : _ ∨ _ |- _ => destruct Hor as [Hor | Hor]
             | Heq : _ = _ |- _ => discriminate Heq
             | Hin : _ ∈ [] |- _ => inversion Hin
             end.
  - assert (¬ ∀ topic, topic ∈ topics_touched output →
                       ∀ p q, combined ≠ p +:+ PyStr.lower topic +:+ q) as Hnot.
    { intros Hall. apply Hsome, Hzero. intros topic Hin.
      apply contains_false, Hall, Hin. }
    destruct (sections_changed output) as [|s ss],
      (topics_touched output) as [|t ts];
      destruct (String.length (summary_of_the_change output) <? 100)%nat;
      cbn; rewrite ?elem_of_cons; split;
      try (intros [_ Hall]; contradiction);
      intros Hin;
      repeat match goal with
             | Hor : _ ∨ _ |- _ => destruct Hor as [Hor | Hor]
             | Heq : _ = _ |- _ => discriminate Heq
             | Hin : _ ∈ [] |- _ => inversion Hin
             end.
Qed.

End OutputChecks.

(** * Content safety *)

Section Safety.
Import SafetyGuardrails.

Lemma append_assoc (a b c : string) : (a +:+ b) +:+ c = a +:+ b +:+ c.
Proof.
  induction a as [|x a IH]; [reflexivity|].
  rewrite !append_cons, IH. reflexivity.
Qed.

Lemma lower_app (a b : string) :
  PyStr.lower (a +:+ b) = PyStr.lower a +:+ PyStr.lower b.
Proof.
  induction a as [|x a IH]; [reflexivity|].
  rewrite append_cons. simpl. rewrite IH, append_cons. reflexivity.
Qed.

Lemma lower_length (s : string) :
  String.length (PyStr.lower s) = String.length s.
Proof. induction s as [|c s IH]; simpl; congruence. Qed.

Lemma spaces_then_paren_spec (s : string) :
  spaces_then_paren s = true ↔
  ∃ ws q, s = ws +:+ "(" +:+ q ∧ all_chars PyStr.isspace ws = true.
Proof.
  induction s as [|c s IH]; simpl.
  - split; [discriminate|].
    intros (ws & q & Hs & _). destruct ws; discriminate Hs.
  - destruct (Nat.eqb_spec (nat_of_ascii c) 40) as [Hparen|Hother].
    + split; [intros _ | reflexivity].
      exists "", s. split; [|reflexivity].
      rewrite append_nil, append_cons, append_nil. f_equal.
      rewrite <- (ascii_nat_embedding c), Hparen. reflexivity.
    + destruct (PyStr.isspace c) eqn:Hsp.
      * rewrite IH. split.
        -- intros (ws & q & -> & Hws). exists (String c ws), q.
           split; [reflexivity|]. simpl. rewrite Hsp. exact Hws.
        -- intros (ws & q & Hs & Hws). destruct ws as [|w ws].
           ++ rewrite append_nil, append_cons in Hs. injection Hs as -> _.
              exfalso. apply Hother. reflexivity.
           ++ rewrite append_cons in Hs. injection Hs as -> ->.
              simpl in Hws. apply andb_true_iff in Hws as [_ Hws]. eauto.
      * split; [discriminate|].
        intros (ws & q & Hs & Hws). destruct ws as [|w ws].
        -- rewrite append_nil, append_cons in Hs. injection Hs as -> _.
           exfalso. apply Hother. reflexivity.
        -- rewrite append_cons in Hs. injection Hs as -> _.
           simpl in Hws. apply andb_true_iff in Hws as [Hw _]. congruence.
Qed.

Lemma eval_call_at_spec (s : string) :
  eval_call_at s = true ↔
  ∃ e ws q, s = e +:+ ws +:+ "(" +:+ q
            ∧ PyStr.lower e = "eval"
            ∧ all_chars PyStr.isspace ws = true.
Proof.
  split.
  - destruct s as [|a [|b [|c [|d rest]]]]; try discriminate.
    cbn [eval_call_at]. rewrite andb_true_iff, String.eqb_eq, spaces_then_paren_spec.
    intros (He & ws & q & -> & Hws).
    exists (String a (String b (String c (String d "")))), ws, q.
    split_and!; [reflexivity | exact He | exact Hws].
  - intros (e & ws & q & -> & He & Hws).
    assert (String.length e = 4%nat) as Hlen
      by (rewrite <- lower_length, He; reflexivity).
    destruct e as [|a [|b [|c [|d [|x e]]]]]; try discriminate Hlen.
    rewrite !append_cons, append_nil. cbn [eval_call_at].
    rewrite andb_true_iff, String.eqb_eq, spaces_then_paren_spec. eauto.
Qed.

Lemma search_eval_call_spec (s : string) :
  search_eval_call s = true ↔
  ∃ p e ws q, s = p +:+ e +:+ ws +:+ "(" +:+ q
              ∧ PyStr.lower e = "eval"
              ∧ all_chars PyStr.isspace ws = true.
Proof.
  induction s as [|c s IH]; cbn [search_eval_call].
  - rewrite orb_false_r. split; [discriminate|].
    intros (p & e & ws & q & Hs & He & _).
    destruct p; [|discriminate Hs]. destruct e; discriminate.
  - rewrite orb_true_iff, eval_call_at_spec, IH. split.
    + intros [(e & ws & q & Hs & He & Hws) | (p & e & ws & q & Hs & He & Hws)].
      * exists "", e, ws, q. auto.
      * exists (String c p), e, ws, q. rewrite append_cons, Hs. auto.
    + intros (p & e & ws & q & Hs & He & Hws). destruct p as [|x p].
      * left. exists e, ws, q. auto.
      * right. rewrite append_cons in Hs. injection Hs as -> ->. eauto 10.
Qed.

(** X11.  No letter-case variant of the three patterns gets past the
    check: a text with a part that reads ["<script"] or ["javascript:"] once
    put in lower case, or with ["eval"] in any letter case followed by any
    amount of whitespace and an opening parenthesis, is reported unsafe,
    with the message that names the pattern.  The verdict is safe exactly
    when no threat is listed, the threats listed are among the three
    messages, in the order of the patterns, and no warning is ever given. *)
Theorem check_content_safety_spec (text : string) :
  let r := check_content_safety text in
  warnings r = []
  ∧ (is_safe r = true ↔ threats_detected r = [])
  ∧ threats_detected r
    `sublist_of` ["Potential injection attack detected: <script";
                  "Potential injection attack detected: javascript:";
                  "Potential injection attack detected: eval\s*\("]
  ∧ ∀ p m q, text = p +:+ m +:+ q →
      (PyStr.lower m = "<script" →
       is_safe r = false
       ∧ "Potential injection attack detected: <script" ∈ threats_detected r)
      ∧ (PyStr.lower m = "javascript:" →
         is_safe r = false
         ∧ "Potential injection attack detected: javascript:"
           ∈ threats_detected r)
      ∧ (∀ e ws, m = e +:+ ws +:+ "(" → PyStr.lower e = "eval" →
                 all_chars PyStr.isspace ws = true →
                 is_safe r = false
                 ∧ "Potential injection attack detected: eval\s*\("
                   ∈ threats_detected r).
Proof.
  assert (∀ pattern p m q, text = p +:+ m +:+ q → PyStr.lower m = pattern →
            search_literal pattern text = true) as Hliteral.
  { intros pattern p m q -> <-. unfold search_literal. apply contains_app.
    exists (PyStr.lower p), (PyStr.lower q). rewrite !lower_app. reflexivity. }
  assert (∀ p m q e ws, text = p +:+ m +:+ q → m = e +:+ ws +:+ "(" →
            PyStr.lower e = "eval" → all_chars PyStr.isspace ws = true →
            search_eval_call text = true) as Hcall.
  { intros p m q e ws -> -> He Hws. apply search_eval_call_spec.
    exists p, e, ws, q. split; [|auto].
    rewrite !append_assoc. reflexivity. }
  unfold check_content_safety, malicious_patterns, check_pattern. simpl.
  destruct (search_literal "<script" text) eqn:E1,
    (search_literal "javascript:" text) eqn:E2,
    (search_eval_call text) eqn:E3; simpl;
    change ("Potential injection attack detected: " +:+ "<script")
      with "Potential injection attack detected: <script";
    change ("Potential injection attack detected: " +:+ "javascript:")
      with "Potential injection attack detected: javascript:";
    change ("Potential injection attack detected: " +:+ "eval\s*\(")
      with "Potential injection attack detected: eval\s*\(";
    (split_and!;
     [ reflexivity
     | split; (reflexivity || discriminate)
     | solve [repeat first [apply sublist_nil | apply sublist_skip
                           | apply sublist_cons]]
     | ]);
    intros p m q Ht; split_and!;
    try (intros Hm; pose proof (Hliteral _ p m q Ht Hm) as Hfound);
    try (intros e ws Hm He Hws;
         pose proof (Hcall p m q e ws Ht Hm He Hws) as Hfound);
    first [ congruence
          | split; [reflexivity | rewrite ?elem_of_cons; tauto] ].
Qed.

Lemma check_content_safety_spec_witness :
  is_safe (check_content_safety "See <SCRIPT src=x> and Eval (y)") = false
  ∧ "Potential injection attack detected: <script"
    ∈ threats_detected (check_content_safety "See <SCRIPT src=x> and Eval (y)").
Proof.
  destruct (check_content_safety_spec "See <SCRIPT src=x> and Eval (y)")
    as (_ & _ & _ & Hfound).
  apply (Hfound "See " "<SCRIPT" " src=x> and Eval (y)"); reflexivity.
Defined.

Lemma search_literal_embedded (pattern p text q : string) :
  search_literal pattern text = true →
  search_literal pattern (p +:+ text +:+ q) = true.
Proof.
  unfold search_literal. rewrite !contains_app.
  intros (a & b & Ht). exists (PyStr.lower p +:+ a), (b +:+ PyStr.lower q).
  rewrite !lower_app, Ht, !append_assoc. reflexivity.
Qed.

Lemma search_eval_call_embedded (p text q : string) :
  search_eval_call text = true →
  search_eval_call (p +:+ text +:+ q) = true.
Proof.
  rewrite !search_eval_call_spec.
  intros (a & e & ws & b & -> & He & Hws).
  exists (p +:+ a), e, ws, (b +:+ q). split; [|auto].
  rewrite !append_assoc. reflexivity.
Qed.

(** X12.  Surrounding a text with more text never hides a threat: every
    threat reported for a text is reported for any text that contains it,
    and a text that contains an unsafe text is unsafe. *)
Theorem embedded_threats_are_detected (p text q : string) :
  (∀ threat, threat ∈ threats_detected (check_content_safety text) →
             threat ∈ threats_detected (check_content_safety (p +:+ text +:+ q)))
  ∧ (is_safe (check_content_safety text) = false →
     is_safe (check_content_safety (p +:+ text +:+ q)) = false).
Proof.
  unfold check_content_safety, malicious_patterns, check_pattern. simpl.
  pose proof (search_literal_embedded "<script" p text q) as H1.
  pose proof (search_literal_embedded "javascript:" p text q) as H2.
  pose proof (search_eval_call_embedded p text q) as H3.
  destruct (search_literal "<script" text);
    [rewrite (H1 eq_refl) | destruct (search_literal "<script" (p +:+ text +:+ q))];
    (destruct (search_literal "javascript:" text);
     [rewrite (H2 eq_refl)
     | destruct (search_literal "javascript:" (p +:+ text +:+ q))]);
    (destruct (search_eval_call text);
     [rewrite (H3 eq_refl) | destruct (search_eval_call (p +:+ text +:+ q))]);
    simpl; (split; [intros threat; rewrite ?elem_of_cons; tauto|]);
    first [reflexivity | discriminate].
Qed.

Lemma embedded_threats_are_detected_witness :
  is_safe (check_content_safety "EVAL  (x)") = false
  ∧ is_safe (check_content_safety
               ("The clause reads: " +:+ "EVAL  (x)" +:+ " and nothing else."))
    = false.
Proof.
  split; [vm_compute; reflexivity|].
  apply (embedded_threats_are_detected "The clause reads: " "EVAL  (x)"
           " and nothing else.").
  vm_compute. reflexivity.
Defined.

End Safety.

(** * Further properties of the alignment self-check *)

Section AlignmentMore.
Import Models ExtractionAgent.

Lemma ltb_proper (a b c d : Q) : (a == c)%Q → (b == d)%Q → Py.ltb a b = Py.ltb c d.
Proof.
  intros Hac Hbd. destruct (ltb_spec a b), (ltb_spec c d); try reflexivity;
    exfalso; rewrite Hac, Hbd in *; lra.
Qed.

Lemma round2_proper (x y : Q) : (x == y)%Q → (round2 x == round2 y)%Q.
Proof.
  intros Hxy. unfold round2.
  assert (Qfloor (x * 100) = Qfloor (y * 100)) as Hfloor
    by (apply Qfloor_comp; rewrite Hxy; reflexivity).
  rewrite Hfloor.
  rewrite (ltb_proper (x * 100 - inject_Z (Qfloor (y * 100))) (1 # 2)
             (y * 100 - inject_Z (Qfloor (y * 100))) (1 # 2))
    by (rewrite ?Hxy; reflexivity).
  rewrite (ltb_proper (1 # 2) (x * 100 - inject_Z (Qfloor (y * 100)))
             (1 # 2) (y * 100 - inject_Z (Qfloor (y * 100))))
    by (rewrite ?Hxy; reflexivity).
  reflexivity.
Qed.

Lemma of_nat_pos (n : nat) : (0 < n)%nat → (0 < Py.of_nat n)%Q.
Proof.
  intros Hn. unfold Py.of_nat. change 0%Q with (inject_Z 0).
  rewrite <- Zlt_Qlt. lia.
Qed.

(** The result of the self-check: it always returns, with the score and
    the coverage flag computed from the ratio of matched identifiers. *)
Lemma validate_against_context_result (changes : ContractChangeOutput)
    (context : AgentContext) :
  let agent1 := section_ids (identified_change_areas context) in
  let agent2 := section_ids (sections_changed changes) in
  let ratio :=
    if (size agent1 =? 0)%nat then 0%Q
    else (Py.of_nat (size (agent1 ∩ agent2)) / Py.of_nat (size agent1))%Q in
  ∃ r, validate_against_context changes context = Ok r
       ∧ alignment_score r = round2 (ratio * 100)
       ∧ (all_areas_covered r = true ↔ (0.8 <= ratio)%Q).
Proof.
  intros agent1 agent2 ratio.
  assert (coverage_ratio agent1 agent2 = Ok ratio) as Hratio.
  { unfold coverage_ratio, ratio.
    destruct (Nat.eqb_spec (size agent1) 0) as [Hz|Hnz]; [reflexivity|].
    apply truediv_of_nat. lia. }
  unfold validate_against_context. fold agent1 agent2. rewrite Hratio.
  cbn [mbind Res_bind]. eexists. split; [reflexivity|].
  cbn [alignment_score all_areas_covered].
  split; [reflexivity | apply Qle_bool_iff].
Qed.

(** X13.  When every change area of the context is matched by a changed
    section (same section identifier) and there is at least one change
    area, the alignment score is 100, all areas count as covered and no
    section is reported missed. *)
Theorem full_coverage_scores_100 (changes : ContractChangeOutput)
    (context : AgentContext) :
  identified_change_areas context ≠ [] →
  (∀ area, area ∈ identified_change_areas context →
           ∃ section, section ∈ sections_changed changes
                      ∧ section_id section = section_id area) →
  ∃ r, validate_against_context changes context = Ok r
       ∧ (alignment_score r == 100)%Q
       ∧ all_areas_covered r = true
       ∧ missed_sections r = [].
Proof.
  intros Hne Hcov.
  set (agent1 := section_ids (identified_change_areas context)).
  set (agent2 := section_ids (sections_changed changes)).
  assert (agent1 ⊆ agent2) as Hsub.
  { intros x Hx. apply elem_of_section_ids in Hx as (area & Hin & ->).
    destruct (Hcov area Hin) as (section & Hs & <-).
    apply elem_of_section_ids. eauto. }
  assert (size agent1 ≠ 0%nat) as Hsize.
  { destruct (identified_change_areas context) as [|a l] eqn:Ha; [congruence|].
    intros Hz. apply size_empty_inv in Hz.
    apply (not_elem_of_empty (C := gset string) (section_id a)).
    apply Hz. apply elem_of_section_ids. exists a. split; [left | reflexivity]. }
  destruct (validate_against_context_result changes context)
    as (r & Hr & Hscore & Hall).
  fold agent1 agent2 in Hscore, Hall.
  assert (agent1 ∩ agent2 = agent1) as Hinter
    by (apply subseteq_intersection_1_L, Hsub).
  rewrite Hinter in Hscore, Hall.
  destruct (Nat.eqb_spec (size agent1) 0) as [Hz|_]; [contradiction|].
  assert (Py.of_nat (size agent1) / Py.of_nat (size agent1) == 1)%Q as Hone.
  { apply Qmult_inv_r.
    pose proof (of_nat_pos (size agent1) ltac:(lia)) as Hpos. lra. }
  exists r. split; [exact Hr|]. split_and!.
  - rewrite Hscore. rewrite (round2_proper _ 100) by (rewrite Hone; reflexivity).
    vm_compute. reflexivity.
  - apply Hall. rewrite Hone. lra.
  - unfold validate_against_context in Hr. fold agent1 agent2 in Hr.
    destruct (coverage_ratio agent1 agent2); [|discriminate Hr].
    cbn [mbind Res_bind] in Hr. injection Hr as <-. cbn [missed_sections].
    assert (agent1 ∖ agent2 = ∅) as -> by (apply subseteq_empty_difference_L, Hsub).
    apply elements_empty.
Qed.

Lemma full_coverage_scores_100_witness :
  ∃ r, validate_against_context Examples.full_changes Examples.two_area_context
       = Ok r
       ∧ (alignment_score r == 100)%Q
       ∧ all_areas_covered r = true
       ∧ missed_sections r = [].
Proof.
  apply full_coverage_scores_100.
  - discriminate.
  - simpl. intros area Harea. exists area. split; [exact Harea | reflexivity].
Defined.

Lemma ratio_at_least_0_8 (k n : nat) :
  (0 < n)%nat →
  (0.8 <= Py.of_nat k / Py.of_nat n)%Q ↔ (4 * n <= 5 * k)%nat.
Proof.
  intros Hn. pose proof (of_nat_pos n Hn) as Hpos.
  assert ((0.8 * Py.of_nat n <= Py.of_nat k)%Q ↔ (4 * n <= 5 * k)%nat) as Hcross.
  { unfold Qle, Py.of_nat, inject_Z. simpl. lia. }
  rewrite <- Hcross. split.
  - intros Hle. destruct (Qlt_le_dec (Py.of_nat k) (0.8 * Py.of_nat n))
      as [Hlt|Hge]; [|exact Hge].
    apply Qlt_shift_div_r in Hlt; [lra | exact Hpos].
  - intros Hle. apply Qle_shift_div_l; assumption.
Qed.

(** X14.  [all_areas_covered] holds exactly when the context has at least
    one distinct section identifier and at least four fifths of them are
    matched.  With no change area at all, nothing counts as covered:
    [all_areas_covered] is false and the score is 0. *)
Theorem all_areas_covered_iff (changes : ContractChangeOutput)
    (context : AgentContext) :
  let agent1 := section_ids (identified_change_areas context) in
  let agent2 := section_ids (sections_changed changes) in
  ∃ r, validate_against_context changes context = Ok r
       ∧ (all_areas_covered r = true ↔
          (0 < size agent1)%nat
          ∧ (4 * size agent1 <= 5 * size (agent1 ∩ agent2))%nat)
       ∧ (identified_change_areas context = [] →
          all_areas_covered r = false ∧ (alignment_score r == 0)%Q).
Proof.
  intros agent1 agent2.
  destruct (validate_against_context_result changes context)
    as (r & Hr & Hscore & Hall).
  fold agent1 agent2 in Hscore, Hall.
  exists r. split; [exact Hr|]. split.
  - rewrite Hall. destruct (Nat.eqb_spec (size agent1) 0) as [Hz|Hnz].
    + split; [intros Hle; exfalso; lra | lia].
    + rewrite ratio_at_least_0_8 by lia. split; [intros; lia | tauto].
  - intros Hnil. assert (size agent1 = 0%nat) as Hz
      by (subst agent1; rewrite Hnil; reflexivity).
    rewrite Hz in *. simpl in Hscore, Hall. split.
    + apply not_true_iff_false. rewrite Hall. lra.
    + rewrite Hscore. vm_compute. reflexivity.
Qed.

(** X15.  The three lists of the result sort the section identifiers: an
    identifier of the context is covered if some changed section has it
    and missed otherwise, the extra ones are those of changed sections that
    no change area has, and [no_extra_sections] holds exactly when every
    extra identifier is ["[NEW]"].  No list repeats an identifier. *)
Theorem alignment_lists_partition (changes : ContractChangeOutput)
    (context : AgentContext) :
  let agent1 := section_ids (identified_change_areas context) in
  let agent2 := section_ids (sections_changed changes) in
  ∃ r, validate_against_context changes context = Ok r
       ∧ (∀ x, x ∈ covered_sections r ↔ x ∈ agent1 ∧ x ∈ agent2)
       ∧ (∀ x, x ∈ missed_sections r ↔ x ∈ agent1 ∧ x ∉ agent2)
       ∧ (∀ x, x ∈ extra_sections r ↔ x ∈ agent2 ∧ x ∉ agent1)
       ∧ NoDup (covered_sections r) ∧ NoDup (missed_sections r)
       ∧ NoDup (extra_sections r)
       ∧ (length (covered_sections r) + length (missed_sections r)
          = size agent1)%nat
       ∧ (no_extra_sections r = true ↔ ∀ x, x ∈ extra_sections r → x = "[NEW]").
Proof.
  intros agent1 agent2.
  destruct (validate_against_context_result changes context)
    as (r & Hr & _).
  exists r. split; [exact Hr|].
  unfold validate_against_context in Hr. fold agent1 agent2 in Hr.
  destruct (coverage_ratio agent1 agent2); [|discriminate Hr].
  cbn [mbind Res_bind] in Hr. injection Hr as <-.
  cbn [covered_sections missed_sections extra_sections no_extra_sections].
  split_and!.
  - intros x. rewrite elem_of_elements, elem_of_intersection. reflexivity.
  - intros x. rewrite elem_of_elements, elem_of_difference. reflexivity.
  - intros x. rewrite elem_of_elements, elem_of_difference. reflexivity.
  - apply NoDup_elements.
  - apply NoDup_elements.
  - apply NoDup_elements.
  - change (length (elements ?X)) with (size X).
    rewrite <- size_union by (intros x; rewrite elem_of_intersection,
                                elem_of_difference; tauto).
    f_equal. apply set_eq. intros x.
    rewrite elem_of_union, elem_of_intersection, elem_of_difference.
    destruct (decide (x ∈ agent2)); tauto.
  - rewrite bool_decide_eq_true. split.
    + intros Hsub x. rewrite elem_of_elements, elem_of_difference.
      intros [H2 H1]. specialize (Hsub x H2).
      apply elem_of_union in Hsub as [Hin | Hnew]; [contradiction|].
      apply elem_of_singleton in Hnew. exact Hnew.
    + intros Hextra x H2. apply elem_of_union.
      destruct (decide (x ∈ agent1)) as [H1|H1]; [left; exact H1|].
      right. apply elem_of_singleton, Hextra.
      rewrite elem_of_elements, elem_of_difference. auto.
Qed.

End AlignmentMore.

(** * Section headers of a parsed text *)

Section SectionHeaders.
Import ImageParser.

Lemma detect_from (lines acc : list string) :
  fold_left add_section lines acc
  = acc ++ List.filter is_section_header (map PyStr.strip lines).
Proof.
  revert acc. induction lines as [|line lines IH]; intros acc; simpl.
  - symmetry. apply app_nil_r.
  - rewrite IH. unfold add_section.
    destruct (is_section_header (PyStr.strip line)); simpl;
      [rewrite <- app_assoc|]; reflexivity.
Qed.

Lemma detect_sections_filter (text : string) :
  detect_sections text
  = List.filter is_section_header (map PyStr.strip (PyStr.split_on newline text)).
Proof. unfold detect_sections. rewrite detect_from. reflexivity. Qed.

Lemma prefix_newline (c : ascii) (s : string) :
  String.prefix newline (String c s)
  = if ascii_dec (ascii_of_nat 10) c then true else false.
Proof.
  unfold newline. cbn [String.prefix].
  destruct (ascii_dec (ascii_of_nat 10) c); [|reflexivity].
  destruct s; reflexivity.
Qed.

Lemma newline_app (b : string) : newline +:+ b = String (ascii_of_nat 10) b.
Proof. reflexivity. Qed.

(** Splitting at line breaks distributes over joining two texts with a
    line break. *)
Lemma split_lines_app (a b : string) :
  PyStr.split_on newline (a +:+ newline +:+ b)
  = PyStr.split_on newline a ++ PyStr.split_on newline b.
Proof.
  unfold PyStr.split_on. induction a as [|c a IH].
  - rewrite append_nil, newline_app. cbn [PyStr.pieces_from].
    rewrite prefix_newline.
    destruct (ascii_dec (ascii_of_nat 10) (ascii_of_nat 10)) as [_|Hne];
      [|congruence].
    change (String.length newline - 1)%nat with 0%nat.
    destruct (PyStr.pieces_from newline b 0) as [p ps]. reflexivity.
  - rewrite append_cons. cbn [PyStr.pieces_from]. rewrite !prefix_newline.
    change (String.length newline - 1)%nat with 0%nat.
    destruct (PyStr.pieces_from newline (a +:+ newline +:+ b) 0) as [p ps].
    destruct (PyStr.pieces_from newline a 0) as [pa psa].
    destruct (PyStr.pieces_from newline b 0) as [pb psb].
    simpl in IH. injection IH as -> ->.
    destruct (ascii_dec (ascii_of_nat 10) c); reflexivity.
Qed.

(** X16.  Every detected section header is a line of the text with its
    surrounding whitespace removed: it is trimmed, not empty, and begins
    with one of the eight header words. *)
Theorem detected_headers_are_trimmed_lines (text h : string) :
  h ∈ detect_sections text →
  (∃ line, line ∈ PyStr.split_on newline text ∧ h = PyStr.strip line)
  ∧ PyStr.strip h = h
  ∧ h ≠ ""
  ∧ ∃ prefix rest, prefix ∈ section_prefixes ∧ h = prefix +:+ rest.
Proof.
  rewrite detect_sections_filter, list_elem_of_In, filter_In, in_map_iff.
  intros [(line & <- & Hline) Hhead].
  unfold is_section_header in Hhead. apply existsb_exists in Hhead
    as (prefix & Hprefix & Hstarts).
  apply prefix_app in Hstarts as [rest Hrest].
  split_and!.
  - exists line. split; [apply list_elem_of_In, Hline | reflexivity].
  - apply strip_idempotent.
  - intros Hempty. rewrite Hempty in Hrest.
    destruct prefix; [|discriminate Hrest].
    simpl in Hprefix. intuition discriminate.
  - exists prefix, rest. split; [apply list_elem_of_In, Hprefix | exact Hrest].
Qed.

Lemma detected_headers_are_trimmed_lines_witness :
  "Section 2.1 - Payment" ∈ detect_sections
     ("CONTRACT" +:+ newline +:+ "   Section 2.1 - Payment  " +:+ newline
      +:+ "The customer pays.")
  ∧ PyStr.strip "Section 2.1 - Payment" = "Section 2.1 - Payment".
Proof.
  assert ("Section 2.1 - Payment" ∈ detect_sections
            ("CONTRACT" +:+ newline +:+ "   Section 2.1 - Payment  " +:+ newline
             +:+ "The customer pays.")) as Hin
    by (vm_compute; left).
  split; [exact Hin|].
  exact (proj1 (proj2 (detected_headers_are_trimmed_lines _ _ Hin))).
Defined.

(** X17.  Detection works line by line: the headers of two texts joined by
    a line break are the headers of the first followed by those of the
    second. *)
Theorem detect_sections_app (a b : string) :
  detect_sections (a +:+ newline +:+ b) = detect_sections a ++ detect_sections b.
Proof.
  rewrite !detect_sections_filter, split_lines_app, map_app.
  apply List.filter_app.
Qed.

End SectionHeaders.

(** * Further properties of the evaluator *)

Section ScoreBounds.
Import Models Evaluator.

Lemma clamp_in_range (q : Q) : in_score_range (clamp q).
Proof.
  unfold in_score_range, clamp, Py.max, Py.min.
  destruct (ltb_spec q 100);
    [destruct (ltb_spec 0 q) | destruct (ltb_spec 0 100)]; split; lra.
Qed.

Lemma clamp_id (q : Q) : in_score_range q → (clamp q == q)%Q.
Proof.
  intros [H0 H100]. unfold clamp, Py.max, Py.min.
  destruct (ltb_spec q 100);
    [destruct (ltb_spec 0 q) | destruct (ltb_spec 0 100)]; lra.
Qed.

Lemma clamp_lt_70 (q : Q) : (clamp q < 70)%Q ↔ (q < 70)%Q.
Proof.
  unfold clamp, Py.max, Py.min.
  destruct (ltb_spec q 100);
    [destruct (ltb_spec 0 q) | destruct (ltb_spec 0 100)]; split; lra.
Qed.

Lemma _evaluate_completeness_value (changes : ContractChangeOutput)
    (context : AgentContext) (r : EvalResults) :
  ∃ r', _evaluate_completeness changes context r = Ok r'
        ∧ dimension_scores r'
          = Dict.set "completeness"
              (clamp (completeness_raw
                        (Z.of_nat (length (sections_changed changes)))
                        (Z.of_nat (length (identified_change_areas context)))
                        (Z.of_nat (length (topics_touched changes)))
                        (Z.of_nat (String.length (summary_of_the_change changes)))))
              (dimension_scores r).
Proof.
  unfold _evaluate_completeness, completeness_raw.
  assert ((length (topics_touched changes) =? 0)%nat
          = (Z.of_nat (length (topics_touched changes)) =? 0)) as Htopics.
  { destruct (topics_touched changes); reflexivity. }
  destruct (Z.ltb_spec (Z.of_nat (length (sections_changed changes)))
              (Z.of_nat (length (identified_change_areas context))))
    as [Hlt|Hge].
  - rewrite truediv_inject_Z by lia. cbn [mbind Res_bind].
    eexists. split; [reflexivity|]. cbn [dimension_scores set_score set_detail].
    rewrite Htopics. reflexivity.
  - cbn [mbind Res_bind].
    eexists. split; [reflexivity|]. cbn [dimension_scores set_score set_detail].
    rewrite Htopics. reflexivity.
Qed.

Lemma _evaluate_accuracy_clamped (changes : ContractChangeOutput)
    (original amendment : ParsedContract) (r : EvalResults) :
  ∃ r', _evaluate_accuracy changes original amendment r = Ok r'
        ∧ clamped_score "accuracy" r r'.
Proof.
  unfold _evaluate_accuracy.
  repeat match goal with
         | |- context [ratio_of ?n ?l] =>
             let q := fresh "q" in let E := fresh "E" in
             destruct (ratio_of_total n l) as [q E]; rewrite E;
             cbn [mbind Res_bind]
         end.
  eexists. split; [reflexivity|]. eexists. reflexivity.
Qed.

Lemma _evaluate_clarity_clamped (changes : ContractChangeOutput) (r : EvalResults) :
  ∃ r', _evaluate_clarity changes r = Ok r' ∧ clamped_score "clarity" r r'.
Proof.
  unfold _evaluate_clarity.
  destruct (split_sentences (summary_of_the_change changes)) as [|s ss] eqn:Hs.
  - cbn [mbind Res_bind]. eexists. split; [reflexivity|]. eexists. reflexivity.
  - rewrite truediv_of_nat by (simpl; lia). cbn [mbind Res_bind].
    eexists. split; [reflexivity|]. eexists. reflexivity.
Qed.

Lemma _evaluate_relevance_clamped (changes : ContractChangeOutput)
    (original amendment : ParsedContract) (r : EvalResults) :
  ∃ r', _evaluate_relevance changes original amendment r = Ok r'
        ∧ clamped_score "relevance" r r'.
Proof.
  unfold _evaluate_relevance.
  match goal with
  | |- context [count ?p ?l >? 0] =>
      destruct (Z.gtb_spec (count p l) 0) as [Hpos|Hzero]
  end.
  - rewrite (truediv_of_nat _ (length (topics_touched changes)))
      by exact (count_positive _ _ Hpos).
    cbn [mbind Res_bind]. eexists. split; [reflexivity|]. eexists. reflexivity.
  - cbn [mbind Res_bind]. eexists. split; [reflexivity|]. eexists. reflexivity.
Qed.

Lemma _evaluate_consistency_clamped (changes : ContractChangeOutput)
    (context : AgentContext) (r : EvalResults) :
  ∃ r', _evaluate_consistency changes context r = Ok r'
        ∧ clamped_score "consistency" r r'.
Proof.
  unfold _evaluate_consistency.
  repeat match goal with
         | |- context [ratio_of ?n ?l] =>
             let q := fresh "q" in let E := fresh "E" in
             destruct (ratio_of_total n l) as [q E]; rewrite E;
             cbn [mbind Res_bind]
         end.
  eexists. split; [reflexivity|]. eexists. reflexivity.
Qed.

(** The five scores left by the scoring passes: the completeness score in
    closed form, the others clamped. *)
Lemma run_dimensions_scores (now : string) (changes : ContractChangeOutput)
    (original amendment : ParsedContract) (context : AgentContext) :
  ∃ r a cl re co,
    run_dimensions now changes original amendment context = Ok r
    ∧ dimension_scores r =
        [("completeness",
          clamp (completeness_raw
                   (Z.of_nat (length (sections_changed changes)))
                   (Z.of_nat (length (identified_change_areas context)))
                   (Z.of_nat (length (topics_touched changes)))
                   (Z.of_nat (String.length (summary_of_the_change changes)))));
         ("accuracy", clamp a); ("clarity", clamp cl);
         ("relevance", clamp re); ("consistency", clamp co)].
Proof.
  unfold run_dimensions.
  destruct (_evaluate_completeness_value changes context (new_results now))
    as (r1 & E1 & D1).
  destruct (_evaluate_accuracy_clamped changes original amendment r1)
    as (r2 & E2 & [a D2]).
  destruct (_evaluate_clarity_clamped changes r2) as (r3 & E3 & [cl D3]).
  destruct (_evaluate_relevance_clamped changes original amendment r3)
    as (r4 & E4 & [re D4]).
  destruct (_evaluate_consistency_clamped changes context r4)
    as (r5 & E5 & [co D5]).
  exists r5, a, cl, re, co.
  rewrite E1. cbn [mbind Res_bind]. rewrite E2. cbn [mbind Res_bind].
  rewrite E3. cbn [mbind Res_bind]. rewrite E4. cbn [mbind Res_bind].
  split; [exact E5|]. rewrite D5, D4, D3, D2, D1. reflexivity.
Qed.

(** X18.  The scoring passes always return, and each of the five scores
    they leave lies between 0 and 100.  A result returned by
    [evaluate_output] carries these scores, and its overall score lies
    between 0 and 100 as well. *)
Theorem scores_in_range (now : string) (changes : ContractChangeOutput)
    (original amendment : ParsedContract) (context : AgentContext) :
  ∃ r0, run_dimensions now changes original amendment context = Ok r0
        ∧ Forall (fun kv => in_score_range kv.2) (dimension_scores r0)
        ∧ ∀ r, evaluate_output now changes original amendment context = Ok r →
               dimension_scores r = dimension_scores r0
               ∧ in_score_range (overall_score r).
Proof.
  destruct (run_dimensions_scores now changes original amendment context)
    as (r0 & a & cl & re & co & Hrun & Hds).
  exists r0. split; [exact Hrun|].
  assert (Forall (fun kv : string * Q => in_score_range kv.2) (dimension_scores r0))
    as Hall.
  { rewrite Hds. repeat constructor; apply clamp_in_range. }
  split; [exact Hall|]. intros r Hr.
  destruct (evaluate_output_outcome now changes original amendment context)
    as (r0' & c' & a' & cl' & re' & co' & Hrun' & Hds' & Hout).
  rewrite Hrun in Hrun'. injection Hrun' as <-.
  destruct (Py.ltb c' 70); [congruence|].
  destruct Hout as [recs Hout]. rewrite Hout in Hr. injection Hr as <-.
  cbn [dimension_scores overall_score]. split; [reflexivity|].
  rewrite Hds' in Hall.
  repeat match goal with
         | Hf : Forall _ (_ :: _) |- _ =>
             let Hhd := fresh "Hhd" in
             apply Forall_cons in Hf as [Hhd Hf]; simpl in Hhd
         end.
  unfold in_score_range in *. split.
  - apply Qle_shift_div_l; lra.
  - apply Qle_shift_div_r; lra.
Qed.

Lemma scores_in_range_witness :
  ∃ r, evaluate_output Examples.timestamp_text Examples.full_changes
         Examples.original_doc Examples.amendment_doc Examples.two_area_context
       = Ok r
       ∧ in_score_range (overall_score r).
Proof.
  destruct (scores_in_range Examples.timestamp_text Examples.full_changes
              Examples.original_doc Examples.amendment_doc
              Examples.two_area_context) as (r0 & _ & _ & Hret).
  destruct (evaluate_output Examples.timestamp_text Examples.full_changes
              Examples.original_doc Examples.amendment_doc
              Examples.two_area_context) as [r|e] eqn:E;
    [|vm_compute in E; discriminate E].
  exists r. split; [reflexivity|]. exact (proj2 (Hret r eq_refl)).
Defined.

Lemma ratio_facts (n m : Z) :
  0 <= n → 0 < m →
  (0 <= inject_Z n / inject_Z m)%Q
  ∧ ((inject_Z n / inject_Z m < 1)%Q ↔ n < m)
  ∧ ((100 * (inject_Z n / inject_Z m) < 70)%Q ↔ 10 * n < 7 * m).
Proof.
  intros Hn Hm.
  assert (0 < inject_Z m)%Q as Hpos
    by (change 0%Q with (inject_Z 0); rewrite <- Zlt_Qlt; exact Hm).
  assert (0 <= inject_Z n)%Q as Hnn
    by (change 0%Q with (inject_Z 0); rewrite <- Zle_Qle; exact Hn).
  assert (∀ b : Q, (inject_Z n / inject_Z m < b)%Q ↔ (inject_Z n < b * inject_Z m)%Q)
    as Hshift.
  { intros b. split.
    - intros Hlt. destruct (Qlt_le_dec (inject_Z n) (b * inject_Z m))
        as [Hok|Hge]; [exact Hok|].
      apply Qle_shift_div_l in Hge; [lra | exact Hpos].
    - intros Hlt. apply Qlt_shift_div_r; assumption. }
  split_and!.
  - apply Qle_shift_div_l; [exact Hpos | lra].
  - rewrite Hshift. unfold Qlt, inject_Z. simpl. lia.
  - assert ((100 * (inject_Z n / inject_Z m) < 70)%Q
            ↔ (inject_Z n / inject_Z m < 7 # 10)%Q) as -> by (split; lra).
    rewrite Hshift. unfold Qlt, inject_Z. simpl. lia.
Qed.

Lemma completeness_raw_lt_70 (n m t len : Z) :
  0 <= n → 0 <= m → 0 <= t →
  (completeness_raw n m t len < 70)%Q ↔
  ¬ (n ≠ 0 ∧ t ≠ 0 ∧ (m <= n ∨ (200 <= len ∧ 7 * m <= 10 * n))).
Proof.
  intros Hn Hm Ht. unfold completeness_raw.
  rewrite summary_length_penalty_cases.
  destruct (Z.ltb_spec n m) as [Hlt|Hge].
  - destruct (ratio_facts n m Hn ltac:(lia)) as (Hq0 & Hq1 & Hq70).
    apply proj2 in Hq1. specialize (Hq1 Hlt).
    set (q := (inject_Z n / inject_Z m)%Q) in *.
    destruct (Z.eqb_spec n 0), (Z.eqb_spec t 0), (Z.ltb_spec len 200),
      (Z_lt_dec (10 * n) (7 * m)) as [Hlow|Hhigh];
      try (pose proof (proj2 Hq70 Hlow));
      try (assert (¬ (100 * q < 70)%Q) by (intros Hc; apply Hq70 in Hc; lia));
      split; intros; try lra; try lia;
      try (intros (? & ? & [? | [? ?]]); lia).
  - destruct (Z.eqb_spec n 0), (Z.eqb_spec t 0), (Z.ltb_spec len 200);
      split; intros; try lra; try lia;
      try (intros (? & ? & [? | [? ?]]); lia).
Qed.

(** The outcome of [evaluate_output] by the sizes of its inputs. *)
Lemma evaluate_output_by_sizes (now : string)
    (changes : ContractChangeOutput) (original amendment : ParsedContract)
    (context : AgentContext) :
  if completeness_reaches_70 changes context
  then ∃ r, evaluate_output now changes original amendment context = Ok r
  else evaluate_output now changes original amendment context
       = Raise (TypeError "object of type 'int' has no len()").
Proof.
  destruct (run_dimensions_scores now changes original amendment context)
    as (r0 & a & cl & re & co & Hrun & Hds).
  destruct (evaluate_output_outcome now changes original amendment context)
    as (r0' & c' & a' & cl' & re' & co' & Hrun' & Hds' & Hout).
  rewrite Hrun in Hrun'. injection Hrun' as <-.
  rewrite Hds in Hds'. injection Hds' as <- _ _ _ _.
  pose proof (completeness_raw_lt_70
                (Z.of_nat (length (sections_changed changes)))
                (Z.of_nat (length (identified_change_areas context)))
                (Z.of_nat (length (topics_touched changes)))
                (Z.of_nat (String.length (summary_of_the_change changes)))
                ltac:(lia) ltac:(lia) ltac:(lia)) as Hraw.
  rewrite <- clamp_lt_70 in Hraw. unfold completeness_reaches_70.
  destruct (ltb_spec (clamp (completeness_raw
                (Z.of_nat (length (sections_changed changes)))
                (Z.of_nat (length (identified_change_areas context)))
                (Z.of_nat (length (topics_touched changes)))
                (Z.of_nat (String.length (summary_of_the_change changes)))))
              70) as [Hlt|Hge].
  - apply Hraw in Hlt.
    match goal with
    | |- if ?b then _ else _ => destruct b eqn:Hb; [|exact Hout]
    end.
    exfalso. apply Hlt. lia.
  - assert (¬ ¬ (Z.of_nat (length (sections_changed changes)) ≠ 0
                 ∧ Z.of_nat (length (topics_touched changes)) ≠ 0
                 ∧ (Z.of_nat (length (identified_change_areas context))
                    <= Z.of_nat (length (sections_changed changes))
                    ∨ 200 <= Z.of_nat (String.length (summary_of_the_change changes))
                      ∧ 7 * Z.of_nat (length (identified_change_areas context))
                        <= 10 * Z.of_nat (length (sections_changed changes)))))
      as Hnn by (intros Hc; apply Hraw in Hc; lra).
    match goal with
    | |- if ?b then _ else _ => destruct b eqn:Hb
    end.
    + destruct Hout as [recs Hout]. eauto.
    + exfalso. apply Hnn. lia.
Qed.

(** X19.  Whether [evaluate_output] returns is decided by the sizes of its
    inputs alone: it returns a result exactly when some section and some
    topic are reported and either the reported sections are at least as many
    as the change areas, or the summary has at least 200 characters and the
    sections are at least seven tenths of the areas; in every other case,
    and in no other, it raises [TypeError]. *)
Theorem evaluate_output_returns_iff (now : string)
    (changes : ContractChangeOutput) (original amendment : ParsedContract)
    (context : AgentContext) :
  ((∃ r, evaluate_output now changes original amendment context = Ok r)
   ↔ completeness_reaches_70 changes context = true)
  ∧ (evaluate_output now changes original amendment context
     = Raise (TypeError "object of type 'int' has no len()")
     ↔ completeness_reaches_70 changes context = false).
Proof.
  pose proof (evaluate_output_by_sizes now changes original amendment context)
    as Hout.
  destruct (completeness_reaches_70 changes context).
  - destruct Hout as [r Hr]. split.
    + split; [reflexivity | eauto].
    + rewrite Hr. split; discriminate.
  - rewrite Hout. split.
    + split; [intros [r Hr]; discriminate Hr | discriminate].
    + split; reflexivity.
Qed.

Lemma append_if_advisory (cond : bool) (text : string) (recs : list string) :
  In text other_advisories →
  Forall (fun s => In s other_advisories) recs →
  Forall (fun s => In s other_advisories) (append_if cond text recs).
Proof.
  intros Hin Hall. unfold append_if. destruct cond; [|exact Hall].
  apply Forall_app. split; [exact Hall | constructor; [exact Hin | constructor]].
Qed.

(** With a completeness score of at least 70 the recommendations are built
    from the texts of the other four dimensions only, and none is added for
    a dimension whose score is at least 70. *)
Lemma _generate_recommendations_advisories (r : EvalResults)
    (c a cl re co : Q) :
  dimension_scores r =
    [("completeness", c); ("accuracy", a); ("clarity", cl);
     ("relevance", re); ("consistency", co)] →
  map_Forall (fun _ v => scalar v) (details r) →
  Py.ltb c 70 = false →
  ∃ recs,
    _generate_recommendations r
    = Ok {| timestamp := timestamp r;
            dimension_scores := dimension_scores r;
            overall_score := overall_score r;
            grade := grade r;
            recommendations := recs;
            details := details r |}
    ∧ Forall (fun s => In s other_advisories) recs
    ∧ (Py.ltb a 70 = false → Py.ltb cl 70 = false →
       Py.ltb re 70 = false → Py.ltb co 70 = false → recs = []).
Proof.
  intros Hds Hall Hc. unfold _generate_recommendations. cbv zeta. rewrite Hds.
  change (Dict.getitem _ "completeness") with (Ok c).
  change (Dict.getitem _ "accuracy") with (Ok a).
  change (Dict.getitem _ "clarity") with (Ok cl).
  change (Dict.getitem _ "relevance") with (Ok re).
  change (Dict.getitem _ "consistency") with (Ok co).
  cbn [mbind Res_bind]. rewrite Hc. cbn [mbind Res_bind].
  repeat match goal with
         | |- context [Py.num (Py.get ?d ?k ?v)] =>
             let q := fresh "q" in
             let E := fresh "E" in
             destruct (num_get_total d k v Hall I) as [q E]; rewrite E
         end.
  destruct (Py.ltb a 70), (Py.ltb cl 70), (Py.ltb re 70), (Py.ltb co 70);
    cbn [mbind Res_bind]; eexists; (split; [reflexivity|]);
    (split; [|first [discriminate | reflexivity | intros; discriminate]]);
    repeat (apply append_if_advisory; [simpl; tauto|]); constructor.
Qed.

(** X20.  A result returned by [evaluate_output] only carries advisory texts
    of the accuracy, clarity, relevance and consistency dimensions: the two
    texts of the completeness dimension never appear in it, and when all
    five scores are at least 70 the list of recommendations is empty. *)
Theorem returned_recommendations (now : string)
    (changes : ContractChangeOutput) (original amendment : ParsedContract)
    (context : AgentContext) (r : EvalResults) :
  evaluate_output now changes original amendment context = Ok r →
  Forall (fun s => In s other_advisories) (recommendations r)
  ∧ Forall (fun s => ¬ In s (recommendations r)) completeness_advisories
  ∧ (Forall (fun kv => (70 <= kv.2)%Q) (dimension_scores r) →
     recommendations r = []).
Proof.
  intros Hr.
  destruct (run_dimensions_total now changes original amendment context)
    as (r0 & c & a & cl & re & co & Hrun & Hds & Hall & Hn).
  assert (Py.ltb c 70 = false) as Hc.
  { destruct (evaluate_output_outcome now changes original amendment context)
      as (r0' & c' & a' & cl' & re' & co' & Hrun' & Hds' & Hout).
    rewrite Hrun in Hrun'. injection Hrun' as <-.
    rewrite Hds in Hds'. injection Hds' as <- _ _ _ _.
    destruct (Py.ltb c 70); [congruence | reflexivity]. }
  unfold evaluate_output in Hr. rewrite Hrun in Hr. cbn [mbind Res_bind] in Hr.
  rewrite (aggregate_five r0 c a cl re co Hds) in Hr. cbn [mbind Res_bind] in Hr.
  match type of Hr with
  | context [_generate_recommendations ?agg] =>
      destruct (_generate_recommendations_advisories agg c a cl re co
                  Hds Hall Hc) as (recs & Hrec & Hin & Hnone)
  end.
  rewrite Hrec in Hr. injection Hr as <-. cbn [recommendations dimension_scores].
  split; [exact Hin|]. split.
  - pose proof (proj1 (List.Forall_forall _ _) Hin) as Hin'.
    unfold completeness_advisories.
    repeat (apply List.Forall_cons; [|]); [| |apply List.Forall_nil];
      intros Hbad; apply Hin' in Hbad; simpl in Hbad; intuition discriminate.
  - rewrite Hds. intros Hge.
    repeat match goal with
           | Hf : Forall _ (_ :: _) |- _ =>
               let Hhd := fresh "Hhd" in
               apply Forall_cons in Hf as [Hhd Hf]; simpl in Hhd
           end.
    apply Hnone;
      match goal with
      | |- Py.ltb ?x 70 = false => destruct (ltb_spec x 70); [lra | reflexivity]
      end.
Qed.

Lemma returned_recommendations_witness :
  ∃ r, evaluate_output Examples.timestamp_text Examples.full_changes
         Examples.original_doc Examples.amendment_doc Examples.two_area_context
       = Ok r
       ∧ Forall (fun s => ¬ In s (recommendations r)) completeness_advisories.
Proof.
  destruct (evaluate_output Examples.timestamp_text Examples.full_changes
              Examples.original_doc Examples.amendment_doc
              Examples.two_area_context) as [r|e] eqn:E;
    [|vm_compute in E; discriminate E].
  exists r. split; [reflexivity|].
  exact (proj1 (proj2 (returned_recommendations _ _ _ _ _ r E))).
Defined.

End ScoreBounds.

(** * Averages over several evaluations *)

Section Metrics.
Import Evaluator MetricsTracker.

Lemma of_nat_succ (n : nat) : (Py.of_nat (S n) == Py.of_nat n + 1)%Q.
Proof.
  unfold Py.of_nat. rewrite Nat2Z.inj_succ. unfold Z.succ.
  rewrite inject_Z_plus. reflexivity.
Qed.

Lemma sum_from_bounds (l : list Q) (a : Q) :
  Forall in_score_range l →
  (a <= fold_left Qplus l a)%Q
  ∧ (fold_left Qplus l a <= a + 100 * Py.of_nat (length l))%Q.
Proof.
  intros Hall. revert a.
  induction Hall as [|x l [Hx0 Hx100] Hall IH]; intros a.
  - cbn [fold_left length]. change (Py.of_nat 0) with 0%Q. split; lra.
  - cbn [fold_left length]. destruct (IH (a + x)%Q) as [Hlo Hhi].
    rewrite of_nat_succ. split; lra.
Qed.

Lemma average_total (scores : list Q) : ∃ q, average scores = Ok q.
Proof.
  destruct scores as [|x l]; [eexists; reflexivity|].
  unfold average. rewrite truediv_of_nat by (simpl; lia). eauto.
Qed.

Lemma average_in_range (scores : list Q) (q : Q) :
  Forall in_score_range scores → average scores = Ok q → in_score_range q.
Proof.
  intros Hall Hq. destruct scores as [|x l].
  - injection Hq as <-. split; lra.
  - unfold average in Hq. rewrite truediv_of_nat in Hq by (simpl; lia).
    injection Hq as <-.
    destruct (sum_from_bounds (x :: l) 0 Hall) as [Hlo Hhi].
    pose proof (of_nat_pos (length (x :: l)) ltac:(simpl; lia)) as Hpos.
    unfold sum. split.
    + apply Qle_shift_div_l; [exact Hpos | lra].
    + apply Qle_shift_div_r; [exact Hpos |].
      change (S (length l)) with (length (x :: l)). lra.
Qed.

Lemma get_in_range (d : pydict Q) (k : string) (v : Q) :
  Forall (fun kv => in_score_range kv.2) d → Dict.get d k = Some v →
  in_score_range v.
Proof.
  intros Hall. induction Hall as [|[k' v'] d Hhd Hall IH]; simpl; [discriminate|].
  destruct (String.eqb k k'); [|exact IH].
  intros Hv. injection Hv as <-. exact Hhd.
Qed.

Lemma set_in_range (k : string) (v : Q) (d : pydict Q) :
  in_score_range v → Forall (fun kv => in_score_range kv.2) d →
  Forall (fun kv => in_score_range kv.2) (Dict.set k v d).
Proof.
  intros Hv Hall. induction Hall as [|[k' v'] d Hhd Hall IH]; simpl.
  - constructor; [exact Hv | constructor].
  - destruct (String.eqb k k'); constructor; assumption.
Qed.

Lemma set_not_nil {V : Type} (k : string) (v : V) (d : pydict V) :
  Dict.set k v d ≠ [].
Proof. destruct d as [|[k' v'] d]; simpl; [|destruct (String.eqb k k')]; discriminate. Qed.

Lemma scores_of_in_range (dimension : string) (self : evaluations) :
  Forall (fun e => Forall (fun kv => in_score_range kv.2) (dimension_scores e))
         self →
  Forall in_score_range (scores_of dimension self).
Proof.
  intros Hall. unfold scores_of.
  induction Hall as [|e self He Hall IH]; [constructor|].
  cbn [omap list_omap].
  destruct (Dict.get (dimension_scores e) dimension) as [v|] eqn:Hv;
    [|exact IH].
  constructor; [exact (get_in_range _ _ _ He Hv) | exact IH].
Qed.

Lemma average_loop_total (self : evaluations) (dimensions : list string)
    (averages : pydict Q) :
  ∃ averages',
    fold_left (average_step self) dimensions (Ok averages) = Ok averages'
    ∧ (Forall (fun e => Forall (fun kv => in_score_range kv.2)
                               (dimension_scores e)) self →
       Forall (fun kv => in_score_range kv.2) averages →
       Forall (fun kv => in_score_range kv.2) averages').
Proof.
  revert averages. induction dimensions as [|dimension dimensions IH];
    intros averages.
  - exists averages. split; [reflexivity | intros _ Hacc; exact Hacc].
  - cbn [fold_left]. unfold average_step at 2. cbn [mbind Res_bind].
    destruct (average_total (scores_of dimension self)) as [q Hq].
    rewrite Hq. cbn [mbind Res_bind].
    destruct (IH (Dict.set dimension q averages)) as (averages' & Hloop & Hrange).
    exists averages'. split; [exact Hloop|]. intros Hself Hacc.
    apply Hrange; [exact Hself|]. apply set_in_range; [|exact Hacc].
    exact (average_in_range _ _ (scores_of_in_range dimension self Hself) Hq).
Qed.

(** X21.  [get_average_scores] never raises: every division it makes is by
    the length of a list it has found non-empty.  It returns the empty
    dictionary exactly for a tracker without evaluations, and when the
    scores of all recorded evaluations lie between 0 and 100, so does every
    average it returns. *)
Theorem average_scores_in_range (self : evaluations) :
  ∃ averages,
    get_average_scores self = Ok averages
    ∧ (averages = [] ↔ self = [])
    ∧ (Forall (fun e => Forall (fun kv => in_score_range kv.2)
                               (dimension_scores e)
                        ∧ in_score_range (overall_score e)) self →
       Forall (fun kv => in_score_range kv.2) averages).
Proof.
  destruct self as [|first rest].
  - exists []. split; [reflexivity|]. split; [tauto | constructor].
  - unfold get_average_scores. cbv zeta.
    destruct (average_loop_total (first :: rest)
                (Dict.keys (dimension_scores first)) [])
      as (averages & Hloop & Hrange).
    unfold pydict in *. rewrite Hloop. cbn [mbind Res_bind].
    destruct (average_total (map overall_score (first :: rest))) as [q Hq].
    rewrite Hq. cbn [mbind Res_bind].
    eexists. split; [reflexivity|]. split.
    + split; [intros Hnil; exfalso; exact (set_not_nil _ _ _ Hnil) | discriminate].
    + intros Hall. apply set_in_range.
      * apply (average_in_range (map overall_score (first :: rest))); [|exact Hq].
        apply List.Forall_map. revert Hall. apply List.Forall_impl. tauto.
      * apply Hrange; [|constructor].
        revert Hall. apply List.Forall_impl. tauto.
Qed.

Lemma average_scores_in_range_witness :
  ∃ averages,
    get_average_scores [Examples.uniform_results 80; Examples.uniform_results 60]
    = Ok averages
    ∧ Forall (fun kv => in_score_range kv.2) averages.
Proof.
  destruct (average_scores_in_range
              [Examples.uniform_results 80; Examples.uniform_results 60])
    as (averages & Hget & _ & Hrange).
  exists averages. split; [exact Hget|]. apply Hrange.
  repeat constructor; unfold in_score_range; simpl; lra.
Defined.

End Metrics.

(** * The workflow *)

Section WorkflowProperties.
Import Models Pipeline.
Context `{Host} `{Services}.

Lemma parse_and_validate_returned (label document_type image_path : string)
    (enable_guardrails : bool) (metadata metadata' : Metadata)
    (contract : ParsedContract) :
  parse_and_validate label document_type image_path enable_guardrails metadata
  = Returned (contract, metadata')
  ↔ parse_contract_image image_path document_type = Ok contract
    ∧ if enable_guardrails
      then ∃ validation,
             Guardrails.validate_input Guardrails.default_guardrails contract
               (Some image_path) = Ok validation
             ∧ Guardrails.is_valid validation = true
             ∧ SafetyGuardrails.is_safe
                 (SafetyGuardrails.check_content_safety (raw_text contract))
               = true
             ∧ metadata'
               = add_warnings label (Guardrails.warnings validation)
                   (set_guardrails_result document_type validation metadata)
      else metadata' = metadata.
Proof.
  unfold parse_and_validate.
  destruct (parse_contract_image image_path document_type) as [c|e];
    cbn [call mbind outcome_mbind outcome_bind];
    [|split; [discriminate | intros [Hc _]; discriminate Hc]].
  destruct enable_guardrails.
  - destruct (Guardrails.validate_input Guardrails.default_guardrails c
                (Some image_path)) as [v|e] eqn:Hv;
      cbn [call mbind outcome_mbind outcome_bind].
    + destruct (Guardrails.is_valid v) eqn:Hvalid; cbn [negb].
      * destruct (SafetyGuardrails.is_safe
                    (SafetyGuardrails.check_content_safety (raw_text c)))
          eqn:Hsafe; cbn [negb].
        -- split.
           ++ intros Hret. injection Hret as <- <-. split; [reflexivity|].
              exists v. split_and!; reflexivity || assumption.
           ++ intros [Hc (v' & Hv' & _ & _ & ->)]. injection Hc as <-.
              rewrite Hv in Hv'. injection Hv' as <-. reflexivity.
        -- split; [discriminate|].
           intros [Hc (v' & _ & _ & Hsafe' & _)]. injection Hc as <-.
           congruence.
      * split; [discriminate|].
        intros [Hc (v' & Hv' & Hvalid' & _)]. injection Hc as <-.
        rewrite Hv in Hv'. injection Hv' as <-. congruence.
    + split; [discriminate|].
      intros [Hc (v' & Hv' & _)]. injection Hc as <-. congruence.
  - split.
    + intros Hret. injection Hret as <- <-. split; reflexivity.
    + intros [Hc ->]. injection Hc as <-. reflexivity.
Qed.

(** Whether a parsing step completes, the contract it yields and the
    message it fails with do not depend on the metadata passed in. *)
Lemma parse_and_validate_metadata_free (label document_type image_path : string)
    (enable_guardrails : bool) (m1 m2 : Metadata) :
  match parse_and_validate label document_type image_path enable_guardrails m1,
        parse_and_validate label document_type image_path enable_guardrails m2
  with
  | Returned (c1, _), Returned (c2, _) => c1 = c2
  | Failed e1, Failed e2 => e1 = e2
  | _, _ => False
  end.
Proof.
  unfold parse_and_validate.
  destruct (parse_contract_image image_path document_type) as [c|e];
    cbn [call mbind outcome_mbind outcome_bind]; [|reflexivity].
  destruct enable_guardrails; [|reflexivity].
  destruct (Guardrails.validate_input Guardrails.default_guardrails c
              (Some image_path)) as [v|e];
    cbn [call mbind outcome_mbind outcome_bind]; [|reflexivity].
  destruct (Guardrails.is_valid v); cbn [negb]; [|reflexivity].
  destruct (SafetyGuardrails.is_safe _); reflexivity.
Qed.

Lemma process_returned (now original_image_path amendment_image_path : string)
    (enable_guardrails enable_evaluation enable_llm_eval : bool)
    (changes : ContractChangeOutput) (trace_id : option string)
    (metadata : Metadata) :
  process_contract_comparison_enhanced now original_image_path
    amendment_image_path enable_guardrails enable_evaluation enable_llm_eval
  = Returned (changes, trace_id, metadata)
  ↔ ∃ original m1 amendment m2 context,
      parse_and_validate "Original" "original" original_image_path
        enable_guardrails
        (initial_metadata enable_guardrails enable_evaluation enable_llm_eval)
      = Returned (original, m1)
      ∧ parse_and_validate "Amendment" "amendment" amendment_image_path
          enable_guardrails m1
        = Returned (amendment, m2)
      ∧ analyze original amendment = Ok context
      ∧ extract_changes original amendment context = Ok changes
      ∧ trace_id = get_current_trace_id
      ∧ metadata
        = (let m :=
             if enable_guardrails
             then validate_output_step changes original amendment m2
             else m2 in
           if enable_evaluation
           then evaluate_step now changes original amendment context
                  enable_llm_eval m
           else m).
Proof.
  unfold process_contract_comparison_enhanced. cbv zeta.
  fold (initial_metadata enable_guardrails enable_evaluation enable_llm_eval).
  split.
  - destruct (parse_and_validate "Original" "original" original_image_path
                enable_guardrails _) as [[o m1]|e1] eqn:Hone;
      cbn [reraise mbind outcome_mbind outcome_bind]; [|discriminate].
    destruct (parse_and_validate "Amendment" "amendment" amendment_image_path
                enable_guardrails m1) as [[a m2]|e2] eqn:Htwo;
      cbn [reraise mbind outcome_mbind outcome_bind]; [|discriminate].
    destruct (analyze o a) as [ctx|e3] eqn:Hctx;
      cbn [call reraise mbind outcome_mbind outcome_bind]; [|discriminate].
    destruct (extract_changes o a ctx) as [ch|e4] eqn:Hch;
      cbn [call reraise mbind outcome_mbind outcome_bind]; [|discriminate].
    intros Hret. injection Hret as <- <- <-.
    exists o, m1, a, m2, ctx. split_and!; reflexivity || assumption.
  - intros (o & m1 & a & m2 & ctx & Ho & Ha & Hc & Hx & -> & ->).
    rewrite Ho. cbn [reraise mbind outcome_mbind outcome_bind].
    rewrite Ha. cbn [reraise mbind outcome_mbind outcome_bind].
    rewrite Hc. cbn [call reraise mbind outcome_mbind outcome_bind].
    rewrite Hx. cbn [call reraise mbind outcome_mbind outcome_bind].
    reflexivity.
Qed.

(** X22.  With the guardrails switched on, the workflow returns the changes
    [changes] exactly when both images are parsed, both parsed documents
    pass the input guardrail and the safety check, and the two agents
    return, the second one with [changes]; neither the output guardrail nor
    the evaluation can stop it. *)
Theorem workflow_completes_iff (now original_image_path amendment_image_path : string)
    (enable_evaluation enable_llm_eval : bool) (changes : ContractChangeOutput) :
  (∃ trace_id metadata,
     process_contract_comparison_enhanced now original_image_path
       amendment_image_path true enable_evaluation enable_llm_eval
     = Returned (changes, trace_id, metadata))
  ↔ ∃ original amendment context,
      parse_contract_image original_image_path "original" = Ok original
      ∧ passes_input_checks original_image_path original
      ∧ parse_contract_image amendment_image_path "amendment" = Ok amendment
      ∧ passes_input_checks amendment_image_path amendment
      ∧ analyze original amendment = Ok context
      ∧ extract_changes original amendment context = Ok changes.
Proof.
  split.
  - intros (trace_id & metadata & Hret).
    apply process_returned in Hret
      as (o & m1 & a & m2 & ctx & Ho & Ha & Hc & Hx & _ & _).
    apply parse_and_validate_returned in Ho as (Ho & v1 & Hv1 & Hok1 & Hs1 & _).
    apply parse_and_validate_returned in Ha as (Ha & v2 & Hv2 & Hok2 & Hs2 & _).
    exists o, a, ctx. unfold passes_input_checks. split_and!; eauto.
  - intros (o & a & ctx & Ho & [(v1 & Hv1 & Hok1) Hs1] & Ha
            & [(v2 & Hv2 & Hok2) Hs2] & Hc & Hx).
    eexists _, _. apply process_returned.
    eexists o, _, a, _, ctx. split_and!; try reflexivity; try assumption.
    + apply parse_and_validate_returned. split; [exact Ho|].
      exists v1. split_and!; try assumption. reflexivity.
    + apply parse_and_validate_returned. split; [exact Ha|].
      exists v2. split_and!; try assumption. reflexivity.
Qed.

(** X23.  Switching the evaluation on or off changes neither whether the
    workflow completes, nor the changes and the trace id it returns, nor
    the message of the exception it raises: an exception of the evaluation
    never leaves the workflow. *)
Theorem evaluation_never_blocks (now original_image_path amendment_image_path : string)
    (enable_guardrails enable_evaluation enable_llm_eval : bool)
    (enable_evaluation' enable_llm_eval' : bool) :
  without_metadata
    (process_contract_comparison_enhanced now original_image_path
       amendment_image_path enable_guardrails enable_evaluation enable_llm_eval)
  = without_metadata
      (process_contract_comparison_enhanced now original_image_path
         amendment_image_path enable_guardrails enable_evaluation'
         enable_llm_eval').
Proof.
  unfold process_contract_comparison_enhanced. cbv zeta.
  fold (initial_metadata enable_guardrails enable_evaluation enable_llm_eval).
  fold (initial_metadata enable_guardrails enable_evaluation' enable_llm_eval').
  pose proof (parse_and_validate_metadata_free "Original" "original"
                original_image_path enable_guardrails
                (initial_metadata enable_guardrails enable_evaluation
                   enable_llm_eval)
                (initial_metadata enable_guardrails enable_evaluation'
                   enable_llm_eval')) as Hone.
  destruct (parse_and_validate "Original" "original" original_image_path
              enable_guardrails
              (initial_metadata enable_guardrails enable_evaluation
                 enable_llm_eval)) as [[o m1]|e1],
           (parse_and_validate "Original" "original" original_image_path
              enable_guardrails
              (initial_metadata enable_guardrails enable_evaluation'
                 enable_llm_eval')) as [[o' m1']|e1'];
    try contradiction; subst;
    cbn [reraise mbind outcome_mbind outcome_bind without_metadata];
    [|reflexivity].
  pose proof (parse_and_validate_metadata_free "Amendment" "amendment"
                amendment_image_path enable_guardrails m1 m1') as Htwo.
  destruct (parse_and_validate "Amendment" "amendment" amendment_image_path
              enable_guardrails m1) as [[a m2]|e2],
           (parse_and_validate "Amendment" "amendment" amendment_image_path
              enable_guardrails m1') as [[a' m2']|e2'];
    try contradiction; subst;
    cbn [reraise mbind outcome_mbind outcome_bind without_metadata];
    [|reflexivity].
  destruct (analyze o' a') as [ctx|e3];
    cbn [call reraise mbind outcome_mbind outcome_bind without_metadata];
    [|reflexivity].
  destruct (extract_changes o' a' ctx) as [ch|e4];
    cbn [call reraise mbind outcome_mbind outcome_bind without_metadata];
    reflexivity.
Qed.

Lemma add_warnings_fields (label : string) (texts : list string) (m : Metadata) :
  evaluation_results (add_warnings label texts m) = evaluation_results m
  ∧ errors (add_warnings label texts m) = errors m
  ∧ warnings (add_warnings label texts m)
    = warnings m ++ map (fun text => label +:+ ": " +:+ text) texts.
Proof.
  unfold add_warnings. revert m.
  induction texts as [|text texts IH]; intros m; cbn [fold_left map].
  - rewrite app_nil_r. auto.
  - destruct (IH (add_warning m (label +:+ ": " +:+ text))) as (He & Hr & Hw).
    rewrite He, Hr, Hw. cbn [add_warning evaluation_results errors warnings].
    rewrite <- app_assoc. auto.
Qed.

Lemma add_errors_fields (label : string) (texts : list string) (m : Metadata) :
  evaluation_results (add_errors label texts m) = evaluation_results m
  ∧ warnings (add_errors label texts m) = warnings m
  ∧ errors (add_errors label texts m)
    = errors m ++ map (fun text => label +:+ ": " +:+ text) texts.
Proof.
  unfold add_errors. revert m.
  induction texts as [|text texts IH]; intros m; cbn [fold_left map].
  - rewrite app_nil_r. auto.
  - destruct (IH (add_error m (label +:+ ": " +:+ text))) as (He & Hw & Hr).
    rewrite He, Hr, Hw. cbn [add_error evaluation_results errors warnings].
    rewrite <- app_assoc. auto.
Qed.

(** A parsing step that completes leaves the evaluation results and the
    errors of the metadata as they were. *)
Lemma parse_and_validate_fields (label document_type image_path : string)
    (enable_guardrails : bool) (m m' : Metadata) (contract : ParsedContract) :
  parse_and_validate label document_type image_path enable_guardrails m
  = Returned (contract, m') →
  evaluation_results m' = evaluation_results m ∧ errors m' = errors m.
Proof.
  intros Hret. apply parse_and_validate_returned in Hret as [_ Hm].
  destruct enable_guardrails.
  - destruct Hm as (v & _ & _ & _ & ->).
    destruct (add_warnings_fields label (Guardrails.warnings v)
                (set_guardrails_result document_type v m)) as (He & Hr & _).
    rewrite He, Hr. split; reflexivity.
  - subst m'. split; reflexivity.
Qed.

(** The errors of [validate_output]: the one about the summary, or none. *)
Lemma validate_output_errors (output : ContractChangeOutput)
    (original amendment : ParsedContract) :
  let r := Guardrails.validate_output output original amendment in
  Guardrails.errors r
  = (if (String.length (summary_of_the_change output) <? 100)%nat
     then ["Summary too short"] else [])
  ∧ Guardrails.is_valid r
    = negb (String.length (summary_of_the_change output) <? 100)%nat.
Proof.
  unfold Guardrails.validate_output. cbv zeta.
  destruct (length (sections_changed output) =? 0)%nat,
           (String.length (summary_of_the_change output) <? 100)%nat;
    match goal with
    | |- context [if ?b then Guardrails.add_warning
                               "Topics do not appear in source documents - possible hallucination"
                               _
                  else _] => destruct b
    end;
    destruct (length (topics_touched output) =? 0)%nat;
    split; reflexivity.
Qed.

Lemma validate_output_step_fields (changes : ContractChangeOutput)
    (original amendment : ParsedContract) (m : Metadata) :
  evaluation_results (validate_output_step changes original amendment m)
  = evaluation_results m
  ∧ errors (validate_output_step changes original amendment m)
    = errors m
      ++ (if (String.length (summary_of_the_change changes) <? 100)%nat
          then ["Output: Summary too short"] else []).
Proof.
  unfold validate_output_step. cbv zeta.
  destruct (validate_output_errors changes original amendment) as [Herr Hvalid].
  cbv zeta in Herr, Hvalid.
  match goal with
  | |- context [add_warnings "Output" ?ws ?m0] =>
      destruct (add_warnings_fields "Output" ws m0) as (He & Hr & _)
  end.
  rewrite He, Hr, Hvalid, Herr.
  destruct (String.length (summary_of_the_change changes) <? 100)%nat;
    cbn [negb].
  - match goal with
    | |- context [add_errors "Output" ?es ?m0] =>
        destruct (add_errors_fields "Output" es m0) as (He' & _ & Hr')
    end.
    rewrite He', Hr'. split; reflexivity.
  - cbn [set_guardrails_result evaluation_results errors].
    rewrite app_nil_r. split; reflexivity.
Qed.

(** The log lines of STEP 6 find the five scores in every result that
    [evaluate_output] returns. *)
Lemma logged_scores_total (now : string) (changes : ContractChangeOutput)
    (original amendment : ParsedContract) (context : AgentContext)
    (evaluation : Evaluator.EvalResults) :
  Evaluator.evaluate_output now changes original amendment context
  = Ok evaluation →
  logged_scores evaluation = Ok tt.
Proof.
  intros Hev.
  destruct (evaluate_output_outcome now changes original amendment context)
    as (r & c & a & cl & re & co & _ & Hds & Hout).
  destruct (Py.ltb c 70); [congruence|].
  destruct Hout as [recs Hout]. rewrite Hout in Hev. injection Hev as <-.
  unfold logged_scores. cbn [Evaluator.dimension_scores]. rewrite Hds.
  reflexivity.
Qed.

(** STEP 6 by the sizes of the inputs of the evaluation. *)
Lemma evaluate_step_outcome (now : string) (changes : ContractChangeOutput)
    (original amendment : ParsedContract) (context : AgentContext)
    (enable_llm_eval : bool) (m : Metadata) :
  let m' :=
    evaluate_step now changes original amendment context enable_llm_eval m in
  errors m' = errors m
  ∧ if completeness_reaches_70 changes context
    then ∃ evaluation,
           Evaluator.evaluate_output now changes original amendment context
           = Ok evaluation
           ∧ evaluation_results m'
             = {| rule_based := Some evaluation;
                  llm_based :=
                    if enable_llm_eval
                    then Some (evaluate_with_llm changes original amendment)
                    else llm_based (evaluation_results m) |}
           ∧ warnings m' = warnings m
    else evaluation_results m' = evaluation_results m
         ∧ warnings m'
           = warnings m
             ++ ["Evaluation: "
                 +:+ str_of_exn (TypeError "object of type 'int' has no len()")].
Proof.
  cbv zeta. unfold evaluate_step.
  pose proof (evaluate_output_by_sizes now changes original amendment context)
    as Hsize.
  destruct (completeness_reaches_70 changes context).
  - destruct Hsize as [evaluation Hev]. rewrite Hev.
    rewrite (logged_scores_total _ _ _ _ _ _ Hev).
    destruct enable_llm_eval; (split; [reflexivity|]);
      exists evaluation; split_and!; reflexivity.
  - rewrite Hsize. split_and!; reflexivity.
Qed.

(** X24.  When the workflow returns with the evaluation switched on, its
    metadata holds the rule-based evaluation exactly when the completeness
    score reaches 70; otherwise the [TypeError] of the evaluation has become
    the last warning, no evaluation result is stored, and the evaluation by
    the language model is skipped even if it was requested. *)
Theorem evaluation_results_by_sizes (now original_image_path amendment_image_path : string)
    (enable_guardrails enable_llm_eval : bool) (changes : ContractChangeOutput)
    (trace_id : option string) (metadata : Metadata) :
  process_contract_comparison_enhanced now original_image_path
    amendment_image_path enable_guardrails true enable_llm_eval
  = Returned (changes, trace_id, metadata) →
  ∃ original amendment context,
    parse_contract_image original_image_path "original" = Ok original
    ∧ parse_contract_image amendment_image_path "amendment" = Ok amendment
    ∧ analyze original amendment = Ok context
    ∧ if completeness_reaches_70 changes context
      then ∃ evaluation,
             Evaluator.evaluate_output now changes original amendment context
             = Ok evaluation
             ∧ evaluation_results metadata
               = {| rule_based := Some evaluation;
                    llm_based :=
                      if enable_llm_eval
                      then Some (evaluate_with_llm changes original amendment)
                      else None |}
      else evaluation_results metadata
           = {| rule_based := None; llm_based := None |}
           ∧ last (warnings metadata)
             = Some ("Evaluation: "
                     +:+ str_of_exn
                           (TypeError "object of type 'int' has no len()")).
Proof.
  intros Hret.
  apply process_returned in Hret
    as (o & m1 & a & m2 & ctx & Ho & Ha & Hc & Hx & _ & ->).
  destruct (parse_and_validate_fields _ _ _ _ _ _ _ Ho) as [He1 _].
  destruct (parse_and_validate_fields _ _ _ _ _ _ _ Ha) as [He2 _].
  apply parse_and_validate_returned in Ho as [Ho _].
  apply parse_and_validate_returned in Ha as [Ha _].
  exists o, a, ctx. split_and!; try assumption. cbv zeta.
  match goal with
  | |- context [evaluate_step now changes o a ctx enable_llm_eval ?m] =>
      assert (evaluation_results m = {| rule_based := None; llm_based := None |})
        as Hbefore;
      [|destruct (evaluate_step_outcome now changes o a ctx enable_llm_eval m)
          as [_ Hstep]; cbv zeta in Hstep]
  end.
  { destruct enable_guardrails.
    - rewrite (proj1 (validate_output_step_fields changes o a m2)).
      rewrite He2, He1. reflexivity.
    - rewrite He2, He1. reflexivity. }
  destruct (completeness_reaches_70 changes ctx).
  - destruct Hstep as (evaluation & Hev & Hres & _).
    exists evaluation. split; [exact Hev|]. rewrite Hres, Hbefore.
    destruct enable_llm_eval; reflexivity.
  - destruct Hstep as [Hres Hw]. rewrite Hres, Hbefore, Hw.
    split; [reflexivity | apply last_snoc].
Qed.

(** X25.  The metadata the workflow returns never carries an error of the
    input guardrail: its errors are the single entry about a summary shorter
    than 100 characters when the guardrails are on, and none otherwise. *)
Theorem returned_errors (now original_image_path amendment_image_path : string)
    (enable_guardrails enable_evaluation enable_llm_eval : bool)
    (changes : ContractChangeOutput) (trace_id : option string)
    (metadata : Metadata) :
  process_contract_comparison_enhanced now original_image_path
    amendment_image_path enable_guardrails enable_evaluation enable_llm_eval
  = Returned (changes, trace_id, metadata) →
  errors metadata
  = if enable_guardrails
       && (String.length (summary_of_the_change changes) <? 100)%nat
    then ["Output: Summary too short"] else [].
Proof.
  intros Hret.
  apply process_returned in Hret
    as (o & m1 & a & m2 & ctx & Ho & Ha & Hc & Hx & _ & ->).
  destruct (parse_and_validate_fields _ _ _ _ _ _ _ Ho) as [_ Hr1].
  destruct (parse_and_validate_fields _ _ _ _ _ _ _ Ha) as [_ Hr2].
  cbv zeta.
  assert (errors m2 = []) as Hm2 by (rewrite Hr2, Hr1; reflexivity).
  assert (errors (if enable_guardrails
                  then validate_output_step changes o a m2 else m2)
          = if enable_guardrails
               && (String.length (summary_of_the_change changes) <? 100)%nat
            then ["Output: Summary too short"] else []) as Hm.
  { destruct enable_guardrails; cbn [andb]; [|exact Hm2].
    rewrite (proj2 (validate_output_step_fields changes o a m2)), Hm2.
    reflexivity. }
  destruct enable_evaluation; [|exact Hm].
  rewrite (proj1 (evaluate_step_outcome now changes o a ctx enable_llm_eval _)).
  exact Hm.
Qed.

End WorkflowProperties.

Lemma workflow_completes_iff_witness :
  ∃ trace_id metadata,
    @Pipeline.process_contract_comparison_enhanced
      WorkflowExamples.file_host
      (WorkflowExamples.scripted_services Examples.full_changes)
      Examples.timestamp_text "original.png" "amendment.png" true true false
    = Pipeline.Returned (Examples.full_changes, trace_id, metadata).
Proof.
  apply (proj2 (@workflow_completes_iff
                  WorkflowExamples.file_host
                  (WorkflowExamples.scripted_services Examples.full_changes)
                  Examples.timestamp_text "original.png" "amendment.png"
                  true false Examples.full_changes)).
  exists Examples.original_doc, Examples.amendment_doc,
         Examples.two_area_context.
  unfold passes_input_checks.
  split_and!; try reflexivity.
  - destruct (@Guardrails.validate_input WorkflowExamples.file_host
                Guardrails.default_guardrails Examples.original_doc
                (Some "original.png")) as [v|e] eqn:Hv;
      [|vm_compute in Hv; discriminate Hv].
    exists v. split; [reflexivity|].
    vm_compute in Hv. injection Hv as <-. reflexivity.
  - destruct (@Guardrails.validate_input WorkflowExamples.file_host
                Guardrails.default_guardrails Examples.amendment_doc
                (Some "amendment.png")) as [v|e] eqn:Hv;
      [|vm_compute in Hv; discriminate Hv].
    exists v. split; [reflexivity|].
    vm_compute in Hv. injection Hv as <-. reflexivity.
Defined.

Lemma evaluation_results_by_sizes_witness :
  ∃ trace_id metadata,
    @Pipeline.process_contract_comparison_enhanced
      WorkflowExamples.file_host
      (WorkflowExamples.scripted_services Examples.partial_changes)
      Examples.timestamp_text "original.png" "amendment.png" true true true
    = Pipeline.Returned (Examples.partial_changes, trace_id, metadata)
    ∧ Pipeline.evaluation_results metadata
      = {| Pipeline.rule_based := None; Pipeline.llm_based := None |}
    ∧ last (Pipeline.warnings metadata)
      = Some "Evaluation: object of type 'int' has no len()".
Proof.
  destruct (@Pipeline.process_contract_comparison_enhanced
              WorkflowExamples.file_host
              (WorkflowExamples.scripted_services Examples.partial_changes)
              Examples.timestamp_text "original.png" "amendment.png"
              true true true) as [[[changes trace_id] metadata]|error_msg] eqn:E;
    [|vm_compute in E; discriminate E].
  assert (changes = Examples.partial_changes) as ->.
  { pose proof E as E'. vm_compute in E'. injection E' as <- _ _. reflexivity. }
  exists trace_id, metadata. split; [reflexivity|].
  destruct (@evaluation_results_by_sizes
              WorkflowExamples.file_host
              (WorkflowExamples.scripted_services Examples.partial_changes)
              _ _ _ _ _ _ _ _ E)
    as (o & a & ctx & _ & _ & Hctx & Hout).
  injection Hctx as <-. exact Hout.
Defined.

Lemma returned_errors_witness :
  ∃ trace_id metadata,
    @Pipeline.process_contract_comparison_enhanced
      WorkflowExamples.file_host
      (WorkflowExamples.scripted_services Examples.short_summary_changes)
      Examples.timestamp_text "original.png" "amendment.png" true true false
    = Pipeline.Returned (Examples.short_summary_changes, trace_id, metadata)
    ∧ Pipeline.errors metadata = ["Output: Summary too short"].
Proof.
  destruct (@Pipeline.process_contract_comparison_enhanced
              WorkflowExamples.file_host
              (WorkflowExamples.scripted_services Examples.short_summary_changes)
              Examples.timestamp_text "original.png" "amendment.png"
              true true false) as [[[changes trace_id] metadata]|error_msg] eqn:E;
    [|vm_compute in E; discriminate E].
  assert (changes = Examples.short_summary_changes) as ->.
  { pose proof E as E'. vm_compute in E'. injection E' as <- _ _. reflexivity. }
  exists trace_id, metadata. split; [reflexivity|].
  exact (@returned_errors
           WorkflowExamples.file_host
           (WorkflowExamples.scripted_services Examples.short_summary_changes)
           _ _ _ _ _ _ _ _ _ E).
Defined.

(** * The values of the clarity and relevance scores *)

Section DimensionValues.
Import Models Evaluator.

Lemma single_sentence_average (n : nat) :
  (Py.ltb (Py.of_nat (Py.sum_nat [n]) / Py.of_nat 1) 10 = true ↔ (n < 10)%nat)
  ∧ (Py.ltb 50 (Py.of_nat (Py.sum_nat [n]) / Py.of_nat 1) = true ↔ (50 < n)%nat).
Proof.
  assert (Py.of_nat (Py.sum_nat [n]) / Py.of_nat 1 == inject_Z (Z.of_nat n))%Q
    as Havg.
  { unfold Py.sum_nat, Py.of_nat. cbn [fold_left]. rewrite Nat.add_0_l.
    change (inject_Z (Z.of_nat 1)) with 1%Q. field. }
  split.
  - destruct (ltb_spec (Py.of_nat (Py.sum_nat [n]) / Py.of_nat 1) 10)
      as [Hlt|Hge]; rewrite Havg in *.
    + change 10%Q with (inject_Z 10) in Hlt. rewrite <- Zlt_Qlt in Hlt.
      split; [intros _; lia | reflexivity].
    + change 10%Q with (inject_Z 10) in Hge. rewrite <- Zle_Qle in Hge.
      split; [discriminate | lia].
  - destruct (ltb_spec 50 (Py.of_nat (Py.sum_nat [n]) / Py.of_nat 1))
      as [Hlt|Hge]; rewrite Havg in *.
    + change 50%Q with (inject_Z 50) in Hlt. rewrite <- Zlt_Qlt in Hlt.
      split; [intros _; lia | reflexivity].
    + change 50%Q with (inject_Z 50) in Hge. rewrite <- Zle_Qle in Hge.
      split; [discriminate | lia].
Qed.

(** X26.  The clarity score takes one of six values: 100, 90, 80, 72, 70 or
    56.  It is below 70, the level under which recommendations are made,
    exactly when the summary is a single sentence of fewer than 10 or more
    than 50 words. *)
Theorem clarity_score_values (changes : ContractChangeOutput) (r : EvalResults) :
  ∃ r' c,
    _evaluate_clarity changes r = Ok r'
    ∧ dimension_scores r' = Dict.set "clarity" c (dimension_scores r)
    ∧ (c == 100 ∨ c == 90 ∨ c == 80 ∨ c == 72 ∨ c == 70 ∨ c == 56)%Q
    ∧ ((c < 70)%Q ↔
       ∃ s, split_sentences (summary_of_the_change changes) = [s]
            ∧ ((length (PyStr.split s) < 10)%nat
               ∨ (50 < length (PyStr.split s))%nat)).
Proof.
  unfold _evaluate_clarity. cbv zeta.
  destruct (split_sentences (summary_of_the_change changes))
    as [|s [|s2 rest]] eqn:Hs.
  - cbn [mbind Res_bind length Nat.eqb Nat.ltb Nat.leb andb].
    rewrite andb_false_r. eexists _, _. split; [reflexivity|].
    split; [reflexivity|]. rewrite clamp_id by (split; lra). split.
    + left. reflexivity.
    + split; [intros Hlt; lra | intros (s & Hnil & _); discriminate Hnil].
  - rewrite truediv_of_nat by (simpl; lia).
    cbn [mbind Res_bind length Nat.eqb Nat.ltb Nat.leb map].
    rewrite andb_false_r.
    destruct (single_sentence_average (length (PyStr.split s))) as [Hlow Hhigh].
    destruct (Py.ltb (Py.of_nat (Py.sum_nat [length (PyStr.split s)])
                      / Py.of_nat 1) 10) eqn:Elow;
      destruct (Py.ltb 50 (Py.of_nat (Py.sum_nat [length (PyStr.split s)])
                           / Py.of_nat 1)) eqn:Ehigh;
      cbn [orb]; eexists _, _; (split; [reflexivity|]);
      (split; [reflexivity|]); rewrite clamp_id by (split; lra);
      (split; [solve [repeat first [lra | left; lra | right]]|]);
      split;
      try (intros _; exists s; split; [reflexivity|];
           first [left; apply Hlow; reflexivity
                 | right; apply Hhigh; reflexivity]);
      try (intros Hlt; exfalso; lra);
      try (intros _; lra).
    intros (s' & Heq & Hwords). injection Heq as <-. exfalso.
    destruct Hwords as [Hw|Hw];
      [apply Hlow in Hw | apply Hhigh in Hw]; discriminate Hw.
  - rewrite truediv_of_nat by (simpl; lia).
    cbn [mbind Res_bind length Nat.eqb].
    match goal with
    | |- context [Py.ltb ?avg 10 || Py.ltb 50 ?avg] =>
        destruct (Py.ltb avg 10 || Py.ltb 50 avg)
    end;
      match goal with
      | |- context [negb ?hs && ?more] => destruct (negb hs && more)
      end;
      eexists _, _; (split; [reflexivity|]); (split; [reflexivity|]);
      rewrite clamp_id by (split; lra);
      (split; [solve [repeat first [lra | left; lra | right]]|]);
      (split; [intros Hlt; exfalso; lra
              | intros (s' & Heq & _); discriminate Heq]).
Qed.

Lemma count_le_length {A : Type} (p : A → bool) (l : list A) :
  0 <= count p l <= Z.of_nat (length l).
Proof.
  unfold count. pose proof (List.filter_length_le p l). lia.
Qed.

Lemma generic_factor (g t : Z) :
  0 < g → g <= t →
  (7 # 10 <= 1 - inject_Z g / inject_Z t * 0.3)%Q
  ∧ (1 - inject_Z g / inject_Z t * 0.3 < 1)%Q.
Proof.
  intros Hg Hgt.
  assert (0 < inject_Z t)%Q as Ht
    by (change 0%Q with (inject_Z 0); rewrite <- Zlt_Qlt; lia).
  assert (0 < inject_Z g / inject_Z t)%Q as Hpos.
  { apply Qlt_shift_div_l; [exact Ht|].
    rewrite Qmult_0_l. change 0%Q with (inject_Z 0). rewrite <- Zlt_Qlt. lia. }
  assert (inject_Z g / inject_Z t <= 1)%Q as Hone.
  { apply Qle_shift_div_r; [exact Ht|].
    rewrite Qmult_1_l. rewrite <- Zle_Qle. lia. }
  split; lra.
Qed.

(** X27.  The relevance score always lies between 28 and 100.  It is 100
    exactly when no topic contains a generic word, no section is one of the
    three broad references, and the number of topics is neither more than
    twice nor less than half the number of sections. *)
Theorem relevance_score_bounds (changes : ContractChangeOutput)
    (original amendment : ParsedContract) (r : EvalResults) :
  let generic_count :=
    count (fun topic =>
             existsb (fun gen => PyStr.contains (PyStr.lower topic) gen)
               generic_topics)
          (topics_touched changes) in
  let broad :=
    existsb
      (fun section =>
         bool_decide (PyStr.lower section
                      ∈ ["all sections"; "entire document"; "whole contract"]))
      (sections_changed changes) in
  ∃ r' c,
    _evaluate_relevance changes original amendment r = Ok r'
    ∧ dimension_scores r' = Dict.set "relevance" c (dimension_scores r)
    ∧ (28 <= c)%Q ∧ (c <= 100)%Q
    ∧ ((c == 100)%Q ↔
       generic_count = 0 ∧ broad = false
       ∧ (length (topics_touched changes)
          <= 2 * length (sections_changed changes))%nat
       ∧ (length (sections_changed changes)
          <= 2 * length (topics_touched changes))%nat).
Proof.
  intros generic_count broad. unfold _evaluate_relevance. cbv zeta.
  fold generic_count. fold broad.
  pose proof (count_le_length
                (fun topic =>
                   existsb (fun gen => PyStr.contains (PyStr.lower topic) gen)
                     generic_topics)
                (topics_touched changes)) as Hcount.
  fold generic_count in Hcount.
  set (t := length (topics_touched changes)) in *.
  set (s := length (sections_changed changes)) in *.
  assert (Py.ltb (inject_Z (Z.of_nat t)) (inject_Z (Z.of_nat s) * 0.5) = true
          ↔ (2 * t < s)%nat) as Hhalf.
  { assert ((inject_Z (Z.of_nat t) < inject_Z (Z.of_nat s) * 0.5)%Q
            ↔ (2 * t < s)%nat) as Hq
      by (unfold Qlt, inject_Z; simpl; lia).
    destruct (ltb_spec (inject_Z (Z.of_nat t)) (inject_Z (Z.of_nat s) * 0.5))
      as [Hlt|Hge].
    - split; [intros _; apply Hq, Hlt | reflexivity].
    - split; [discriminate|]. intros Hlt. apply Hq in Hlt. lra. }
  destruct (Z.gtb_spec generic_count 0) as [Hpos|Hzero].
  - unfold Py.of_nat. rewrite truediv_inject_Z by lia. cbn [mbind Res_bind].
    destruct (generic_factor generic_count (Z.of_nat t) Hpos ltac:(lia))
      as [Hlo Hhi].
    set (a := (1 - inject_Z generic_count / inject_Z (Z.of_nat t) * 0.3)%Q) in *.
    destruct broad;
      destruct (Z.gtb_spec (Z.of_nat t) (Z.of_nat s * 2));
      destruct (Py.ltb (inject_Z (Z.of_nat t)) (inject_Z (Z.of_nat s) * 0.5));
      eexists _, _; (split; [reflexivity|]); (split; [reflexivity|]);
      rewrite clamp_id by (split; lra);
      (split; [lra|]); (split; [lra|]);
      (split; [intros Heq; exfalso; lra | intros (Hg & _); lia]).
  - cbn [mbind Res_bind].
    assert (generic_count = 0) as Hg by lia.
    destruct broad;
      destruct (Z.gtb_spec (Z.of_nat t) (Z.of_nat s * 2)) as [Hmany|Hfew];
      destruct (Py.ltb (inject_Z (Z.of_nat t)) (inject_Z (Z.of_nat s) * 0.5))
        eqn:Ehalf;
      eexists _, _; (split; [reflexivity|]); (split; [reflexivity|]);
      rewrite clamp_id by (split; lra);
      (split; [lra|]); (split; [lra|]);
      split;
      try (intros Heq; exfalso; lra);
      try (intros (_ & Hb & Ht & Hs);
           first [discriminate Hb | lia
                 | exfalso; pose proof (proj1 Hhalf eq_refl); lia]).
    + intros _. split_and!; [exact Hg | reflexivity | lia |].
      destruct (Nat.le_gt_cases s (2 * t)) as [Hle|Hgt]; [exact Hle|].
      apply Hhalf in Hgt. discriminate Hgt.
    + intros _. reflexivity.
Qed.

End DimensionValues.
